(** * KinPeek admin console: a shallow embedding of the client scripts

    Two scripts are embedded: the console built around [apiRequest]
    (module [Console]) and the older [static/admin.js] (module [Legacy]).

    Conventions of the embedding.
    - A JavaScript string is a sequence of UTF-16 code units; a [string]
      here lists code units below 256, one [ascii] each.  Every character
      the scripts or the DOM serialiser treat specially lies in that range.
    - A JavaScript number is an integer of [Z] or [NaN]; the integers that
      occur (identifiers, day counts, millisecond time stamps) are far below
      2^53, where double arithmetic on integers is exact.
    - A listener is a computation over the page: it reads and writes the
      elements it holds, may raise an error, and leaves on a trace the
      requests it sends and their settlements, in order.  The scripts await
      every request before they go on, and the calls of [fetchSharedVideos]
      and [loadVideos] that they do not await come last in their listener or
      commute with what follows, so a listener runs from its first statement
      to its last.  Two listeners started by separate user actions are not
      interleaved here.
    - What the scripts take from their environment (the server, the answer
      to [confirm], date parsing and formatting, the wording of the
      engine's own errors, the defaults of the form in the page markup) is a
      parameter, the class [Platform]. *)

From Stdlib Require Import String Ascii List ZArith Lia Bool.
From Stdlib Require Import DecimalString DecimalPos DecimalZ.
Import ListNotations.
Local Open Scope string_scope.
Local Open Scope Z_scope.
Local Set Warnings "-register-all".

(** ** Characters and strings *)

Definition dquote : ascii := "034"%char.
Definition nbsp : ascii := "160"%char.
Definition newline : ascii := "010"%char.

(** [q s] is [s] between double quotes, as written in the markup. *)
Definition q (s : string) : string := String dquote (s ++ String dquote "").

Fixpoint spaces (n : nat) : string :=
  match n with O => "" | S k => String " " (spaces k) end.

(** A line break of a template literal followed by its indentation. *)
Definition nl (n : nat) : string := String newline (spaces n).

Fixpoint contains (needle s : string) : bool :=
  match s with
  | EmptyString => String.prefix needle ""
  | String _ rest => String.prefix needle s || contains needle rest
  end.

Fixpoint has_char (c : ascii) (s : string) : bool :=
  match s with
  | EmptyString => false
  | String a rest => Ascii.eqb a c || has_char c rest
  end.

(** ** JavaScript numbers *)

Inductive number : Type :=
| Num (z : Z)
| NaN.

Definition isNaN (n : number) : bool :=
  match n with NaN => true | Num _ => false end.

Definition Number_toString (n : number) : string :=
  match n with
  | NaN => "NaN"
  | Num z => NilZero.string_of_int (Z.to_int z)
  end.

(** [Math.max(a, b)]: [NaN] if either argument is. *)
Definition Math_max (a b : number) : number :=
  match a, b with
  | Num x, Num y => Num (Z.max x y)
  | _, _ => NaN
  end.

(** [a - b] on numbers. *)
Definition num_sub (a b : number) : number :=
  match a, b with
  | Num x, Num y => Num (x - y)
  | _, _ => NaN
  end.

(** [Math.ceil(a / d)] for a positive integer constant [d]. *)
Definition ceil_div (a : number) (d : Z) : number :=
  match a with
  | Num x => Num (- ((- x) / d))
  | NaN => NaN
  end.

(** *** parseInt *)

(** White space that [parseInt] skips (the code units below 256 of
    WhiteSpace and LineTerminator). *)
Definition isWhiteSpace (c : ascii) : bool :=
  let n := nat_of_ascii c in
  (Nat.eqb n 9 || Nat.eqb n 10 || Nat.eqb n 11 || Nat.eqb n 12
   || Nat.eqb n 13 || Nat.eqb n 32 || Nat.eqb n 160)%bool.

Fixpoint trimStart (s : string) : string :=
  match s with
  | String c rest => if isWhiteSpace c then trimStart rest else s
  | EmptyString => EmptyString
  end.

Definition digit_value (c : ascii) : option Z :=
  let n := Z.of_nat (nat_of_ascii c) in
  if (48 <=? n) && (n <=? 57) then Some (n - 48)
  else if (97 <=? n) && (n <=? 122) then Some (n - 87)
  else if (65 <=? n) && (n <=? 90) then Some (n - 55)
  else None.

(** The longest prefix of radix-[R] digits, accumulated; [acc] is [NaN]
    until a digit has been read. *)
Fixpoint parse_digits (R : Z) (s : string) (acc : number) : number :=
  match s with
  | EmptyString => acc
  | String c rest =>
      match digit_value c with
      | Some d =>
          if d <? R
          then parse_digits R rest
                 (Num (R * (match acc with Num a => a | NaN => 0 end) + d))
          else acc
      | None => acc
      end
  end.

Definition strip_sign (s : string) : Z * string :=
  match s with
  | String c rest =>
      if Ascii.eqb c "-" then (-1, rest)
      else if Ascii.eqb c "+" then (1, rest)
      else (1, s)
  | EmptyString => (1, s)
  end.

Definition apply_sign (sign : Z) (n : number) : number :=
  match n with Num z => Num (sign * z) | NaN => NaN end.

(** [parseInt(s, 10)]. *)
Definition parseInt10 (s : string) : number :=
  let '(sign, body) := strip_sign (trimStart s) in
  apply_sign sign (parse_digits 10 body NaN).

(** The rest of [s] after a leading [0x] or [0X]. *)
Definition hex_prefix (s : string) : option string :=
  match s with
  | String c0 (String c1 hex) =>
      if Ascii.eqb c0 "0" && (Ascii.eqb c1 "x" || Ascii.eqb c1 "X")
      then Some hex else None
  | _ => None
  end.

(** [parseInt(s)] without a radix: a [0x]/[0X] prefix selects radix 16. *)
Definition parseInt (s : string) : number :=
  let '(sign, body) := strip_sign (trimStart s) in
  match hex_prefix body with
  | Some hex => apply_sign sign (parse_digits 16 hex NaN)
  | None => apply_sign sign (parse_digits 10 body NaN)
  end.

(** ** JavaScript values, as [JSON.parse] and the scripts produce them *)

Inductive jsval : Type :=
| JUndefined
| JNull
| JBool (b : bool)
| JNum (n : number)
| JStr (s : string)
| JArr (items : list jsval)
| JObj (fields : list (string * jsval)).

(** Truthiness, as [if (v)], [!v] and [a || b] test it. *)
Definition truthy (v : jsval) : bool :=
  match v with
  | JUndefined | JNull => false
  | JBool b => b
  | JNum (Num z) => negb (z =? 0)
  | JNum NaN => false
  | JStr s => negb (String.eqb s "")
  | JArr _ | JObj _ => true
  end.

Fixpoint join (sep : string) (parts : list string) : string :=
  match parts with
  | [] => ""
  | [p] => p
  | p :: rest => p ++ sep ++ join sep rest
  end.

(** String conversion, as a template literal, [new Error(v)] or a DOM
    setter applies it.  Objects print as [[object Object]] (objects received
    as JSON carry no function of their own to print otherwise); arrays join
    their items with commas, [null] and [undefined] items printing empty. *)
Fixpoint ToString (v : jsval) : string :=
  match v with
  | JUndefined => "undefined"
  | JNull => "null"
  | JBool true => "true"
  | JBool false => "false"
  | JNum n => Number_toString n
  | JStr s => s
  | JArr items =>
      join "," (map (fun i => match i with
                              | JUndefined | JNull => ""
                              | _ => ToString i
                              end) items)
  | JObj _ => "[object Object]"
  end.

Fixpoint lookup (k : string) (fields : list (string * jsval)) : jsval :=
  match fields with
  | [] => JUndefined
  | (k', v) :: rest => if String.eqb k k' then v else lookup k rest
  end.

(** *** JSON.stringify *)

Definition hex_digit (n : nat) : ascii :=
  ascii_of_nat (if Nat.ltb n 10 then 48 + n else 87 + n).

Definition quote_char (c : ascii) : string :=
  let n := nat_of_ascii c in
  if Nat.eqb n 34 then "\" ++ String dquote ""
  else if Nat.eqb n 92 then "\\"
  else if Nat.eqb n 8 then "\b"
  else if Nat.eqb n 12 then "\f"
  else if Nat.eqb n 10 then "\n"
  else if Nat.eqb n 13 then "\r"
  else if Nat.eqb n 9 then "\t"
  else if Nat.ltb n 32
       then "\u00" ++ String (hex_digit (Nat.div n 16))
                        (String (hex_digit (Nat.modulo n 16)) "")
  else String c "".

Fixpoint quote_chars (s : string) : string :=
  match s with
  | EmptyString => ""
  | String c rest => quote_char c ++ quote_chars rest
  end.

Definition QuoteJSONString (s : string) : string := q (quote_chars s).

(** Serialisation of a value that is not [undefined] at top level.
    Inside an object an [undefined] field is left out; inside an array it
    prints as [null]; [NaN] prints as [null]. *)
Fixpoint JSON_stringify (v : jsval) : string :=
  match v with
  | JUndefined => "null"
  | JNull => "null"
  | JBool true => "true"
  | JBool false => "false"
  | JNum NaN => "null"
  | JNum n => Number_toString n
  | JStr s => QuoteJSONString s
  | JArr items => "[" ++ join "," (map JSON_stringify items) ++ "]"
  | JObj fields =>
      "{" ++ join ","
        ((fix members (fs : list (string * jsval)) : list string :=
            match fs with
            | [] => []
            | (_, JUndefined) :: rest => members rest
            | (k, x) :: rest =>
                (QuoteJSONString k ++ ":" ++ JSON_stringify x) :: members rest
            end) fields) ++ "}"
  end.

(** ** Utility functions of the console *)

(** What [div.innerHTML] returns for a div holding one text node: the
    HTML fragment serialisation of the text. *)
Definition escape_char (c : ascii) : string :=
  if Ascii.eqb c "&" then "&amp;"
  else if Ascii.eqb c nbsp then "&nbsp;"
  else if Ascii.eqb c "<" then "&lt;"
  else if Ascii.eqb c ">" then "&gt;"
  else String c "".

Fixpoint serialize_text (s : string) : string :=
  match s with
  | EmptyString => ""
  | String c rest => escape_char c ++ serialize_text rest
  end.

(** [escapeHTML(str)]: [createTextNode] converts its argument to a string. *)
Definition escapeHTML (str : jsval) : string := serialize_text (ToString str).

Definition MS_PER_DAY : Z := 1000 * 60 * 60 * 24.

(** [calculateDaysRemaining(expiresAt)], with [now] the reading of the clock
    and [expiry] the time value of [new Date(expiresAt)] ([NaN] for an
    invalid date). *)
Definition calculateDaysRemaining (now : Z) (expiry : number) : number :=
  let diffTime := num_sub expiry (Num now) in
  let diffDays := ceil_div diffTime MS_PER_DAY in
  Math_max (Num 0) diffDays.

(** ** Reading an attribute back from markup *)

Definition is3 (a b c : ascii) (s : string) : bool :=
  String.eqb (String a (String b (String c ""))) s.

(** Character references of a double-quoted attribute value: the
    references the serialiser writes, and [&quot;]. *)
Fixpoint decode_refs (s : string) : string :=
  match s with
  | EmptyString => ""
  | String c rest =>
      if Ascii.eqb c "&" then
        match rest with
        | String c1 (String c2 (String c3 r3)) =>
            if is3 c1 c2 c3 "lt;" then String "<" (decode_refs r3)
            else if is3 c1 c2 c3 "gt;" then String ">" (decode_refs r3)
            else
              match r3 with
              | String c4 r4 =>
                  if is3 c1 c2 c3 "amp" && Ascii.eqb c4 ";"
                  then String "&" (decode_refs r4)
                  else
                    match r4 with
                    | String c5 r5 =>
                        if is3 c1 c2 c3 "nbs" && Ascii.eqb c4 "p" && Ascii.eqb c5 ";"
                        then String nbsp (decode_refs r5)
                        else if is3 c1 c2 c3 "quo" && Ascii.eqb c4 "t" && Ascii.eqb c5 ";"
                        then String dquote (decode_refs r5)
                        else String c (decode_refs rest)
                    | EmptyString => String c (decode_refs rest)
                    end
              | EmptyString => String c (decode_refs rest)
              end
        | _ => String c (decode_refs rest)
        end
      else String c (decode_refs rest)
  end.

Fixpoint up_to_quote (s : string) : string :=
  match s with
  | EmptyString => ""
  | String c rest => if Ascii.eqb c dquote then "" else String c (up_to_quote rest)
  end.

(** [getAttribute] on an element parsed from markup in which [text] was
    interpolated between the double quotes of the attribute: the value ends
    at the first double quote of [text]; its character references are
    decoded.  (Exact on the serialiser's output and on text without [&].) *)
Definition attr_value (text : string) : string := decode_refs (up_to_quote text).

(** ** Errors, the network and observable events *)

Inductive JsError : Type :=
| Error (message : string)
| TypeError (message : string)
| SyntaxError (message : string).

(** [error.message] *)
Definition message (e : JsError) : string :=
  match e with Error m | TypeError m | SyntaxError m => m end.

Inductive Outcome (A : Type) : Type :=
| Ok (a : A)
| Throw (e : JsError).
Arguments Ok {A} a.
Arguments Throw {A} e.

(** What [fetch(url, options)] sends.  [body] is [None] when the options
    carry no body. *)
Record Request : Type := mkRequest {
  url : string;
  method : string;
  headers : list (string * string);
  body : option string
}.

(** What the scripts read of a response: [status], the [content-length]
    header as [headers.get] returns it, and the result of [json()]. *)
Record Response : Type := mkResponse {
  status : Z;
  content_length : option string;
  json : Outcome jsval
}.

(** [response.ok] *)
Definition ok (r : Response) : bool := (200 <=? status r) && (status r <=? 299).

Inductive FetchResult : Type :=
| Resolved (r : Response)
| Rejected (e : JsError).

Inductive Event : Type :=
| EvFetch (r : Request)
| EvSettle (r : FetchResult)
| EvConfirm (text : string) (answer : bool)
| EvAlert (text : string)
| EvConsoleError (label detail : string).

(** Default values of the three inputs of the create form, which
    [form.reset()] restores; they are fixed by the page markup. *)
Record FormDefaults : Type := mkFormDefaults {
  default_name : string;
  default_stash_id : string;
  default_days : string
}.

(** The environment of the scripts: server and network, the user
    answering [confirm], the clock-independent parts of [Date], the
    messages the engine gives its own errors, and the page markup. *)
Class Platform : Type := {
  net : list Event -> Request -> FetchResult;
  confirm_answer : list Event -> string -> bool;
  Date_value : jsval -> number;
  toLocaleString : number -> string;
  null_property_message : jsval -> string -> string;
  not_a_function_message : string -> string;
  form_defaults : FormDefaults
}.

(** ** A state and exception monad for the handlers *)

Definition M (S A : Type) : Type := S -> Outcome A * S.

Definition ret {S A} (a : A) : M S A := fun w => (Ok a, w).

Definition bind {S A B} (m : M S A) (k : A -> M S B) : M S B :=
  fun w => match m w with
           | (Ok a, w') => k a w'
           | (Throw e, w') => (Throw e, w')
           end.

Definition throw {S A} (e : JsError) : M S A := fun w => (Throw e, w).

(** [try { m } catch (error) { handler }] *)
Definition try_catch {S A} (m : M S A) (handler : JsError -> M S A) : M S A :=
  fun w => match m w with
           | (Ok a, w') => (Ok a, w')
           | (Throw e, w') => handler e w'
           end.

Definition gets {S A} (f : S -> A) : M S A := fun w => (Ok (f w), w).
Definition modify {S} (f : S -> S) : M S unit := fun w => (Ok tt, f w).

Declare Scope js_scope.
Delimit Scope js_scope with js.
Notation "x <- c1 ;; c2" := (bind c1 (fun x => c2))
  (at level 61, c1 at next level, right associativity) : js_scope.
Notation "c1 ;; c2" := (bind c1 (fun _ => c2))
  (at level 61, right associativity) : js_scope.
Local Open Scope js_scope.

Fixpoint forEach_list {S} (items : list jsval) (f : jsval -> M S unit) : M S unit :=
  match items with
  | [] => ret tt
  | v :: rest => f v ;; forEach_list rest f
  end.

(** Number conversion of a value that is not a string, an array or an
    object. *)
Definition ToNumber (v : jsval) : number :=
  match v with
  | JNull | JBool false => Num 0
  | JBool true => Num 1
  | JNum n => n
  | _ => NaN
  end.

Definition is_stringish (v : jsval) : bool :=
  match v with JStr _ | JArr _ | JObj _ => true | _ => false end.

(** [a + b], as [totalHits += v.hits] computes it: concatenation as soon as
    one operand is a string (objects and arrays convert to strings),
    addition of numbers otherwise. *)
Definition js_add (a b : jsval) : jsval :=
  if is_stringish a || is_stringish b then JStr (ToString a ++ ToString b)
  else match ToNumber a, ToNumber b with
       | Num x, Num y => JNum (Num (x + y))
       | _, _ => JNum NaN
       end.

Module Engine.
Section Primitives.
Context {P : Platform} {S : Type}.
Variable get_trace : S -> list Event.
Variable set_trace : list Event -> S -> S.

Definition emit (ev : Event) : M S unit :=
  modify (fun w => set_trace (get_trace w ++ [ev]) w).

(** [await fetch(url, options)]: the request leaves, then the promise
    settles. *)
Definition fetch (r : Request) : M S Response :=
  emit (EvFetch r) ;;
  history <- gets get_trace ;;
  let result := net history r in
  emit (EvSettle result) ;;
  match result with
  | Resolved response => ret response
  | Rejected e => throw e
  end.

(** [await response.json()] *)
Definition response_json (r : Response) : M S jsval :=
  match json r with
  | Ok v => ret v
  | Throw e => throw e
  end.

(** [v.k] for a property name [k] that no prototype defines. *)
Definition prop (v : jsval) (k : string) : M S jsval :=
  match v with
  | JUndefined | JNull => throw (TypeError (null_property_message v k))
  | JObj fields => ret (lookup k fields)
  | _ => ret JUndefined
  end.

(** [v.forEach(f)] *)
Definition forEach (v : jsval) (f : jsval -> M S unit) : M S unit :=
  match v with
  | JUndefined | JNull => throw (TypeError (null_property_message v "forEach"))
  | JArr items => forEach_list items f
  | _ => throw (TypeError (not_a_function_message "forEach"))
  end.

Definition console_error (label : string) (e : JsError) : M S unit :=
  emit (EvConsoleError label (message e)).

Definition alert (text : string) : M S unit := emit (EvAlert text).

Definition confirm (text : string) : M S bool :=
  history <- gets get_trace ;;
  let answer := confirm_answer history text in
  emit (EvConfirm text answer) ;;
  ret answer.
End Primitives.
End Engine.
Import Engine.

(** ** The console built around [apiRequest] *)

Module Console.

(** The elements the script holds, each with the one property it uses:
    [style.display] of the two sections and the modal, [textContent] of the
    four message lines, [value] of the inputs. *)
Inductive Elem : Type :=
| loginSection | adminContent | editModal
| loginError | shareMessage | shareError | editError
| stashIdInput | videoNameInput | daysValidInput
| editShareIdInput | editVideoNameInput | editDaysValidInput.

Definition Elem_eqb (a b : Elem) : bool :=
  match a, b with
  | loginSection, loginSection | adminContent, adminContent
  | editModal, editModal | loginError, loginError
  | shareMessage, shareMessage | shareError, shareError
  | editError, editError | stashIdInput, stashIdInput
  | videoNameInput, videoNameInput | daysValidInput, daysValidInput
  | editShareIdInput, editShareIdInput
  | editVideoNameInput, editVideoNameInput
  | editDaysValidInput, editDaysValidInput => true
  | _, _ => false
  end.

(** The attributes the click handlers read from the buttons of a row. *)
Record Buttons : Type := mkButtons {
  copy_data_url : string;
  edit_data_share_id : string;
  edit_data_video_name : string;
  edit_data_days_valid : string;
  delete_data_share_id : string
}.

(** A row of the table body: the markup assigned to its [innerHTML], and
    its buttons when it has any. *)
Record Tr : Type := mkTr {
  markup : string;
  buttons : option Buttons
}.

Record World : Type := mkWorld {
  authToken : jsval;
  stored_token : option string;          (* localStorage, key kinpeek_token *)
  dom : Elem -> string;
  tbody : list Tr;                       (* sharedVideosTableBody *)
  clock : Z;                             (* new Date(), in milliseconds *)
  trace : list Event
}.

Definition set_authToken (v : jsval) (w : World) : World :=
  mkWorld v (stored_token w) (dom w) (tbody w) (clock w) (trace w).
Definition set_stored_token (v : option string) (w : World) : World :=
  mkWorld (authToken w) v (dom w) (tbody w) (clock w) (trace w).
Definition set_dom (e : Elem) (v : string) (w : World) : World :=
  mkWorld (authToken w) (stored_token w)
          (fun e' => if Elem_eqb e e' then v else dom w e')
          (tbody w) (clock w) (trace w).
Definition set_tbody (rows : list Tr) (w : World) : World :=
  mkWorld (authToken w) (stored_token w) (dom w) rows (clock w) (trace w).
Definition set_trace (t : list Event) (w : World) : World :=
  mkWorld (authToken w) (stored_token w) (dom w) (tbody w) (clock w) t.

Definition JS : Type -> Type := M World.

Definition assign (e : Elem) (v : string) : JS unit := modify (set_dom e v).
Definition value (e : Elem) : JS string := gets (fun w => dom w e).

Section Handlers.
Context {P : Platform}.

Definition fetch : Request -> JS Response := Engine.fetch trace set_trace.
Definition console_error : string -> JsError -> JS unit :=
  Engine.console_error trace set_trace.
Definition alert : string -> JS unit := Engine.alert trace set_trace.
Definition confirm : string -> JS bool := Engine.confirm trace set_trace.

(* --- Helper Functions --- *)

Definition showLogin : JS unit :=
  assign loginSection "block" ;;
  assign adminContent "none" ;;
  modify (set_stored_token None) ;;
  modify (set_authToken JNull).

Definition clearMessages : JS unit :=
  assign loginError "" ;;
  assign shareMessage "" ;;
  assign shareError "" ;;
  assign editError "".

Definition apiRequest (url method : string) (body : jsval) (requiresAuth : bool)
  : JS jsval :=
  let headers := [("Content-Type", "application/json")] in
  headers <-
    (if requiresAuth then
       authToken <- gets authToken ;;
       if negb (truthy authToken) then
         showLogin ;;
         throw (Error "Not authenticated")
       else ret (List.app headers
                       [("Authorization", "Bearer " ++ ToString authToken)])
     else ret headers) ;;
  let options :=
    {| url := url; method := method; headers := headers;
       body := if truthy body then Some (JSON_stringify body) else None |} in
  try_catch
    (response <- fetch options ;;
     if (status response =? 401) && requiresAuth then
       showLogin ;;
       throw (Error "Authentication failed")
     else if negb (ok response) then
       errorData <- try_catch (response_json response)
                      (fun _ => ret (JObj [("detail", JStr "Unknown error")])) ;;
       detail <- prop errorData "detail" ;;
       throw (Error (if truthy detail then ToString detail
                     else "HTTP error! status: "
                          ++ Number_toString (Num (status response))))
     else if (status response =? 204)
             || match content_length response with
                | Some len => String.eqb len "0"
                | None => false
                end
     then ret JNull
     else response_json response)
    (fun error =>
       console_error "API Request Error:" error ;;
       throw error).

(* --- Shared Videos Table Logic --- *)

(** The one row that [sharedVideosTableBody.innerHTML = '<tr><td
    colspan=7>text</td></tr>'] leaves in the table body. *)
Definition message_row (text : string) : Tr :=
  {| markup := "<td colspan=" ++ q "7" ++ ">" ++ text ++ "</td>";
     buttons := None |}.

Definition row_markup (share_id video_name stash_video_id expiresDate hits
                       shareUrl daysRemaining : string) : string :=
  nl 16 ++ "<td>" ++ share_id ++ "</td>"
  ++ nl 16 ++ "<td>" ++ video_name ++ "</td>"
  ++ nl 16 ++ "<td>" ++ stash_video_id ++ "</td>"
  ++ nl 16 ++ "<td>" ++ expiresDate ++ "</td>"
  ++ nl 16 ++ "<td>" ++ hits ++ "</td>"
  ++ nl 16 ++ "<td>"
  ++ nl 20 ++ "<a href=" ++ q shareUrl ++ " target=" ++ q "_blank" ++ ">"
           ++ shareUrl ++ "</a>"
  ++ nl 20 ++ "<button class=" ++ q "copy-button" ++ " data-url=" ++ q shareUrl
           ++ ">Copy</button>"
  ++ nl 16 ++ "</td>"
  ++ nl 16 ++ "<td>"
  ++ nl 20 ++ "<button class=" ++ q "edit-button"
           ++ " data-share-id=" ++ q share_id
           ++ " data-video-name=" ++ q video_name
           ++ " data-days-valid=" ++ q daysRemaining ++ ">Edit</button>"
  ++ nl 20 ++ "<button class=" ++ q "delete-button"
           ++ " data-share-id=" ++ q share_id ++ ">Delete</button>"
  ++ nl 16 ++ "</td>"
  ++ nl 12.

(** The body of the [forEach] callback of [renderSharedVideos]. *)
Definition render_row (video : jsval) : JS unit :=
  expires_at <- prop video "expires_at" ;;
  let expiresDate := toLocaleString (Date_value expires_at) in
  shareUrl <- prop video "share_url" ;;
  share_id <- prop video "share_id" ;;
  video_name <- prop video "video_name" ;;
  stash_video_id <- prop video "stash_video_id" ;;
  hits <- prop video "hits" ;;
  now <- gets clock ;;
  let daysRemaining :=
    Number_toString (calculateDaysRemaining now (Date_value expires_at)) in
  let row :=
    {| markup :=
         row_markup (ToString share_id) (escapeHTML video_name)
           (ToString stash_video_id) expiresDate (ToString hits)
           (ToString shareUrl) daysRemaining;
       buttons :=
         Some {| copy_data_url := attr_value (ToString shareUrl);
                 edit_data_share_id := attr_value (ToString share_id);
                 edit_data_video_name := attr_value (escapeHTML video_name);
                 edit_data_days_valid := attr_value daysRemaining;
                 delete_data_share_id := attr_value (ToString share_id) |} |} in
  modify (fun w => set_tbody (List.app (tbody w) [row]) w).

(** [videos.length === 0] *)
Definition length_is_zero (videos : jsval) : bool :=
  match videos with
  | JArr [] => true
  | JStr s => String.eqb s ""
  | JObj fields =>
      match lookup "length" fields with
      | JNum (Num 0) => true
      | _ => false
      end
  | _ => false
  end.

(** [addTableButtonListeners] attaches to the buttons of every row the
    click handlers defined below as [editClick] and [deleteClick]; it
    changes nothing else. *)
Definition addTableButtonListeners : JS unit := ret tt.

Definition renderSharedVideos (videos : jsval) : JS unit :=
  modify (set_tbody []) ;;
  if negb (truthy videos) || length_is_zero videos then
    modify (set_tbody [message_row "No videos shared yet."])
  else
    forEach videos render_row ;;
    addTableButtonListeners.

Definition fetchSharedVideos : JS unit :=
  try_catch
    (videos <- apiRequest "/shared_videos" "GET" JNull true ;;
     renderSharedVideos videos)
    (fun error =>
       console_error "Failed to fetch shared videos:" error ;;
       modify (set_tbody
                 [message_row "Failed to load shared videos. Please try again."])).

(* --- Event Listeners --- *)

Definition lookupTitleClick : JS unit :=
  clearMessages ;;
  stashId <- value stashIdInput ;;
  if String.eqb stashId "" then
    assign shareError "Please enter a Stash Video ID."
  else
    try_catch
      (data <- apiRequest ("/get_video_title/" ++ stashId) "GET" JNull true ;;
       title <- (if truthy data then prop data "title" else ret JUndefined) ;;
       if truthy data && truthy title then
         assign videoNameInput (ToString title)
       else
         assign shareError "Could not find title for this ID." ;;
         assign videoNameInput "")
      (fun error =>
         assign shareError ("Error looking up title: " ++ message error) ;;
         assign videoNameInput "").

(** [shareForm.reset()] *)
Definition shareForm_reset : JS unit :=
  assign stashIdInput (default_stash_id form_defaults) ;;
  assign videoNameInput (default_name form_defaults) ;;
  assign daysValidInput (default_days form_defaults).

Definition shareFormSubmit : JS unit :=
  clearMessages ;;
  video_name <- value videoNameInput ;;
  stash_input <- value stashIdInput ;;
  days_input <- value daysValidInput ;;
  let stash_video_id := parseInt10 stash_input in
  let days_valid := parseInt10 days_input in
  let shareData :=
    JObj [("video_name", JStr video_name);
          ("stash_video_id", JNum stash_video_id);
          ("days_valid", JNum days_valid)] in
  if String.eqb video_name "" || isNaN stash_video_id || isNaN days_valid then
    assign shareError "Please fill in all fields correctly."
  else
    try_catch
      (result <- apiRequest "/share" "POST" shareData true ;;
       share_url <- prop result "share_url" ;;
       assign shareMessage
         ("Video shared successfully! URL: " ++ ToString share_url) ;;
       shareForm_reset ;;
       fetchSharedVideos)
      (fun error =>
         assign shareError ("Failed to share video: " ++ message error)).

(** The click listener of an [.edit-button]; [b] holds the attributes of
    the button clicked. *)
Definition editClick (b : Buttons) : JS unit :=
  let shareId := edit_data_share_id b in
  let videoName := edit_data_video_name b in
  let daysValid := edit_data_days_valid b in
  assign editShareIdInput shareId ;;
  assign editVideoNameInput videoName ;;
  let parsed := parseInt daysValid in
  assign editDaysValidInput
    (Number_toString
       (Math_max (Num 1) (if truthy (JNum parsed) then parsed else Num 7))) ;;
  assign editModal "block" ;;
  clearMessages.

(** The click listener of a [.delete-button]. *)
Definition deleteClick (b : Buttons) : JS unit :=
  let shareId := delete_data_share_id b in
  answer <- confirm ("Are you sure you want to delete share " ++ shareId ++ "?") ;;
  if answer then
    try_catch
      (apiRequest ("/delete_share/" ++ shareId) "DELETE" JNull true ;;
       fetchSharedVideos)
      (fun error => alert ("Failed to delete share: " ++ message error))
  else ret tt.

(* --- Edit Modal Logic --- *)

Definition cancelEditClick : JS unit := assign editModal "none".

Definition saveEditClick : JS unit :=
  clearMessages ;;
  shareId <- value editShareIdInput ;;
  video_name <- value editVideoNameInput ;;
  days_input <- value editDaysValidInput ;;
  let days_valid := parseInt10 days_input in
  let updatedData :=
    JObj [("video_name", JStr video_name);
          ("stash_video_id", JNum (Num 0));
          ("days_valid", JNum days_valid)] in
  if String.eqb video_name "" || isNaN days_valid then
    assign editError "Please fill in all fields correctly."
  else
    try_catch
      (apiRequest ("/edit_share/" ++ shareId) "PUT" updatedData true ;;
       assign editModal "none" ;;
       fetchSharedVideos)
      (fun error =>
         assign editError ("Failed to update share: " ++ message error)).
End Handlers.

End Console.

(** ** The older script, [static/admin.js] *)

Module Legacy.

(** [display] of the login form and of the admin content, [textContent] of
    the error line and of the two counters, [value] of the three inputs. *)
Inductive Elem : Type :=
| loginForm | adminContent | loginError | totalShares | totalHits
| videoName | stashVideoId | daysValid.

Definition Elem_eqb (a b : Elem) : bool :=
  match a, b with
  | loginForm, loginForm | adminContent, adminContent
  | loginError, loginError | totalShares, totalShares
  | totalHits, totalHits | videoName, videoName
  | stashVideoId, stashVideoId | daysValid, daysValid => true
  | _, _ => false
  end.

Record World : Type := mkWorld {
  token : jsval;
  dom : Elem -> string;
  tbody : list string;       (* markup of the rows of videos-table *)
  trace : list Event
}.

Definition set_dom (e : Elem) (v : string) (w : World) : World :=
  mkWorld (token w) (fun e' => if Elem_eqb e e' then v else dom w e')
          (tbody w) (trace w).
Definition set_tbody (rows : list string) (w : World) : World :=
  mkWorld (token w) (dom w) rows (trace w).
Definition set_trace (t : list Event) (w : World) : World :=
  mkWorld (token w) (dom w) (tbody w) t.

Definition JS : Type -> Type := M World.

Definition assign (e : Elem) (v : string) : JS unit := modify (set_dom e v).
Definition value (e : Elem) : JS string := gets (fun w => dom w e).

Section Handlers.
Context {P : Platform}.

Definition fetch : Request -> JS Response := Engine.fetch trace set_trace.
Definition emit : Event -> JS unit := Engine.emit trace set_trace.

Definition row_markup (share_id video_name stash_video_id expires hits : string)
  : string :=
  nl 16 ++ "<td>" ++ share_id ++ "</td>"
  ++ nl 16 ++ "<td>" ++ video_name ++ "</td>"
  ++ nl 16 ++ "<td>" ++ stash_video_id ++ "</td>"
  ++ nl 16 ++ "<td>" ++ expires ++ "</td>"
  ++ nl 16 ++ "<td>" ++ hits ++ "</td>"
  ++ nl 16 ++ "<td>"
  ++ nl 20 ++ "<button class=" ++ q "btn btn-sm btn-warning"
       ++ " onclick=" ++ q ("editVideo('" ++ share_id ++ "')") ++ ">Edit</button>"
  ++ nl 20 ++ "<button class=" ++ q "btn btn-sm btn-danger"
       ++ " onclick=" ++ q ("deleteVideo('" ++ share_id ++ "')") ++ ">Delete</button>"
  ++ nl 16 ++ "</td>"
  ++ nl 12.

(** The [forEach] callback of [loadVideos]; [totalHits] is the local
    counter it updates. *)
Definition load_row (totalHits : jsval) (v : jsval) : JS jsval :=
  hits <- prop v "hits" ;;
  let totalHits := js_add totalHits hits in
  share_id <- prop v "share_id" ;;
  video_name <- prop v "video_name" ;;
  stash_video_id <- prop v "stash_video_id" ;;
  expires_at <- prop v "expires_at" ;;
  modify (fun w =>
    set_tbody
      (List.app (tbody w)
         [row_markup (ToString share_id) (ToString video_name)
            (ToString stash_video_id)
            (toLocaleString (Date_value expires_at)) (ToString hits)]) w) ;;
  ret totalHits.

Fixpoint load_rows (items : list jsval) (totalHits : jsval) : JS jsval :=
  match items with
  | [] => ret totalHits
  | v :: rest => t <- load_row totalHits v ;; load_rows rest t
  end.

Definition loadVideos : JS unit :=
  try_catch
    (token <- gets token ;;
     response <- fetch {| url := "/shared_videos"; method := "GET";
                          headers := [("Authorization", "Bearer " ++ ToString token)];
                          body := None |} ;;
     if negb (ok response) then
       emit (EvConsoleError "Failed to load videos:"
               (Number_toString (Num (status response))))
     else
       videos <- response_json response ;;
       modify (set_tbody []) ;;
       totalHits <-
         match videos with
         | JUndefined | JNull =>
             throw (TypeError (null_property_message videos "forEach"))
         | JArr items => load_rows items (JNum (Num 0))
         | _ => throw (TypeError (not_a_function_message "forEach"))
         end ;;
       assign totalShares
         (match videos with
          | JArr items => Number_toString (Num (Z.of_nat (List.length items)))
          | _ => "undefined"
          end) ;;
       assign Legacy.totalHits (ToString totalHits))
    (fun error => emit (EvConsoleError "Error loading videos:" (message error))).

(** [form.reset()] on the create form. *)
Definition shareForm_reset : JS unit :=
  assign videoName (default_name form_defaults) ;;
  assign stashVideoId (default_stash_id form_defaults) ;;
  assign daysValid (default_days form_defaults).

(** The submit listener of the create form.  [loadVideos()] is not
    awaited there; it and the reset that follows touch different parts of
    the page, so running it to completion first gives the same page. *)
Definition shareFormSubmit : JS unit :=
  video_name <- value videoName ;;
  stash_video_id <- value stashVideoId ;;
  days_valid <- value daysValid ;;
  try_catch
    (token <- gets token ;;
     response <- fetch {| url := "/share"; method := "POST";
                          headers := [("Content-Type", "application/json");
                                      ("Authorization", "Bearer " ++ ToString token)];
                          body := Some (JSON_stringify
                                    (JObj [("video_name", JStr video_name);
                                           ("stash_video_id", JStr stash_video_id);
                                           ("days_valid", JStr days_valid)])) |} ;;
     if ok response then
       loadVideos ;;
       shareForm_reset
     else
       emit (EvConsoleError "Failed to share video:"
               (Number_toString (Num (status response)))))
    (fun error => emit (EvConsoleError "Error sharing video:" (message error))).
End Handlers.

End Legacy.

(** ** Vocabulary of the properties *)

(** A share record as the backend lists it, and the JSON object
    [/shared_videos] carries for it. *)
Record ShareRecord : Type := mkShareRecord {
  share_id : string;
  video_name : string;
  stash_video_id : Z;
  expires_at : string;
  hits : Z;
  share_url : string
}.

Definition record_json (r : ShareRecord) : jsval :=
  JObj [("share_id", JStr (share_id r));
        ("video_name", JStr (video_name r));
        ("stash_video_id", JNum (Num (stash_video_id r)));
        ("expires_at", JStr (expires_at r));
        ("hits", JNum (Num (hits r)));
        ("share_url", JStr (share_url r))].

(** The requests sent on a trace, in order. *)
Definition fetches (t : list Event) : list Request :=
  flat_map (fun ev => match ev with EvFetch r => [r] | _ => [] end) t.

(** A settlement with status 401, and whether a trace holds one. *)
Definition is_401 (res : FetchResult) : bool :=
  match res with Resolved r => status r =? 401 | Rejected _ => false end.

Definition received_401 (t : list Event) : bool :=
  existsb (fun ev => match ev with EvSettle res => is_401 res | _ => false end) t.

(** Events written with [console.error] only. *)
Definition console_only (t : list Event) : bool :=
  forallb (fun ev => match ev with EvConsoleError _ _ => true | _ => false end) t.

Import Console.

(** The page after [showLogin]. *)
Definition logout (w : World) : World :=
  set_authToken JNull
    (set_stored_token None
       (set_dom adminContent "none" (set_dom loginSection "block" w))).

(** No token in the script nor in local storage, and the login view
    shown. *)
Definition logged_out (w : World) : Prop :=
  authToken w = JNull /\ stored_token w = None /\
  dom w loginSection = "block" /\ dom w adminContent = "none".

(** The request [apiRequest] hands to [fetch]. *)
Definition api_request (url method : string) (body : jsval) (requiresAuth : bool)
                       (tok : jsval) : Request :=
  {| url := url; method := method;
     headers := ("Content-Type", "application/json")
                :: (if requiresAuth
                    then [("Authorization", "Bearer " ++ ToString tok)] else []);
     body := if truthy body then Some (JSON_stringify body) else None |}.

(** The page after [console.error(label, e)]. *)
Definition log (label : string) (e : JsError) (w : World) : World :=
  set_trace (trace w ++ [EvConsoleError label (message e)]) w.

(** The error [apiRequest] makes of an unsuccessful response. *)
Definition http_error {P : Platform} (r : Response) : JsError :=
  let errorData := match json r with
                   | Ok v => v
                   | Throw _ => JObj [("detail", JStr "Unknown error")]
                   end in
  match errorData with
  | JUndefined | JNull => TypeError (null_property_message errorData "detail")
  | _ =>
      let detail := match errorData with
                    | JObj fields => lookup "detail" fields
                    | _ => JUndefined
                    end in
      Error (if truthy detail then ToString detail
             else "HTTP error! status: " ++ Number_toString (Num (status r)))
  end.

(** The test [apiRequest] makes for an empty body. *)
Definition no_content (r : Response) : bool :=
  (status r =? 204)
  || match content_length r with Some len => String.eqb len "0" | None => false end.

(** The row [fetchSharedVideos] shows when it fails. *)
Definition failed_row : Tr :=
  message_row "Failed to load shared videos. Please try again.".

(** The protected operations of the console, by the listener that starts
    them. *)
Inductive ProtectedOp : Type :=
| ListFetch
| Create
| Edit
| Delete (b : Buttons)
| TitleLookup.

Definition run_op {P : Platform} (op : ProtectedOp) : JS unit :=
  match op with
  | ListFetch => fetchSharedVideos
  | Create => shareFormSubmit
  | Edit => saveEditClick
  | Delete b => deleteClick b
  | TitleLookup => lookupTitleClick
  end.

(** The text of the confirmation the delete listener asks for. *)
Definition delete_question (b : Buttons) : string :=
  "Are you sure you want to delete share " ++ delete_data_share_id b ++ "?".

(** Whether the listener gets as far as calling [apiRequest]: the local
    validation passes, or the user confirms. *)
Definition submits {P : Platform} (op : ProtectedOp) (w : World) : bool :=
  match op with
  | ListFetch => true
  | Create =>
      negb (String.eqb (dom w videoNameInput) ""
            || isNaN (parseInt10 (dom w stashIdInput))
            || isNaN (parseInt10 (dom w daysValidInput)))
  | Edit =>
      negb (String.eqb (dom w editVideoNameInput) ""
            || isNaN (parseInt10 (dom w editDaysValidInput)))
  | Delete b => confirm_answer (trace w) (delete_question b)
  | TitleLookup => negb (String.eqb (dom w stashIdInput) "")
  end.


(** Method and path of the request each operation sends first. *)
Definition op_method (op : ProtectedOp) : string :=
  match op with
  | Create => "POST"
  | Edit => "PUT"
  | Delete _ => "DELETE"
  | ListFetch | TitleLookup => "GET"
  end.

Definition op_url (op : ProtectedOp) (w : World) : string :=
  match op with
  | ListFetch => "/shared_videos"
  | Create => "/share"
  | Edit => "/edit_share/" ++ dom w editShareIdInput
  | Delete b => "/delete_share/" ++ delete_data_share_id b
  | TitleLookup => "/get_video_title/" ++ dom w stashIdInput
  end.

(** A request for the list of shares. *)
Definition is_refresh (ev : Event) : bool :=
  match ev with
  | EvFetch r => String.eqb (url r) "/shared_videos"
  | _ => false
  end.

(** Strings of decimal digits. *)
Definition is_dec_digit (c : ascii) : bool :=
  let n := nat_of_ascii c in (Nat.leb 48 n && Nat.leb n 57)%bool.

Fixpoint all_chars (p : ascii -> bool) (s : string) : bool :=
  match s with
  | EmptyString => true
  | String c rest => p c && all_chars p rest
  end.

(** The page after [clearMessages]. *)
Definition cleared (w : World) : World :=
  set_dom editError ""
    (set_dom shareError "" (set_dom shareMessage "" (set_dom loginError "" w))).

(** The page after the confirmation message and [shareForm.reset()]. *)
Definition confirmed {P : Platform} (share_url : jsval) (w : World) : World :=
  set_dom daysValidInput (default_days form_defaults)
    (set_dom videoNameInput (default_name form_defaults)
       (set_dom stashIdInput (default_stash_id form_defaults)
          (set_dom shareMessage
             ("Video shared successfully! URL: " ++ ToString share_url) w))).

(** The objects the create and the edit listeners send. *)
Definition shareData (w : World) : jsval :=
  JObj [("video_name", JStr (dom w videoNameInput));
        ("stash_video_id", JNum (parseInt10 (dom w stashIdInput)));
        ("days_valid", JNum (parseInt10 (dom w daysValidInput)))].

Definition updatedData (w : World) : jsval :=
  JObj [("video_name", JStr (dom w editVideoNameInput));
        ("stash_video_id", JNum (Num 0));
        ("days_valid", JNum (parseInt10 (dom w editDaysValidInput)))].

(** The request [fetchSharedVideos] sends. *)
Definition refresh_request (w : World) : Request :=
  api_request "/shared_videos" "GET" JNull true (authToken w).

(** [v.k] on a value that is neither [null] nor [undefined]. *)
Definition field (v : jsval) (k : string) : jsval :=
  match v with JObj fields => lookup k fields | _ => JUndefined end.

Definition is_nullish (v : jsval) : bool :=
  match v with JUndefined | JNull => true | _ => false end.

(** The body and the whole of the request each operation sends first. *)
Definition op_body (op : ProtectedOp) (w : World) : jsval :=
  match op with
  | Create => shareData w
  | Edit => updatedData w
  | ListFetch | Delete _ | TitleLookup => JNull
  end.

Definition op_request (op : ProtectedOp) (w : World) : Request :=
  api_request (op_url op w) (op_method op) (op_body op w) true (authToken w).


(** The page once the user has answered the confirmation. *)
Definition asked {P : Platform} (b : Buttons) (w : World) : World :=
  set_trace (trace w ++ [EvConfirm (delete_question b) (submits (Delete b) w)]) w.

(** Events that are neither a request nor its settlement. *)
Definition quiet (t : list Event) : bool :=
  forallb (fun ev => match ev with
                     | EvFetch _ | EvSettle _ => false
                     | _ => true
                     end) t.

(** What decides which view is shown and whether a session exists. *)
Definition auth_view (w : World) : jsval * option string * string * string :=
  (authToken w, stored_token w, dom w loginSection, dom w adminContent).

(** The session and the view after the forced logout. *)
Definition forced_view : jsval * option string * string * string :=
  (JNull, None, "block", "none").

(** The events a protected operation adds to the trace from page [w], and
    whether it ends in the forced logout: nothing is sent when the listener
    stops at its validation or finds no token; otherwise one request is
    sent and settles, and a refresh may follow a successful one. *)
Inductive OpRun {P : Platform} (op : ProtectedOp) (w : World)
  : list Event -> bool -> Prop :=
| run_local (evs : list Event) :
    submits op w = false -> quiet evs = true -> OpRun op w evs false
| run_unauthenticated (evs : list Event) :
    submits op w = true -> truthy (authToken w) = false -> quiet evs = true ->
    OpRun op w evs true
| run_single (pre logs : list Event) (res : FetchResult) :
    submits op w = true -> truthy (authToken w) = true ->
    quiet pre = true -> quiet logs = true ->
    res = net (trace w ++ pre ++ [EvFetch (op_request op w)]) (op_request op w) ->
    OpRun op w (pre ++ EvFetch (op_request op w) :: EvSettle res :: logs)
          (is_401 res)
| run_refreshed (pre logs : list Event) (r : Response) (res2 : FetchResult) :
    submits op w = true -> truthy (authToken w) = true ->
    quiet pre = true -> quiet logs = true ->
    net (trace w ++ pre ++ [EvFetch (op_request op w)]) (op_request op w)
    = Resolved r ->
    ok r = true ->
    res2 = net (trace w ++ pre ++ [EvFetch (op_request op w);
                                   EvSettle (Resolved r);
                                   EvFetch (refresh_request w)])
               (refresh_request w) ->
    OpRun op w (pre ++ EvFetch (op_request op w) :: EvSettle (Resolved r)
                    :: EvFetch (refresh_request w) :: EvSettle res2 :: logs)
          (is_401 res2).

(** The user clicks the edit button of row [i] of the table. *)
Definition click_edit {P : Platform} (i : nat) : JS unit :=
  fun w =>
    match nth_error (tbody w) i with
    | Some {| buttons := Some b |} => editClick b w
    | _ => (Ok tt, w)
    end.

(** A record that differs from [r] in its source-video identifier only. *)
Definition with_stash (r : ShareRecord) (id : Z) : ShareRecord :=
  {| share_id := share_id r; video_name := video_name r; stash_video_id := id;
     expires_at := expires_at r; hits := hits r; share_url := share_url r |}.

(** What the edit listener writes into the days input, from the days
    remaining that the row carries. *)
Definition prefilled_days (days : number) : number :=
  match days with
  | Num d => if 1 <=? d then Num d else Num 7
  | NaN => Num 7
  end.

(** The requests of the older script. *)
Definition legacy_list_request (w : Legacy.World) : Request :=
  {| url := "/shared_videos"; method := "GET";
     headers := [("Authorization", "Bearer " ++ ToString (Legacy.token w))];
     body := None |}.

Definition legacy_create_request (w : Legacy.World) : Request :=
  {| url := "/share"; method := "POST";
     headers := [("Content-Type", "application/json");
                 ("Authorization", "Bearer " ++ ToString (Legacy.token w))];
     body := Some (JSON_stringify
                     (JObj [("video_name", JStr (Legacy.dom w Legacy.videoName));
                            ("stash_video_id", JStr (Legacy.dom w Legacy.stashVideoId));
                            ("days_valid", JStr (Legacy.dom w Legacy.daysValid))])) |}.

(** *** Concrete environments and pages, for evaluation *)

(** An environment with a given server and a fixed answer to [confirm],
    in which a date is written as its count of milliseconds and printed the
    same way, and the engine words its errors as V8 does. *)
Definition plain_platform (server : list Event -> Request -> FetchResult)
                          (answer : bool) : Platform :=
  {| net := server;
     confirm_answer := fun _ _ => answer;
     Date_value := fun v => parseInt10 (ToString v);
     toLocaleString := Number_toString;
     null_property_message :=
       fun _ k => "Cannot read properties of null (reading '" ++ k ++ "')";
     not_a_function_message := fun k => k ++ " is not a function";
     form_defaults :=
       {| default_name := ""; default_stash_id := ""; default_days := "7" |} |}.

(** A response with a JSON body and no content length. *)
Definition respond (code : Z) (payload : jsval) : FetchResult :=
  Resolved {| status := code; content_length := None; json := Ok payload |}.

(** The admin view with empty forms and an empty table, holding token
    [tok]. *)
Definition blank_page (tok : jsval) : World :=
  {| authToken := tok;
     stored_token := match tok with JStr s => Some s | _ => None end;
     dom := fun e => match e with
                     | loginSection => "none"
                     | adminContent => "block"
                     | editModal => "none"
                     | _ => ""
                     end;
     tbody := [];
     clock := 1000;
     trace := [] |}.

(** The create form, and the edit modal, filled in by the user. *)
Definition fill (name stash days : string) (w : World) : World :=
  set_dom daysValidInput days (set_dom stashIdInput stash (set_dom videoNameInput name w)).

Definition fill_edit (id name days : string) (w : World) : World :=
  set_dom editDaysValidInput days
    (set_dom editShareIdInput id (set_dom editVideoNameInput name w)).

(** A page of the older script with the create form filled in. *)
Definition legacy_page (tok : jsval) (name stash days : string) : Legacy.World :=
  {| Legacy.token := tok;
     Legacy.dom := fun e => match e with
                            | Legacy.videoName => name
                            | Legacy.stashVideoId => stash
                            | Legacy.daysValid => days
                            | _ => ""
                            end;
     Legacy.tbody := [];
     Legacy.trace := [] |}.

(** Three records: one named as a tag, one expired at the clock of
    [blank_page], one whose name holds double quotes. *)
Definition script_record : ShareRecord :=
  {| share_id := "abc123"; video_name := "<script>"; stash_video_id := 42;
     expires_at := "259201000"; hits := 5;
     share_url := "https://kinpeek.example/share/abc123" |}.

Definition expired_record : ShareRecord :=
  {| share_id := "old777"; video_name := "Holiday"; stash_video_id := 7;
     expires_at := "500"; hits := 0;
     share_url := "https://kinpeek.example/share/old777" |}.

Definition quoted_record : ShareRecord :=
  {| share_id := "q1"; video_name := "say " ++ q "hi"; stash_video_id := 1;
     expires_at := "90000000"; hits := 0;
     share_url := "https://kinpeek.example/share/q1" |}.

(** A backend that lists one share, creates shares, and knows no titles. *)
Definition kinpeek_server (history : list Event) (r : Request) : FetchResult :=
  if String.eqb (url r) "/shared_videos" then
    respond 200 (JArr [record_json script_record])
  else if String.eqb (url r) "/share" then
    respond 200 (JObj [("share_url", JStr "https://kinpeek.example/share/new1")])
  else respond 200 (JObj []).

Definition working_platform : Platform := plain_platform kinpeek_server true.

(** A backend that rejects every token. *)
Definition rejecting_platform : Platform :=
  plain_platform (fun _ _ => respond 401 (JObj [("detail", JStr "Token expired")])) true.


(** Pages ready for a create, an edit and a title lookup, with and without
    a token. *)
Definition create_page : World := fill "Clip" "12" "7" (blank_page (JStr "tok")).
Definition edit_page : World := fill_edit "abc123" "Renamed" "5" (blank_page (JStr "tok")).
Definition lookup_page : World := fill "Old name" "12" "" (blank_page (JStr "tok")).
Definition signed_out_page : World := fill "Clip" "12" "7" (blank_page JNull).
Definition legacy_signed_out : Legacy.World := legacy_page JNull "" "" "".
Definition legacy_create_page : Legacy.World := legacy_page (JStr "tok") "Clip" "12" "abc".

(** ** The session listeners of the console *)

(** *** The body of the login request *)

(** A [URLSearchParams] object given to [fetch] as body is serialised as
    [application/x-www-form-urlencoded]: letters, digits and [*-._] stay, a
    space becomes [+], any other byte of the UTF-8 encoding is written [%XX]
    with upper-case digits.  A code unit from 128 to 255 has a UTF-8
    encoding of two bytes. *)
Definition hex_upper (n : nat) : ascii :=
  ascii_of_nat (if Nat.ltb n 10 then 48 + n else 55 + n).

Definition percent_byte (n : nat) : string :=
  String "%" (String (hex_upper (Nat.div n 16))
                (String (hex_upper (Nat.modulo n 16)) "")).

Definition is_form_safe (n : nat) : bool :=
  (Nat.leb 48 n && Nat.leb n 57) || (Nat.leb 65 n && Nat.leb n 90)
  || (Nat.leb 97 n && Nat.leb n 122)
  || Nat.eqb n 42 || Nat.eqb n 45 || Nat.eqb n 46 || Nat.eqb n 95.

Definition form_encode_char (c : ascii) : string :=
  let n := nat_of_ascii c in
  if Nat.eqb n 32 then "+"
  else if is_form_safe n then String c ""
  else if Nat.ltb n 128 then percent_byte n
  else percent_byte (192 + Nat.div n 64) ++ percent_byte (128 + Nat.modulo n 64).

Fixpoint form_urlencode (s : string) : string :=
  match s with
  | EmptyString => ""
  | String c rest => form_encode_char c ++ form_urlencode rest
  end.

(** [formData.toString()] for the two fields the login listener appends. *)
Definition login_form_data (username password : string) : string :=
  "username=" ++ form_urlencode username
  ++ "&password=" ++ form_urlencode password.

Section SessionListeners.
Context {P : Platform}.

Definition showAdmin : JS unit :=
  assign loginSection "none" ;;
  assign adminContent "block" ;;
  assign loginError "" ;;
  fetchSharedVideos.

(** What the script does when the page has loaded: [let authToken =
    localStorage.getItem('kinpeek_token')], then the initialization. *)
Definition initialize : JS unit :=
  stored <- gets stored_token ;;
  modify (set_authToken (match stored with
                         | Some t => JStr t
                         | None => JNull
                         end)) ;;
  authToken <- gets authToken ;;
  if truthy authToken then showAdmin else showLogin.

(** The submit listener of the login form; [username] and [password] are
    the values of the two inputs when it runs. *)
Definition loginFormSubmit (username password : string) : JS unit :=
  clearMessages ;;
  let formData := login_form_data username password in
  try_catch
    (response <- fetch {| url := "/login"; method := "POST";
                          headers := [("Content-Type",
                                       "application/x-www-form-urlencoded")];
                          body := Some formData |} ;;
     (if negb (ok response) then
        errorData <- try_catch (response_json response)
                       (fun _ => ret (JObj [("detail", JStr "Login failed")])) ;;
        detail <- prop errorData "detail" ;;
        throw (Error (if truthy detail then ToString detail
                      else "Login failed with status: "
                           ++ Number_toString (Num (status response))))
      else ret tt) ;;
     data <- response_json response ;;
     access_token <- prop data "access_token" ;;
     modify (set_authToken access_token) ;;
     modify (set_stored_token (Some (ToString access_token))) ;;
     showAdmin)
    (fun error =>
       console_error "Login failed:" error ;;
       assign loginError (message error) ;;
       showLogin).

Definition logoutClick : JS unit := showLogin.

(** The click listener of the refresh button is [fetchSharedVideos]
    itself. *)
Definition refreshSharesClick : JS unit := fetchSharedVideos.
End SessionListeners.

(** ** The rest of the older script *)

Module LegacyPage.
Section Handlers.
Context {P : Platform}.

(** Two parts of the browser that the page model does not hold: the body
    the browser writes for a [FormData] object (with a boundary of its
    choosing), and what the user types into a [prompt] ([None] when the
    dialog is cancelled). *)
Variable FormData_body : list (string * string) -> string.
Variable prompt_answer : list Event -> string -> option string.

Definition set_token (v : jsval) (w : Legacy.World) : Legacy.World :=
  Legacy.mkWorld v (Legacy.dom w) (Legacy.tbody w) (Legacy.trace w).

(** [items.map(err => err.msg)] *)
Fixpoint map_msg (items : list jsval) : Legacy.JS (list jsval) :=
  match items with
  | [] => ret []
  | err :: rest =>
      msg <- prop err "msg" ;;
      msgs <- map_msg rest ;;
      ret (msg :: msgs)
  end.

(** [items.join(', ')]: [null] and [undefined] items print empty. *)
Definition join_items (sep : string) (items : list jsval) : string :=
  join sep (map (fun i => match i with
                          | JUndefined | JNull => ""
                          | _ => ToString i
                          end) items).

(** [login()]; [username] and [password] are the values of the two inputs.
    The calls of [console.debug] leave no mark on the page.  [loadVideos()]
    is not awaited; it and the assignment that follows touch different
    parts of the page. *)
Definition login (username password : string) : Legacy.JS unit :=
  try_catch
    (response <- Legacy.fetch
                   {| url := "/login"; method := "POST"; headers := [];
                      body := Some (FormData_body [("username", username);
                                                   ("password", password)]) |} ;;
     data <- response_json response ;;
     if ok response then
       access_token <- prop data "access_token" ;;
       modify (set_token access_token) ;;
       Legacy.assign Legacy.loginForm "none" ;;
       Legacy.assign Legacy.adminContent "block" ;;
       Legacy.loadVideos ;;
       Legacy.assign Legacy.loginError ""
     else
       detail <- prop data "detail" ;;
       errorMessage <-
         (if truthy detail then
            match detail with
            | JArr items =>
                msgs <- map_msg items ;;
                ret (JStr (join_items ", " msgs))
            | _ => ret detail
            end
          else ret (JStr "Login failed")) ;;
       Legacy.assign Legacy.loginError (ToString errorMessage) ;;
       Legacy.emit (EvConsoleError "Login error:" (ToString data)))
    (fun error =>
       Legacy.assign Legacy.loginError "Network error during login" ;;
       Legacy.emit (EvConsoleError "Network error:" (message error))).

(** [prompt(text)] *)
Definition prompt (text : string) : Legacy.JS jsval :=
  history <- gets Legacy.trace ;;
  ret (match prompt_answer history text with
       | Some s => JStr s
       | None => JNull
       end).

Definition editVideo (share_id : string) : Legacy.JS unit :=
  video_name <- prompt "New video name:" ;;
  days_valid <- prompt "New days valid:" ;;
  if truthy video_name && truthy days_valid then
    try_catch
      (token <- gets Legacy.token ;;
       Legacy.fetch
         {| url := "/edit_share/" ++ share_id; method := "PUT";
            headers := [("Content-Type", "application/json");
                        ("Authorization", "Bearer " ++ ToString token)];
            body := Some (JSON_stringify
                            (JObj [("video_name", video_name);
                                   ("days_valid", days_valid)])) |} ;;
       Legacy.loadVideos)
      (fun error =>
         Legacy.emit (EvConsoleError "Error editing video:" (message error)))
  else ret tt.
End Handlers.
End LegacyPage.

(** ** Vocabulary of the session and table properties *)

(** The request the login listener of the console sends. *)
Definition login_request (username password : string) : Request :=
  {| url := "/login"; method := "POST";
     headers := [("Content-Type", "application/x-www-form-urlencoded")];
     body := Some (login_form_data username password) |}.

(** The error the login listener makes of an unsuccessful response. *)
Definition login_error {P : Platform} (r : Response) : JsError :=
  let errorData := match json r with
                   | Ok v => v
                   | Throw _ => JObj [("detail", JStr "Login failed")]
                   end in
  match errorData with
  | JUndefined | JNull => TypeError (null_property_message errorData "detail")
  | _ =>
      let detail := field errorData "detail" in
      Error (if truthy detail then ToString detail
             else "Login failed with status: " ++ Number_toString (Num (status r)))
  end.

(** The page after [showAdmin] has set the view, before the list is
    fetched. *)
Definition admin_shown (w : World) : World :=
  set_dom loginError "" (set_dom adminContent "block" (set_dom loginSection "none" w)).

(** The page once the login listener has taken [tok] from the answer. *)
Definition signed_in (tok : jsval) (w : World) : World :=
  admin_shown (set_stored_token (Some (ToString tok)) (set_authToken tok w)).

(** The row [renderSharedVideos] makes of a share record at time [now]. *)
Definition record_row {P : Platform} (now : Z) (r : ShareRecord) : Tr :=
  let days := Number_toString
                (calculateDaysRemaining now (Date_value (JStr (expires_at r)))) in
  {| markup :=
       row_markup (share_id r) (escapeHTML (JStr (video_name r)))
         (Number_toString (Num (stash_video_id r)))
         (toLocaleString (Date_value (JStr (expires_at r))))
         (Number_toString (Num (hits r))) (share_url r) days;
     buttons :=
       Some {| copy_data_url := attr_value (share_url r);
               edit_data_share_id := attr_value (share_id r);
               edit_data_video_name := attr_value (escapeHTML (JStr (video_name r)));
               edit_data_days_valid := attr_value days;
               delete_data_share_id := attr_value (share_id r) |} |}.

(** The user clicks the delete button of row [i] of the table. *)
Definition click_delete {P : Platform} (i : nat) : JS unit :=
  fun w =>
    match nth_error (tbody w) i with
    | Some {| buttons := Some b |} => deleteClick b w
    | _ => (Ok tt, w)
    end.

(** Text that markup carries unchanged, in an attribute value as in a
    cell: no double quote, no ampersand, no angle bracket. *)
Definition plain_text (s : string) : bool :=
  negb (has_char dquote s) && negb (has_char "&" s)
  && negb (has_char "<" s) && negb (has_char ">" s).

(** The events a handler adds to the trace [before]. *)
Definition added (before after : list Event) : list Event :=
  skipn (List.length before) after.

(** The row of the older script for a share record, and the sum of the
    hits of a list of records. *)
Definition legacy_record_row {P : Platform} (r : ShareRecord) : string :=
  Legacy.row_markup (share_id r) (video_name r)
    (Number_toString (Num (stash_video_id r)))
    (toLocaleString (Date_value (JStr (expires_at r))))
    (Number_toString (Num (hits r))).

Definition sum_hits (rs : list ShareRecord) : Z :=
  fold_left (fun acc r => acc + hits r) rs 0.

(** The requests of [login] and [editVideo] of the older script. *)
Definition legacy_login_request (FormData_body : list (string * string) -> string)
                                (username password : string) : Request :=
  {| url := "/login"; method := "POST"; headers := [];
     body := Some (FormData_body [("username", username); ("password", password)]) |}.

Definition legacy_edit_request (tok : jsval) (share_id name days : string) : Request :=
  {| url := "/edit_share/" ++ share_id; method := "PUT";
     headers := [("Content-Type", "application/json");
                 ("Authorization", "Bearer " ++ ToString tok)];
     body := Some (JSON_stringify (JObj [("video_name", JStr name);
                                         ("days_valid", JStr days)])) |}.

(** What the login listener makes of the settlement of its request: the
    error it catches, or the token it takes from the answer. *)
Definition login_outcome {P : Platform} (res : FetchResult) : JsError + jsval :=
  match res with
  | Rejected e => inl e
  | Resolved r =>
      if negb (ok r) then inl (login_error r)
      else match json r with
           | Throw e => inl e
           | Ok data =>
               if is_nullish data
               then inl (TypeError (null_property_message data "access_token"))
               else inr (field data "access_token")
           end
  end.

(** The server's side of the login form: reading a form-encoded value. *)
Definition hex_value (c : ascii) : nat :=
  let n := nat_of_ascii c in
  (if Nat.leb n 57 then n - 48 else n - 55)%nat.

Fixpoint form_urldecode (s : string) : string :=
  match s with
  | EmptyString => ""
  | String c rest =>
      if Ascii.eqb c "+" then String " " (form_urldecode rest)
      else if Ascii.eqb c "%" then
        match rest with
        | String h1 (String h2 r2) =>
            let b := (16 * hex_value h1 + hex_value h2)%nat in
            if Nat.ltb b 128 then String (ascii_of_nat b) (form_urldecode r2)
            else
              match r2 with
              | String _ (String h3 (String h4 r4)) =>
                  let b2 := (16 * hex_value h3 + hex_value h4)%nat in
                  String (ascii_of_nat ((b - 192) * 64 + (b2 - 128))%nat)
                         (form_urldecode r4)
              | _ => String c (form_urldecode rest)
              end
        | _ => String c (form_urldecode rest)
        end
      else String c (form_urldecode rest)
  end.

(** What [localStorage.getItem('kinpeek_token')] returns. *)
Definition stored_value (w : World) : jsval :=
  match stored_token w with Some t => JStr t | None => JNull end.

(** Whether a request carries an [Authorization] header. *)
Definition has_authorization (r : Request) : bool :=
  existsb (fun h => String.eqb (fst h) "Authorization") (headers r).

(** Whether the user typed something into a [prompt]. *)
Definition typed (answer : option string) : bool :=
  match answer with Some s => negb (String.eqb s "") | None => false end.

(** *** More concrete environments and pages *)

(** A backend that also answers the login with a token. *)
Definition login_server (history : list Event) (r : Request) : FetchResult :=
  if String.eqb (url r) "/login" then
    respond 200 (JObj [("access_token", JStr "tok1"); ("token_type", JStr "bearer")])
  else kinpeek_server history r.

Definition login_platform : Platform := plain_platform login_server true.


(** The admin view listing the records of [rs] as rendered at time 1000. *)
Definition listed_page (rs : list ShareRecord) : World :=
  set_tbody (map (@record_row working_platform 1000) rs) (blank_page (JStr "tok")).


(** A stand-in for the browser's multipart body, and two users at the
    prompts: one who types a name and a day count, one who cancels. *)
Definition sample_form_body (fields : list (string * string)) : string :=
  join "&" (map (fun f => fst f ++ "=" ++ snd f) fields).

Definition typing_user (history : list Event) (text : string) : option string :=
  if String.eqb text "New video name:" then Some "Renamed" else Some "5".

Definition cancelling_user (history : list Event) (text : string) : option string :=
  None.

(** * Properties *)

(** ** The functions at a few values *)

Example parseInt_examples :
  parseInt10 "  42px" = Num 42 /\ parseInt10 "abc" = NaN /\
  parseInt10 "-7" = Num (-7) /\ parseInt "0x1F" = Num 31 /\
  parseInt10 "0x1F" = Num 0 /\ parseInt "NaN" = NaN /\ parseInt10 "" = NaN.
Proof. repeat split; reflexivity. Qed.

Example stringify_example :
  JSON_stringify (JObj [("video_name", JStr "a\b"); ("stash_video_id", JNum (Num 0));
                        ("days_valid", JNum (Num 7))])
  = "{" ++ q "video_name" ++ ":" ++ q "a\\b" ++ "," ++ q "stash_video_id" ++ ":0,"
        ++ q "days_valid" ++ ":7}".
Proof. reflexivity. Qed.

Example escapeHTML_example :
  escapeHTML (JStr "<b>Tom & Jerry</b>") = "&lt;b&gt;Tom &amp; Jerry&lt;/b&gt;".
Proof. reflexivity. Qed.

Example days_examples :
  calculateDaysRemaining 1000 (Num (1000 + 3 * MS_PER_DAY)) = Num 3 /\
  calculateDaysRemaining 1000 (Num (1000 + 3 * MS_PER_DAY + 1)) = Num 4 /\
  calculateDaysRemaining 1000 (Num 999) = Num 0 /\
  calculateDaysRemaining 1000 (Num (1000 - 5 * MS_PER_DAY)) = Num 0 /\
  calculateDaysRemaining 1000 NaN = NaN.
Proof. repeat split; reflexivity. Qed.

Example attr_value_examples :
  attr_value (escapeHTML (JStr "Tom & <Jerry>")) = "Tom & <Jerry>" /\
  attr_value (escapeHTML (JStr ("say " ++ q "hi"))) = "say ".
Proof. split; reflexivity. Qed.

(** ** Days remaining *)

Lemma ceil_div_bounds (x d : Z) :
  0 < d -> (- ((- x) / d) - 1) * d < x <= - ((- x) / d) * d.
Proof.
  intro Hd.
  pose proof (Z.div_mod (- x) d ltac:(lia)) as H.
  pose proof (Z.mod_pos_bound (- x) d Hd) as Hm. nia.
Qed.

(** C6: for every expiry time stamp, the value of [calculateDaysRemaining]
    is a number [d] that is never negative; it is 0 for an expiry that is
    not in the future, 3 for an expiry exactly three days ahead, within one
    of 3 for an expiry between two and four days ahead, and in general the
    number of days, rounded up, from the clock reading to the expiry. *)
Theorem days_remaining_clamped (now expiry : Z) :
  exists d : Z,
    calculateDaysRemaining now (Num expiry) = Num d /\
    0 <= d /\
    (expiry <= now -> d = 0) /\
    (expiry = now + 3 * MS_PER_DAY -> d = 3) /\
    (now + 2 * MS_PER_DAY < expiry <= now + 4 * MS_PER_DAY -> 3 - 1 <= d <= 3 + 1) /\
    (now < expiry -> (d - 1) * MS_PER_DAY < expiry - now <= d * MS_PER_DAY).
Proof.
  unfold calculateDaysRemaining, num_sub, ceil_div, Math_max.
  eexists; split; [reflexivity|].
  assert (Hd : 0 < MS_PER_DAY) by (unfold MS_PER_DAY; lia).
  pose proof (ceil_div_bounds (expiry - now) MS_PER_DAY Hd) as H.
  set (c := - (- (expiry - now) / MS_PER_DAY)) in *.
  unfold MS_PER_DAY in *.
  repeat split; intros; lia.
Qed.

(** An expiry three days and one hour ahead of the clock. *)
Lemma days_remaining_clamped_witness :
  exists d : Z,
    calculateDaysRemaining 1000 (Num (1000 + 3 * MS_PER_DAY + 3600000)) = Num d /\
    0 <= d /\ 3 - 1 <= d <= 3 + 1.
Proof.
  destruct (days_remaining_clamped 1000 (1000 + 3 * MS_PER_DAY + 3600000))
    as (d & Hd & Hpos & _ & _ & Hnear & _).
  exists d. split; [exact Hd|]. split; [exact Hpos|].
  apply Hnear. unfold MS_PER_DAY. lia.
Defined.

(** ** Strings: numbers, escaping, attributes *)

(** *** Printing a number and reading it back *)

Lemma parse_digits_acc (d : Decimal.uint) : forall acc : positive,
  parse_digits 10 (NilEmpty.string_of_uint d) (Num (Zpos acc))
  = Num (Zpos (Pos.of_uint_acc d acc)).
Proof.
  induction d; intro acc; cbn [NilEmpty.string_of_uint parse_digits Pos.of_uint_acc];
    try reflexivity;
    change (digit_value _) with (Some 0) || change (digit_value _) with (Some 1)
    || change (digit_value _) with (Some 2) || change (digit_value _) with (Some 3)
    || change (digit_value _) with (Some 4) || change (digit_value _) with (Some 5)
    || change (digit_value _) with (Some 6) || change (digit_value _) with (Some 7)
    || change (digit_value _) with (Some 8) || change (digit_value _) with (Some 9);
    cbv iota beta; 
    match goal with |- context [?a <? 10] => change (a <? 10) with true end; cbv iota;
    rewrite <- IHd; do 2 f_equal; lia.
Qed.

Lemma parse_digits_zero (d : Decimal.uint) :
  parse_digits 10 (NilEmpty.string_of_uint d) (Num 0) = Num (Z.of_N (Pos.of_uint d)).
Proof.
  induction d; cbn [NilEmpty.string_of_uint parse_digits Pos.of_uint];
    try reflexivity;
    [ exact IHd | .. ]; apply (parse_digits_acc d).
Qed.

Lemma parse_digits_start (d : Decimal.uint) :
  d <> Decimal.Nil ->
  parse_digits 10 (NilEmpty.string_of_uint d) NaN = Num (Z.of_N (Pos.of_uint d)).
Proof.
  intro Hd. pose proof (parse_digits_zero d) as H.
  destruct d; [congruence | exact H ..].
Qed.

Lemma string_of_uint_digits (d : Decimal.uint) :
  all_chars is_dec_digit (NilEmpty.string_of_uint d) = true.
Proof. induction d; cbn [NilEmpty.string_of_uint all_chars]; auto. Qed.

Lemma dec_digit_plain (c : ascii) :
  is_dec_digit c = true ->
  isWhiteSpace c = false /\ Ascii.eqb c "-" = false /\ Ascii.eqb c "+" = false
  /\ Ascii.eqb c "x" = false /\ Ascii.eqb c "X" = false
  /\ Ascii.eqb c dquote = false /\ Ascii.eqb c "&" = false.
Proof.
  destruct c as [[] [] [] [] [] [] [] []]; vm_compute; intuition discriminate.
Qed.

Lemma parseInt_digits (s : string) :
  all_chars is_dec_digit s = true -> parseInt s = parse_digits 10 s NaN.
Proof.
  destruct s as [|c s]; [reflexivity|].
  cbn [all_chars]. intro H. apply andb_prop in H as [Hc Hs].
  destruct (dec_digit_plain c Hc) as (Hw & Hm & Hp & _).
  unfold parseInt. cbn [trimStart]. rewrite Hw. cbn [strip_sign]. rewrite Hm, Hp.
  assert (hex_prefix (String c s) = None) as ->.
  { destruct s as [|c' s]; [reflexivity|]. cbn [all_chars] in Hs.
    apply andb_prop in Hs as [Hc' _].
    destruct (dec_digit_plain c' Hc') as (_ & _ & _ & Hx & HX & _).
    cbn [hex_prefix]. rewrite Hx, HX. now rewrite andb_false_r. }
  destruct (parse_digits 10 (String c s) NaN) as [z|]; cbn [apply_sign]; [|reflexivity].
  f_equal. lia.
Qed.

Lemma parseInt_Number_toString (n : number) :
  match n with Num z => 0 <= z | NaN => True end ->
  parseInt (Number_toString n) = n.
Proof.
  destruct n as [z|]; [|reflexivity].
  destruct z as [|p|p]; intro H; [reflexivity | | lia].
  unfold Number_toString, Z.to_int, NilZero.string_of_int, NilZero.string_of_uint.
  pose proof (Unsigned.to_uint_nonnil p) as Hnil.
  pose proof (parse_digits_start (Pos.to_uint p) Hnil) as Hd.
  rewrite Unsigned.of_to in Hd.
  pose proof (string_of_uint_digits (Pos.to_uint p)) as Hall.
  destruct (Pos.to_uint p); [congruence | ..];
    rewrite (parseInt_digits _ Hall); exact Hd.
Qed.

(** *** Reading an attribute back *)

Lemma attr_value_plain (s : string) :
  has_char dquote s = false -> has_char "&" s = false -> attr_value s = s.
Proof.
  unfold attr_value.
  induction s as [|c s IH]; [reflexivity|].
  cbn [has_char]. intros Hq Ha.
  apply orb_false_elim in Hq as [Hq Hq'], Ha as [Ha Ha'].
  cbn [up_to_quote]. rewrite Hq. cbn [decode_refs]. rewrite Ha.
  now rewrite IH.
Qed.

Lemma digits_no_special (s : string) :
  all_chars is_dec_digit s = true ->
  has_char dquote s = false /\ has_char "&" s = false.
Proof.
  induction s as [|c s IH]; [now split|]. cbn [all_chars has_char].
  intro H. apply andb_prop in H as [Hc Hs].
  destruct (dec_digit_plain c Hc) as (_ & _ & _ & _ & _ & Hq & Ha).
  rewrite Hq, Ha. now apply IH.
Qed.

Lemma attr_value_Number_toString (n : number) :
  match n with Num z => 0 <= z | NaN => True end ->
  attr_value (Number_toString n) = Number_toString n.
Proof.
  destruct n as [z|]; [|reflexivity].
  destruct z as [|p|p]; intro H; [reflexivity | | lia].
  apply attr_value_plain;
    unfold Number_toString, Z.to_int, NilZero.string_of_int, NilZero.string_of_uint;
    pose proof (Unsigned.to_uint_nonnil p) as Hnil;
    pose proof (digits_no_special _ (string_of_uint_digits (Pos.to_uint p))) as [Hq Ha];
    destruct (Pos.to_uint p); congruence.
Qed.

Lemma attr_value_escape_char (c : ascii) (rest : string) :
  Ascii.eqb c dquote = false ->
  attr_value (escape_char c ++ rest) = String c (attr_value rest).
Proof.
  unfold attr_value.
  destruct c as [[] [] [] [] [] [] [] []]; intro H; try discriminate H; reflexivity.
Qed.

Lemma attr_value_escaped (s : string) :
  has_char dquote s = false -> attr_value (serialize_text s) = s.
Proof.
  induction s as [|c s IH]; [reflexivity|].
  cbn [has_char serialize_text]. intro H. apply orb_false_elim in H as [Hc Hs].
  rewrite attr_value_escape_char by exact Hc. now rewrite IH.
Qed.

Lemma escape_char_no_angle (c : ascii) :
  has_char "<" (escape_char c) = false /\ has_char ">" (escape_char c) = false.
Proof. destruct c as [[] [] [] [] [] [] [] []]; split; reflexivity. Qed.

Lemma has_char_app (c : ascii) (a b : string) :
  has_char c (a ++ b) = has_char c a || has_char c b.
Proof. induction a as [|x a IH]; [reflexivity|]. cbn. now rewrite IH, orb_assoc. Qed.

Lemma serialize_text_no_angle (s : string) :
  has_char "<" (serialize_text s) = false /\ has_char ">" (serialize_text s) = false.
Proof.
  induction s as [|c s [IHl IHg]]; [now split|]. cbn [serialize_text].
  rewrite !has_char_app, IHl, IHg.
  destruct (escape_char_no_angle c) as [-> ->]. now split.
Qed.

Lemma decode_escape_char (c : ascii) (rest : string) :
  decode_refs (escape_char c ++ rest) = String c (decode_refs rest).
Proof. destruct c as [[] [] [] [] [] [] [] []]; reflexivity. Qed.

Lemma decode_serialize_text (s : string) : decode_refs (serialize_text s) = s.
Proof.
  induction s as [|c s IH]; [reflexivity|]. cbn [serialize_text].
  now rewrite decode_escape_char, IH.
Qed.

(** ** [apiRequest] and the list refresh *)

Section Requests.
Context {P : Platform}.

Lemma showLogin_run w : showLogin w = (Ok tt, logout w).
Proof. reflexivity. Qed.

Lemma apiRequest_no_token url method body w :
  truthy (authToken w) = false ->
  apiRequest url method body true w = (Throw (Error "Not authenticated"), logout w).
Proof.
  intro H. unfold apiRequest. cbn. unfold bind at 1. unfold bind at 1.
  unfold gets. rewrite H. reflexivity.
Qed.

Lemma fetch_run (r : Request) (w : World) :
  fetch r w =
  let res := net (trace w ++ [EvFetch r]) r in
  let w' := set_trace (trace w ++ [EvFetch r; EvSettle res]) w in
  match res with
  | Resolved response => (Ok response, w')
  | Rejected e => (Throw e, w')
  end.
Proof.
  unfold fetch, Engine.fetch, emit, bind, modify, gets. cbn.
  rewrite <- app_assoc. cbn.
  destruct (net _ _); reflexivity.
Qed.

Lemma apiRequest_sent url method body requiresAuth w :
  requiresAuth = false \/ truthy (authToken w) = true ->
  apiRequest url method body requiresAuth w =
  let req := api_request url method body requiresAuth (authToken w) in
  let res := net (trace w ++ [EvFetch req]) req in
  let w1 := set_trace (trace w ++ [EvFetch req; EvSettle res]) w in
  match res with
  | Rejected e => (Throw e, log "API Request Error:" e w1)
  | Resolved r =>
      if (status r =? 401) && requiresAuth then
        (Throw (Error "Authentication failed"),
         log "API Request Error:" (Error "Authentication failed") (logout w1))
      else if negb (ok r) then
        (Throw (http_error r), log "API Request Error:" (http_error r) w1)
      else if no_content r then (Ok JNull, w1)
      else match json r with
           | Ok v => (Ok v, w1)
           | Throw e => (Throw e, log "API Request Error:" e w1)
           end
  end.
Proof.
  intro H. unfold apiRequest. cbn zeta. unfold bind at 1.
  match goal with |- context [(if requiresAuth then ?a else ?b) w] =>
    assert ((if requiresAuth then a else b) w
            = (Ok (headers (api_request url method body requiresAuth (authToken w))), w)) as ->
  end.
  { destruct requiresAuth; [|reflexivity]. destruct H as [H|H]; [discriminate|].
    unfold bind, gets. rewrite H. reflexivity. }
  fold (api_request url method body requiresAuth (authToken w)).
  unfold try_catch, bind at 1. rewrite fetch_run. cbv zeta.
  destruct (net _ _) as [r|e]; [|reflexivity].
  destruct ((status r =? 401) && requiresAuth) eqn:E401; [reflexivity|].
  destruct (ok r) eqn:Eok; cbn [negb].
  - fold (no_content r). destruct (no_content r); [reflexivity|].
    unfold response_json. destruct (json r); reflexivity.
  - unfold http_error, bind, try_catch, response_json.
    destruct (json r) as [v|e]; [destruct v|]; reflexivity.
Qed.

Lemma forEach_rows (items : list jsval) : forall rows w,
  exists o rows',
    forEach_list items render_row (set_tbody rows w) = (o, set_tbody rows' w).
Proof.
  induction items as [|video items IH]; intros rows w.
  - exists (Ok tt), rows. reflexivity.
  - cbn [forEach_list]. unfold bind at 1.
    assert (exists o rows', render_row video (set_tbody rows w) = (o, set_tbody rows' w))
      as (o & rows' & ->).
    { destruct video; try (eexists _, _; reflexivity);
        unfold render_row, prop, bind, ret, gets, modify; cbn;
        eexists _, _; reflexivity. }
    destruct o as [[]|e]; [apply IH | eauto].
Qed.

Lemma renderSharedVideos_rows (videos : jsval) (w : World) :
  exists o rows, renderSharedVideos videos w = (o, set_tbody rows w).
Proof.
  unfold renderSharedVideos. unfold bind at 1, modify at 1.
  destruct (negb (truthy videos) || length_is_zero videos).
  - eexists _, _. reflexivity.
  - unfold bind, addTableButtonListeners.
    assert (exists o rows, forEach videos render_row (set_tbody [] w) = (o, set_tbody rows w))
      as (o & rows & ->).
    { destruct videos; try (eexists _, _; reflexivity). apply forEach_rows. }
    destruct o as [[]|e]; eexists _, _; reflexivity.
Qed.

(** [fetchSharedVideos] always returns; it replaces the table body, logs out
    on a missing or rejected token, and leaves its events on the trace. *)
Ltac run_logs :=
  eexists _, _; split;
  [ | unfold log, console_error, Engine.console_error, emit, bind, modify; cbn;
      rewrite <- ?app_assoc; reflexivity ]; reflexivity.

Lemma fetchSharedVideos_run (w : World) :
  exists rows logs,
    console_only logs = true /\
    fetchSharedVideos w =
    (Ok tt,
     if truthy (authToken w) then
       let req := api_request "/shared_videos" "GET" JNull true (authToken w) in
       let res := net (trace w ++ [EvFetch req]) req in
       set_tbody rows
         (set_trace (trace w ++ EvFetch req :: EvSettle res :: logs)
            (if is_401 res then logout w else w))
     else set_tbody rows (set_trace (trace w ++ logs) (logout w))).
Proof.
  unfold fetchSharedVideos, try_catch, bind at 1.
  destruct (truthy (authToken w)) eqn:Htok.
  - rewrite apiRequest_sent by (right; exact Htok). cbv zeta.
    set (req := api_request _ _ _ _ _). set (res := net _ req).
    destruct res as [r|e] eqn:Eres; [|run_logs].
    rewrite andb_true_r. unfold is_401. destruct (status r =? 401) eqn:E401; [run_logs|].
    destruct (negb (ok r)); [run_logs|].
    assert (forall videos, exists rows logs, console_only logs = true /\
      (let (o, w') := renderSharedVideos videos
                        (set_trace (trace w ++ [EvFetch req; EvSettle (Resolved r)]) w) in
       match o with
       | Ok a => (Ok a, w')
       | Throw e =>
           (console_error "Failed to fetch shared videos:" e ;;
            modify (set_tbody
                      [message_row "Failed to load shared videos. Please try again."]))%js w'
       end)
      = (Ok tt, set_tbody rows
                  (set_trace (trace w ++ EvFetch req :: EvSettle (Resolved r) :: logs) w)))
      as Hrender.
    { intro videos.
      destruct (renderSharedVideos_rows videos
                  (set_trace (trace w ++ [EvFetch req; EvSettle (Resolved r)]) w))
        as (o & rows & ->).
      destruct o as [[]|e]; [exists rows, []; split; reflexivity | run_logs]. }
    destruct (no_content r); [apply Hrender|].
    destruct (json r) as [v|e]; [apply Hrender | run_logs].
  - rewrite apiRequest_no_token by exact Htok. run_logs.
Qed.



Lemma logout_logged_out (w : World) : logged_out (logout w).
Proof. repeat split. Qed.

Lemma console_only_no_fetch (logs : list Event) :
  console_only logs = true -> fetches logs = [] /\ received_401 logs = false.
Proof.
  induction logs as [|ev logs IH]; [now split|].
  cbn. destruct ev; try discriminate. exact IH.
Qed.

Lemma fetches_app (a b : list Event) : fetches (a ++ b) = (fetches a ++ fetches b)%list.
Proof. apply flat_map_app. Qed.

Lemma received_401_app (a b : list Event) :
  received_401 (a ++ b) = received_401 a || received_401 b.
Proof. apply existsb_app. Qed.
End Requests.

Section Contract.
Context {P : Platform}.

Lemma no_content_spec (r : Response) :
  no_content r = true <-> status r = 204 \/ content_length r = Some "0".
Proof.
  unfold no_content. rewrite orb_true_iff, Z.eqb_eq.
  destruct (content_length r) as [len|].
  - rewrite String.eqb_eq. split; intros [H|H]; auto; [right; congruence|].
    right. congruence.
  - split; intros [H|H]; auto; discriminate.
Qed.

Lemma ok_not_401 (r : Response) : ok r = true -> (status r =? 401) = false.
Proof. unfold ok. intro H. apply andb_prop in H as [_ H]. lia. Qed.

(** C5, as amended: a call of [apiRequest] that needs a token and finds
    none raises [Not authenticated] without sending anything.  Every other
    call sends one request, with the JSON content type, with the bearer
    header when authentication is required, and with the body serialised
    when one is given.  A rejected [fetch] raises its error.  A 401 answer to
    an authenticated call forces the logout and raises the fixed
    [Authentication failed], whatever the body says.  Any other unsuccessful
    status raises an error whose message is the [detail] of the JSON object
    received when it has a truthy one, else [HTTP error! status: N], and
    [Unknown error] when the body is not JSON.  A successful answer with
    status 204 or a content length of 0 returns [null]; any other successful
    answer returns the parsed JSON. *)
Theorem apiRequest_contract (url method : string) (payload : jsval)
                            (requiresAuth : bool) (w : World) :
  (requiresAuth = true -> truthy (authToken w) = false ->
   apiRequest url method payload requiresAuth w
   = (Throw (Error "Not authenticated"), logout w)) /\
  (requiresAuth = false \/ truthy (authToken w) = true ->
   let req := api_request url method payload requiresAuth (authToken w) in
   let res := net (trace w ++ [EvFetch req]) req in
   exists o w' logs,
     apiRequest url method payload requiresAuth w = (o, w') /\
     trace w' = (trace w ++ EvFetch req :: EvSettle res :: logs)%list /\
     console_only logs = true /\
     In ("Content-Type", "application/json") (headers req) /\
     (requiresAuth = true ->
      In ("Authorization", "Bearer " ++ ToString (authToken w)) (headers req)) /\
     body req = (if truthy payload then Some (JSON_stringify payload) else None) /\
     (forall e, res = Rejected e -> o = Throw e) /\
     forall r, res = Resolved r ->
       (status r = 401 -> requiresAuth = true ->
        o = Throw (Error "Authentication failed") /\ logged_out w') /\
       (ok r = false -> status r <> 401 \/ requiresAuth = false ->
        (forall fields, json r = Ok (JObj fields) ->
           o = Throw (Error (if truthy (lookup "detail" fields)
                             then ToString (lookup "detail" fields)
                             else "HTTP error! status: "
                                  ++ Number_toString (Num (status r))))) /\
        (forall e, json r = Throw e -> o = Throw (Error "Unknown error")) /\
        exists e, o = Throw e) /\
       (ok r = true -> status r = 204 \/ content_length r = Some "0" ->
        o = Ok JNull) /\
       (ok r = true -> status r <> 204 -> content_length r <> Some "0" ->
        forall v, json r = Ok v -> o = Ok v)).
Proof.
  split.
  - intros -> Htok. now apply apiRequest_no_token.
  - intros Hsent req res. pose proof (apiRequest_sent url method payload _ w Hsent) as Hrun.
    cbv zeta in Hrun. fold req in Hrun. fold res in Hrun.
    assert (Hhdr : In ("Content-Type", "application/json") (headers req)
                   /\ (requiresAuth = true ->
                       In ("Authorization", "Bearer " ++ ToString (authToken w))
                          (headers req))
                   /\ body req
                      = (if truthy payload then Some (JSON_stringify payload) else None)).
    { split; [left; reflexivity|]. split; [|reflexivity].
      intros ->. right. left. reflexivity. }
    destruct Hhdr as (Hct & Hauth & Hbody).
    destruct res as [r|e] eqn:Eres.
    + destruct ((status r =? 401) && requiresAuth) eqn:E401.
      { apply andb_prop in E401 as [Es Ea]. apply Z.eqb_eq in Es.
        eexists _, _, [_]. split; [exact Hrun|].
        split; [cbn; rewrite <- app_assoc; reflexivity|].
        repeat (split; [assumption || reflexivity || discriminate|]).
        intros r' [= <-]. split; [intros; split; [reflexivity | repeat split]|].
        assert (Hok : ok r = false) by (unfold ok; rewrite Es; reflexivity).
        split; [intros _ [H|H]; congruence|].
        split; intro H; congruence. }
      destruct (ok r) eqn:Eok; cbn [negb] in Hrun.
      * destruct (no_content r) eqn:Enc.
        { eexists _, _, []. split; [exact Hrun|].
          split; [reflexivity|].
          repeat (split; [assumption || reflexivity || discriminate|]).
          intros r' [= <-].
          split; [intros Hs Ha; rewrite Hs, Ha in E401; now cbn in E401|].
          split; [intro; congruence|].
          split; [reflexivity|].
          intros _ H204 Hcl. exfalso.
          apply no_content_spec in Enc as [H|H]; contradiction. }
        assert (Hnc : ~ (status r = 204 \/ content_length r = Some "0"))
          by (rewrite <- no_content_spec; congruence).
        destruct (json r) as [v|e] eqn:Ejson.
        { eexists _, _, []. split; [exact Hrun|].
          split; [reflexivity|].
          repeat (split; [assumption || reflexivity || discriminate|]).
          intros r' [= <-].
          split; [intros Hs Ha; rewrite Hs, Ha in E401; now cbn in E401|].
          split; [intro; congruence|].
          split; [intros _ H; contradiction|].
          intros _ _ _ v' Hv. congruence. }
        { eexists _, _, [_]. split; [exact Hrun|].
          split; [cbn; rewrite <- app_assoc; reflexivity|].
          repeat (split; [assumption || reflexivity || discriminate|]).
          intros r' [= <-].
          split; [intros Hs Ha; rewrite Hs, Ha in E401; now cbn in E401|].
          split; [intro; congruence|].
          split; [intros _ H; contradiction|].
          intros _ _ _ v' Hv. congruence. }
      * eexists _, _, [_]. split; [exact Hrun|].
        split; [cbn; rewrite <- app_assoc; reflexivity|].
        repeat (split; [assumption || reflexivity || discriminate|]).
        intros r' [= <-].
        split; [intros Hs Ha; rewrite Hs, Ha in E401; now cbn in E401|].
        split; [|split; intro; congruence].
        intros _ _. unfold http_error.
        split; [intros fields ->; reflexivity|].
        split; [intros e ->; reflexivity|].
        eexists; reflexivity.
    + eexists _, _, [_]. split; [exact Hrun|].
      split; [cbn; rewrite <- app_assoc; reflexivity|].
      repeat (split; [assumption || reflexivity || discriminate|]).
      split; [intros e' [= <-]; reflexivity | intros r' [=]].
Qed.
End Contract.

(** ** The listeners, unfolded and case by case *)

Section Listeners.
Context {P : Platform}.

Ltac unfold_handler :=
  cbv beta iota zeta delta
    [shareFormSubmit saveEditClick deleteClick lookupTitleClick clearMessages
     shareForm_reset assign value bind modify gets try_catch ret throw prop
     confirm Engine.confirm alert Engine.alert emit
     cleared confirmed shareData updatedData field is_nullish delete_question];
  cbn [authToken stored_token dom tbody clock trace
       set_authToken set_stored_token set_dom set_tbody set_trace fst snd Elem_eqb].

(** A request made with a token either fails, leaving its events and
    perhaps a forced logout, or succeeds on a response with a success status,
    leaving only its two events. *)
Lemma apiRequest_cases (url method : string) (body : jsval) (w : World) :
  truthy (authToken w) = true ->
  let req := api_request url method body true (authToken w) in
  let res := net (trace w ++ [EvFetch req]) req in
  (exists e logs,
     console_only logs = true /\
     apiRequest url method body true w
     = (Throw e, set_trace (trace w ++ EvFetch req :: EvSettle res :: logs)
                   (if is_401 res then logout w else w)))
  \/ (exists v r,
        res = Resolved r /\ ok r = true /\ is_401 res = false /\
        apiRequest url method body true w
        = (Ok v, set_trace (trace w ++ [EvFetch req; EvSettle res]) w)).
Proof.
  intros Htok req res.
  rewrite (apiRequest_sent url method body true w (or_intror Htok)).
  cbv zeta. fold req. fold res.
  assert (Hfail : forall (e : JsError) (b : bool),
            exists e' logs,
              console_only logs = true /\
              (@Throw jsval e, log "API Request Error:" e
                          (set_trace (trace w ++ [EvFetch req; EvSettle res])
                             (if b then logout w else w)))
              = (@Throw jsval e',
                 set_trace (trace w ++ EvFetch req :: EvSettle res :: logs)
                   (if b then logout w else w))).
  { intros e b. exists e, [EvConsoleError "API Request Error:" (message e)].
    split; [reflexivity|]. unfold log. cbn. rewrite <- app_assoc.
    destruct b; reflexivity. }
  destruct res as [r|e] eqn:Eres; [|left; apply (Hfail e false)].
  rewrite andb_true_r. cbn [is_401].
  destruct (status r =? 401) eqn:E401; [left; apply (Hfail _ true)|].
  destruct (ok r) eqn:Eok; cbn [negb]; [|left; apply (Hfail _ false)].
  destruct (no_content r); [right; eauto 8|].
  destruct (json r) as [v|e]; [right; eauto 8 | left; apply (Hfail e false)].
Qed.

Lemma fetchSharedVideos_ok (w : World) : exists w', fetchSharedVideos w = (Ok tt, w').
Proof. destruct (fetchSharedVideos_run w) as (rows & logs & _ & ->). eauto. Qed.

Ltac refresh_returns :=
  match goal with
  | |- context [fetchSharedVideos ?X] =>
      let w' := fresh "w'" in
      let Hw' := fresh "Hw'" in
      destruct (fetchSharedVideos_ok X) as [w' Hw']; rewrite Hw'; reflexivity
  end.

Lemma shareFormSubmit_eq (w : World) :
  shareFormSubmit w =
  if submits Create w then
    match apiRequest "/share" "POST" (shareData w) true (cleared w) with
    | (Ok result, w1) =>
        if is_nullish result then
          (Ok tt, set_dom shareError
                    ("Failed to share video: "
                     ++ null_property_message result "share_url") w1)
        else fetchSharedVideos (confirmed (field result "share_url") w1)
    | (Throw e, w1) =>
        (Ok tt, set_dom shareError ("Failed to share video: " ++ message e) w1)
    end
  else (Ok tt, set_dom shareError "Please fill in all fields correctly." (cleared w)).
Proof.
  unfold submits. unfold_handler.
  destruct (String.eqb (dom w videoNameInput) ""
            || isNaN (parseInt10 (dom w stashIdInput))
            || isNaN (parseInt10 (dom w daysValidInput))); [reflexivity|].
  cbn [negb]. destruct (apiRequest _ _ _ _ _) as [[result|e] w1]; [|reflexivity].
  destruct result; try reflexivity; refresh_returns.
Qed.

Lemma saveEditClick_eq (w : World) :
  saveEditClick w =
  if submits Edit w then
    match apiRequest ("/edit_share/" ++ dom w editShareIdInput) "PUT"
            (updatedData w) true (cleared w) with
    | (Ok _, w1) => fetchSharedVideos (set_dom editModal "none" w1)
    | (Throw e, w1) =>
        (Ok tt, set_dom editError ("Failed to update share: " ++ message e) w1)
    end
  else (Ok tt, set_dom editError "Please fill in all fields correctly." (cleared w)).
Proof.
  unfold submits. unfold_handler.
  destruct (String.eqb (dom w editVideoNameInput) ""
            || isNaN (parseInt10 (dom w editDaysValidInput))); [reflexivity|].
  cbn [negb]. destruct (apiRequest _ _ _ _ _) as [[result|e] w1]; [|reflexivity].
  refresh_returns.
Qed.

Lemma deleteClick_eq (b : Buttons) (w : World) :
  deleteClick b w =
  if submits (Delete b) w then
    match apiRequest ("/delete_share/" ++ delete_data_share_id b) "DELETE"
            JNull true (asked b w) with
    | (Ok _, w1) => fetchSharedVideos w1
    | (Throw e, w1) =>
        (Ok tt, set_trace (trace w1 ++ [EvAlert ("Failed to delete share: "
                                                 ++ message e)]) w1)
    end
  else (Ok tt, asked b w).
Proof.
  unfold asked, submits. unfold_handler.
  destruct (confirm_answer (trace w) _); [|reflexivity].
  destruct (apiRequest _ _ _ _ _) as [[result|e] w1]; [|reflexivity].
  refresh_returns.
Qed.

Lemma lookupTitleClick_eq (w : World) :
  lookupTitleClick w =
  if submits TitleLookup w then
    match apiRequest ("/get_video_title/" ++ dom w stashIdInput) "GET"
            JNull true (cleared w) with
    | (Ok data, w1) =>
        if truthy data && truthy (field data "title") then
          (Ok tt, set_dom videoNameInput (ToString (field data "title")) w1)
        else
          (Ok tt, set_dom videoNameInput ""
                    (set_dom shareError "Could not find title for this ID." w1))
    | (Throw e, w1) =>
        (Ok tt, set_dom videoNameInput ""
                  (set_dom shareError ("Error looking up title: " ++ message e) w1))
    end
  else (Ok tt, set_dom shareError "Please enter a Stash Video ID." (cleared w)).
Proof.
  unfold submits. unfold_handler.
  destruct (String.eqb (dom w stashIdInput) ""); [reflexivity|].
  cbn [negb]. destruct (apiRequest _ _ _ _ _) as [[data|e] w1]; [|reflexivity].
  destruct data as [| | b | [z|] | s | items | fields];
    cbn [truthy andb negb]; try reflexivity.
  - destruct b; reflexivity.
  - destruct (z =? 0); reflexivity.
  - destruct (String.eqb s ""); reflexivity.
  - destruct (truthy (lookup "title" fields)); reflexivity.
Qed.
End Listeners.

(** ** Every protected operation, summarised *)

Section Summary.
Context {P : Platform}.

Lemma console_only_quiet (logs : list Event) : console_only logs = true -> quiet logs = true.
Proof.
  induction logs as [|ev logs IH]; [reflexivity|].
  cbn. destruct ev; try discriminate. exact IH.
Qed.

Lemma list_fetch_summary (w : World) :
  exists w' evs forced,
    fetchSharedVideos w = (Ok tt, w') /\ trace w' = (trace w ++ evs)%list /\
    OpRun ListFetch w evs forced /\
    auth_view w' = if forced then forced_view else auth_view w.
Proof.
  destruct (fetchSharedVideos_run w) as (rows & logs & Hlogs & ->).
  apply console_only_quiet in Hlogs.
  destruct (truthy (authToken w)) eqn:Htok.
  - cbv zeta. set (req := api_request _ _ _ _ _). set (res := net _ req).
    eexists _, _, (is_401 res). split; [reflexivity|]. split; [reflexivity|].
    split.
    + apply (run_single ListFetch w [] logs res); auto.
    + destruct (is_401 res); reflexivity.
  - eexists _, _, true. split; [reflexivity|]. split; [reflexivity|].
    split; [apply run_unauthenticated; auto | reflexivity].
Qed.


Lemma create_summary (w : World) :
  exists w' evs forced,
    shareFormSubmit w = (Ok tt, w') /\ trace w' = (trace w ++ evs)%list /\
    OpRun Create w evs forced /\
    auth_view w' = if forced then forced_view else auth_view w.
Proof.
  rewrite shareFormSubmit_eq. destruct (submits Create w) eqn:Hs.
  2:{ exists (set_dom shareError "Please fill in all fields correctly." (cleared w)), [], false.
      split; [reflexivity|]. split; [symmetry; apply app_nil_r|].
      split; [now apply run_local | reflexivity]. }
  destruct (truthy (authToken w)) eqn:Htok.
  2:{ rewrite apiRequest_no_token by exact Htok.
      eexists _, [], true.
      split; [reflexivity|]. split; [symmetry; apply app_nil_r|].
      split; [now apply run_unauthenticated | reflexivity]. }
  destruct (apiRequest_cases "/share" "POST" (shareData w) (cleared w) Htok)
    as [(e & logs & Hl & ->) | (v & r & Hres & Hok & H401 & ->)].
  - apply console_only_quiet in Hl.
    set (req := api_request _ _ _ _ _). set (res := net _ req).
    eexists _, _, (is_401 res). split; [reflexivity|]. split; [reflexivity|].
    split; [apply (run_single Create w [] logs res); auto
           | destruct (is_401 res); reflexivity].
  - set (req := api_request _ _ _ _ _) in *. set (res := net _ req) in *.
    destruct (is_nullish v).
    + eexists _, _, false. split; [reflexivity|]. split; [reflexivity|].
      split; [|reflexivity].
      rewrite <- H401. apply (run_single Create w [] [] res); auto.
    + match goal with |- context [fetchSharedVideos ?X] =>
        destruct (fetchSharedVideos_run X) as (rows & logs & Hl & ->) end.
      apply console_only_quiet in Hl.
      cbn [authToken trace confirmed cleared set_dom set_trace]. rewrite Htok. cbv zeta.
      rewrite <- !app_assoc. cbn [List.app].
      fold (refresh_request w).
      rewrite Hres.
      set (res2 := net _ (refresh_request w)).
      eexists _, _, (is_401 res2). split; [reflexivity|]. split; [reflexivity|].
      split.
      * apply (run_refreshed Create w [] logs r res2); auto.
      * destruct (is_401 res2); reflexivity.
Qed.


Lemma edit_summary (w : World) :
  exists w' evs forced,
    saveEditClick w = (Ok tt, w') /\ trace w' = (trace w ++ evs)%list /\
    OpRun Edit w evs forced /\
    auth_view w' = if forced then forced_view else auth_view w.
Proof.
  rewrite saveEditClick_eq. destruct (submits Edit w) eqn:Hs.
  2:{ eexists _, [], false.
      split; [reflexivity|]. split; [symmetry; apply app_nil_r|].
      split; [now apply run_local | reflexivity]. }
  destruct (truthy (authToken w)) eqn:Htok.
  2:{ rewrite apiRequest_no_token by exact Htok.
      eexists _, [], true.
      split; [reflexivity|]. split; [symmetry; apply app_nil_r|].
      split; [now apply run_unauthenticated | reflexivity]. }
  destruct (apiRequest_cases ("/edit_share/" ++ dom w editShareIdInput) "PUT"
              (updatedData w) (cleared w) Htok)
    as [(e & logs & Hl & ->) | (v & r & Hres & Hok & H401 & ->)].
  - apply console_only_quiet in Hl.
    set (req := api_request _ _ _ _ _). set (res := net _ req).
    eexists _, _, (is_401 res). split; [reflexivity|]. split; [reflexivity|].
    split; [apply (run_single Edit w [] logs res); auto
           | destruct (is_401 res); reflexivity].
  - set (req := api_request _ _ _ _ _) in *. set (res := net _ req) in *.
    match goal with |- context [fetchSharedVideos ?X] =>
      destruct (fetchSharedVideos_run X) as (rows & logs & Hl & ->) end.
    apply console_only_quiet in Hl.
    cbn [authToken trace cleared set_dom set_trace]. rewrite Htok. cbv zeta.
    rewrite <- !app_assoc. cbn [List.app].
    fold (refresh_request w).
    rewrite Hres.
    set (res2 := net _ (refresh_request w)).
    eexists _, _, (is_401 res2). split; [reflexivity|]. split; [reflexivity|].
    split.
    + apply (run_refreshed Edit w [] logs r res2); auto.
    + destruct (is_401 res2); reflexivity.
Qed.

Lemma quiet_app (a b : list Event) : quiet (a ++ b) = quiet a && quiet b.
Proof. apply forallb_app. Qed.

Lemma delete_summary (b : Buttons) (w : World) :
  exists w' evs forced,
    deleteClick b w = (Ok tt, w') /\ trace w' = (trace w ++ evs)%list /\
    OpRun (Delete b) w evs forced /\
    auth_view w' = if forced then forced_view else auth_view w.
Proof.
  rewrite deleteClick_eq. destruct (submits (Delete b) w) eqn:Hs.
  2:{ eexists _, [_], false.
      split; [reflexivity|]. split; [reflexivity|].
      split; [now apply run_local | reflexivity]. }
  destruct (truthy (authToken w)) eqn:Htok.
  2:{ rewrite apiRequest_no_token by exact Htok.
      eexists _, [_; _], true.
      split; [reflexivity|].
      split; [cbn; rewrite <- app_assoc; reflexivity|].
      split; [now apply run_unauthenticated | reflexivity]. }
  set (c := EvConfirm (delete_question b) true).
  assert (Hasked : asked b w = set_trace (trace w ++ [c]) w)
    by (unfold asked; rewrite Hs; reflexivity).
  rewrite Hasked.
  destruct (apiRequest_cases ("/delete_share/" ++ delete_data_share_id b) "DELETE"
              JNull (set_trace (trace w ++ [c]) w) Htok)
    as [(e & logs & Hl & ->) | (v & r & Hres & Hok & H401 & ->)].
  - apply console_only_quiet in Hl.
    cbn [authToken trace set_trace].
    set (req := api_request _ _ _ _ _).
    rewrite <- !app_assoc.
    set (res := net _ req).
    eexists _, _, (is_401 res). split; [reflexivity|].
    split.
    { reflexivity. }
    split.
    + apply (run_single (Delete b) w [c] (logs ++ [_]) res); auto.
      rewrite quiet_app, Hl. reflexivity.
    + destruct (is_401 res); reflexivity.
  - cbn [authToken trace set_trace] in *.
    set (req := api_request _ _ _ _ _) in *.
    rewrite <- !app_assoc in *.
    set (res := net _ req) in *.
    match goal with |- context [fetchSharedVideos ?X] =>
      destruct (fetchSharedVideos_run X) as (rows & logs & Hl & ->) end.
    apply console_only_quiet in Hl.
    cbn [authToken trace set_trace]. rewrite Htok. cbv zeta.
    rewrite <- !app_assoc. cbn [List.app].
    fold (refresh_request w).
    rewrite Hres.
    set (res2 := net _ (refresh_request w)).
    eexists _, _, (is_401 res2). split; [reflexivity|]. split; [reflexivity|].
    split.
    + apply (run_refreshed (Delete b) w [c] logs r res2); auto.
    + destruct (is_401 res2); reflexivity.
Qed.

Lemma lookup_summary (w : World) :
  exists w' evs forced,
    lookupTitleClick w = (Ok tt, w') /\ trace w' = (trace w ++ evs)%list /\
    OpRun TitleLookup w evs forced /\
    auth_view w' = if forced then forced_view else auth_view w.
Proof.
  rewrite lookupTitleClick_eq. destruct (submits TitleLookup w) eqn:Hs.
  2:{ eexists _, [], false.
      split; [reflexivity|]. split; [symmetry; apply app_nil_r|].
      split; [now apply run_local | reflexivity]. }
  destruct (truthy (authToken w)) eqn:Htok.
  2:{ rewrite apiRequest_no_token by exact Htok.
      eexists _, [], true.
      split; [reflexivity|]. split; [symmetry; apply app_nil_r|].
      split; [now apply run_unauthenticated | reflexivity]. }
  destruct (apiRequest_cases ("/get_video_title/" ++ dom w stashIdInput) "GET"
              JNull (cleared w) Htok)
    as [(e & logs & Hl & ->) | (v & r & Hres & Hok & H401 & ->)].
  - apply console_only_quiet in Hl.
    set (req := api_request _ _ _ _ _). set (res := net _ req).
    eexists _, _, (is_401 res). split; [reflexivity|]. split; [reflexivity|].
    split; [apply (run_single TitleLookup w [] logs res); auto
           | destruct (is_401 res); reflexivity].
  - set (req := api_request _ _ _ _ _) in *. set (res := net _ req) in *.
    destruct (truthy v && truthy (field v "title")).
    all: eexists _, _, false; split; [reflexivity|]; split; [reflexivity|];
      split; [|reflexivity];
      rewrite <- H401; apply (run_single TitleLookup w [] [] res); auto.
Qed.

(** Every protected operation returns, adding to the trace the events of
    one of the four runs, and changes the session and the view exactly when
    the run ends in the forced logout. *)
Lemma op_summary (op : ProtectedOp) (w : World) :
  exists w' evs forced,
    run_op op w = (Ok tt, w') /\ trace w' = (trace w ++ evs)%list /\
    OpRun op w evs forced /\
    auth_view w' = if forced then forced_view else auth_view w.
Proof.
  destruct op; cbn [run_op].
  - apply list_fetch_summary.
  - apply create_summary.
  - apply edit_summary.
  - apply delete_summary.
  - apply lookup_summary.
Qed.
End Summary.

(** ** The older script *)

Section LegacyScript.
Context {P : Platform}.

Lemma legacy_fetch_run (r : Request) (w : Legacy.World) :
  Legacy.fetch r w =
  let res := net (Legacy.trace w ++ [EvFetch r]) r in
  let w' := Legacy.set_trace (Legacy.trace w ++ [EvFetch r; EvSettle res]) w in
  match res with
  | Resolved response => (Ok response, w')
  | Rejected e => (Throw e, w')
  end.
Proof.
  unfold Legacy.fetch, Engine.fetch, Engine.emit, bind, modify, gets. cbn.
  rewrite <- app_assoc. cbn.
  destruct (net _ _); reflexivity.
Qed.

Lemma legacy_load_rows_frame (items : list jsval) : forall totalHits rows w,
  exists o rows',
    Legacy.load_rows items totalHits (Legacy.set_tbody rows w)
    = (o, Legacy.set_tbody rows' w).
Proof.
  induction items as [|v items IH]; intros totalHits rows w.
  - eexists _, _. reflexivity.
  - cbn [Legacy.load_rows]. unfold bind at 1.
    assert (exists o rows', Legacy.load_row totalHits v (Legacy.set_tbody rows w)
                            = (o, Legacy.set_tbody rows' w)) as (o & rows' & ->).
    { destruct v; try (eexists _, _; reflexivity);
        unfold Legacy.load_row, prop, bind, ret, gets, modify; cbn;
        eexists _, _; reflexivity. }
    destruct o as [t|e]; [apply IH | eauto].
Qed.

Ltac legacy_done :=
  eexists _, _, _; split; [reflexivity|]; split; [reflexivity|];
  split; [cbn [Legacy.trace Legacy.set_trace Legacy.set_tbody Legacy.set_dom];
          rewrite <- ?app_assoc; reflexivity|];
  split; [reflexivity|];
  let e := fresh "e" in
  intros e ? ?; destruct e; try reflexivity; congruence.

(** [loadVideos] always sends its request, whatever the token; it changes
    the table and the two counters only. *)
Lemma legacy_loadVideos_run (w : Legacy.World) :
  exists w' res logs,
    Legacy.loadVideos w = (Ok tt, w') /\
    Legacy.token w' = Legacy.token w /\
    Legacy.trace w'
    = (Legacy.trace w ++ EvFetch (legacy_list_request w) :: EvSettle res :: logs)%list /\
    fetches logs = [] /\
    forall e, e <> Legacy.totalShares -> e <> Legacy.totalHits ->
              Legacy.dom w' e = Legacy.dom w e.
Proof.
  cbv beta iota zeta delta
    [Legacy.loadVideos try_catch bind gets ret throw modify response_json
     Legacy.assign Legacy.emit Engine.emit].
  fold (legacy_list_request w). rewrite legacy_fetch_run. cbv zeta.
  set (req := legacy_list_request w). set (res := net _ req).
  destruct res as [r|e] eqn:Eres; [|legacy_done].
  destruct (ok r); cbn [negb]; [|legacy_done].
  destruct (json r) as [videos|e]; [|legacy_done].
  destruct videos as [| | b | n | s | items | fields]; try legacy_done.
  destruct (legacy_load_rows_frame items (JNum (Num 0)) []
              (Legacy.set_trace (Legacy.trace w ++ [EvFetch req; EvSettle (Resolved r)]) w))
    as (o & rows & ->).
  destruct o as [t|e]; legacy_done.
Qed.

End LegacyScript.

(** ** The guard on the token *)

Section Guard.
Context {P : Platform}.


End Guard.

(** ** Forced logout, and the order of the refresh *)

Section Session.
Context {P : Platform}.

Lemma quiet_silent (t : list Event) :
  quiet t = true ->
  fetches t = [] /\ received_401 t = false /\ existsb is_refresh t = false.
Proof.
  induction t as [|ev t IH]; [now repeat split|].
  cbn. destruct ev; try discriminate; exact IH.
Qed.

Lemma forced_view_logged_out (w : World) : auth_view w = forced_view -> logged_out w.
Proof. unfold auth_view, forced_view. intros [= H1 H2 H3 H4]. now repeat split. Qed.

Lemma run_op_events (op : ProtectedOp) (w : World) (evs : list Event) :
  trace (snd (run_op op w)) = (trace w ++ evs)%list ->
  exists forced,
    fst (run_op op w) = Ok tt /\ OpRun op w evs forced /\
    auth_view (snd (run_op op w)) = if forced then forced_view else auth_view w.
Proof.
  destruct (op_summary op w) as (w' & evs0 & forced & -> & Htrace & Hrun & Hview).
  cbn [fst snd]. intro H. rewrite Htrace in H. apply app_inv_head in H. subst evs0.
  eauto.
Qed.

Lemma ok_is_not_401 (r : Response) : ok r = true -> is_401 (Resolved r) = false.
Proof. unfold ok, is_401. intro H. apply andb_prop in H as [_ H]. lia. Qed.

(** C2: whenever a protected request is answered with status 401, the
    call raises [Authentication failed] after clearing the token, in the
    script and in local storage, and showing the login view; and for every
    listener of a protected operation, if any response it receives has
    status 401, the listener ends with the token cleared and the login view
    shown. *)
Theorem forced_logout_on_401 (w : World) :
  (forall url method body,
     truthy (authToken w) = true ->
     let req := api_request url method body true (authToken w) in
     is_401 (net (trace w ++ [EvFetch req]) req) = true ->
     fst (apiRequest url method body true w) = Throw (Error "Authentication failed")
     /\ logged_out (snd (apiRequest url method body true w))) /\
  (forall op evs,
     trace (snd (run_op op w)) = (trace w ++ evs)%list ->
     received_401 evs = true ->
     logged_out (snd (run_op op w))).
Proof.
  split.
  - intros url method body Htok req H401.
    rewrite (apiRequest_sent url method body true w (or_intror Htok)).
    cbv zeta. fold req. destruct (net _ req) as [r|e]; [|discriminate].
    cbn [is_401] in H401. rewrite H401. cbn [andb fst snd].
    split; [reflexivity | repeat split].
  - intros op evs Htrace H401.
    destruct (run_op_events op w evs Htrace) as (forced & _ & Hrun & Hview).
    apply forced_view_logged_out. rewrite Hview.
    destruct Hrun as [evs Hs Hq | evs Hs Htok Hq
                     | pre logs res Hs Htok Hpre Hlogs Hres
                     | pre logs r res2 Hs Htok Hpre Hlogs Hres Hok Hres2].
    + apply quiet_silent in Hq as (_ & Hq & _). congruence.
    + reflexivity.
    + apply quiet_silent in Hpre as (_ & Hpre & _).
      apply quiet_silent in Hlogs as (_ & Hlogs & _).
      rewrite received_401_app, Hpre in H401. cbn in H401.
      fold (received_401 logs) in H401. rewrite Hlogs, orb_false_r in H401.
      now rewrite H401.
    + apply quiet_silent in Hpre as (_ & Hpre & _).
      apply quiet_silent in Hlogs as (_ & Hlogs & _).
      rewrite received_401_app, Hpre in H401. cbn [received_401 existsb orb] in H401.
      fold (received_401 logs) in H401.
      rewrite Hlogs, orb_false_r, (ok_is_not_401 r Hok) in H401. cbn in H401.
      now rewrite H401.
Qed.





End Session.

(** ** The create and edit forms, and the title lookup *)

Section Forms.
Context {P : Platform}.





Lemma days_not_negative (now : Z) (expiry : number) :
  match calculateDaysRemaining now expiry with Num d => 0 <= d | NaN => True end.
Proof.
  unfold calculateDaysRemaining, Math_max, ceil_div, num_sub.
  destruct expiry; [lia | exact I].
Qed.

Lemma editClick_days (days : number) :
  match days with Num d => 0 <= d | NaN => True end ->
  let parsed := parseInt (attr_value (Number_toString days)) in
  Math_max (Num 1) (if truthy (JNum parsed) then parsed else Num 7)
  = prefilled_days days.
Proof.
  intro Hd. cbv zeta.
  rewrite attr_value_Number_toString, parseInt_Number_toString by exact Hd.
  destruct days as [d|]; [|reflexivity].
  cbn [truthy prefilled_days]. destruct (Z.eqb_spec d 0) as [->|Hz]; [reflexivity|].
  cbn [negb Math_max]. destruct (Z.leb_spec 1 d); [f_equal; lia | lia].
Qed.

Lemma render_row_record (r : ShareRecord) (w0 : World) :
  render_row (record_json r) w0
  = (Ok tt,
     set_tbody
       (tbody w0 ++
        [{| markup :=
              row_markup (share_id r) (serialize_text (video_name r))
                (Number_toString (Num (stash_video_id r)))
                (toLocaleString (Date_value (JStr (expires_at r))))
                (Number_toString (Num (hits r))) (share_url r)
                (Number_toString
                   (calculateDaysRemaining (clock w0)
                      (Date_value (JStr (expires_at r)))));
            buttons :=
              Some {| copy_data_url := attr_value (share_url r);
                      edit_data_share_id := attr_value (share_id r);
                      edit_data_video_name :=
                        attr_value (serialize_text (video_name r));
                      edit_data_days_valid :=
                        attr_value
                          (Number_toString
                             (calculateDaysRemaining (clock w0)
                                (Date_value (JStr (expires_at r)))));
                      delete_data_share_id := attr_value (share_id r) |} |}])
       w0).
Proof. reflexivity. Qed.




Lemma fetches_cons_quiet (pre logs : list Event) (reqs : list Event) :
  quiet pre = true -> quiet logs = true ->
  fetches (pre ++ reqs ++ logs) = fetches reqs.
Proof.
  intros Hpre Hlogs.
  apply quiet_silent in Hpre as (Hpre & _). apply quiet_silent in Hlogs as (Hlogs & _).
  now rewrite !fetches_app, Hpre, Hlogs, app_nil_r.
Qed.

Lemma append_assoc (a b c : string) : (a ++ b) ++ c = a ++ (b ++ c).
Proof. induction a as [|x a IH]; [reflexivity|]. cbn. now rewrite IH. Qed.

(** C9: every request the save listener of the edit modal sends is the PUT
    or the list request that follows it; the PUT carries the serialised
    object whose [stash_video_id] is the number 0, printed as such next to
    the name and the days of the modal; and the buttons of a rendered row,
    from which alone the modal is filled, are the same for two records that
    differ only in their source-video identifier. *)
Theorem edit_sends_stash_id_zero (w : World) (evs : list Event) :
  trace (snd (saveEditClick w)) = (trace w ++ evs)%list ->
  (forall req, In req (fetches evs) ->
     req = op_request Edit w \/ req = refresh_request w) /\
  method (op_request Edit w) = "PUT" /\
  body (op_request Edit w) = Some (JSON_stringify (updatedData w)) /\
  field (updatedData w) "stash_video_id" = JNum (Num 0) /\
  (forall days, parseInt10 (dom w editDaysValidInput) = Num days ->
     JSON_stringify (updatedData w)
     = "{" ++ q "video_name" ++ ":" ++ QuoteJSONString (dom w editVideoNameInput)
       ++ "," ++ q "stash_video_id" ++ ":0,"
       ++ q "days_valid" ++ ":" ++ Number_toString (Num days) ++ "}") /\
  body (refresh_request w) = None /\
  (forall (r : ShareRecord) (id : Z) (w0 : World),
     map buttons (tbody (snd (render_row (record_json (with_stash r id)) w0)))
     = map buttons (tbody (snd (render_row (record_json r) w0)))).
Proof.
  intro Htrace. split.
  - destruct (run_op_events Edit w evs Htrace) as (forced & _ & Hrun & _).
    destruct Hrun as [evs Hs Hq | evs Hs Htok Hq
                     | pre logs res Hs Htok Hpre Hlogs Hres
                     | pre logs r res2 Hs Htok Hpre Hlogs Hres Hok Hres2];
      intros req Hin.
    + apply quiet_silent in Hq as (Hq & _). rewrite Hq in Hin. contradiction.
    + apply quiet_silent in Hq as (Hq & _). rewrite Hq in Hin. contradiction.
    + pose proof (fetches_cons_quiet pre logs
                    [EvFetch (op_request Edit w); EvSettle res] Hpre Hlogs) as Hf.
      cbn [List.app] in Hf. rewrite Hf in Hin.
      destruct Hin as [<-|[]]. now left.
    + pose proof (fetches_cons_quiet pre logs
                    [EvFetch (op_request Edit w); EvSettle (Resolved r);
                     EvFetch (refresh_request w); EvSettle res2] Hpre Hlogs) as Hf.
      cbn [List.app] in Hf. rewrite Hf in Hin.
      destruct Hin as [<-|[<-|[]]]; [now left | now right].
  - split; [reflexivity|]. split; [reflexivity|]. split; [reflexivity|].
    split; [|split; [reflexivity|]].
    + intros days Hd. unfold updatedData. rewrite Hd.
      cbn [JSON_stringify join]. rewrite !append_assoc. reflexivity.
    + intros r id w0. rewrite !render_row_record.
      cbn [snd tbody set_tbody]. rewrite !map_app. reflexivity.
Qed.

(** C10: when a title lookup is attempted and its request raises an error,
    or returns no value or a value without a truthy [title], the listener
    ends with the name input empty, whatever it held, and with its message
    in the error line of the create form; only a truthy title is written
    to the name input. *)
Theorem failed_lookup_clears_name (w : World) (o : Outcome jsval) (w1 : World) :
  submits TitleLookup w = true ->
  apiRequest ("/get_video_title/" ++ dom w stashIdInput) "GET" JNull true (cleared w)
  = (o, w1) ->
  let w' := snd (lookupTitleClick w) in
  (forall e, o = Throw e ->
     dom w' videoNameInput = "" /\
     dom w' shareError = "Error looking up title: " ++ message e) /\
  (forall data, o = Ok data ->
     truthy data && truthy (field data "title") = false ->
     dom w' videoNameInput = "" /\
     dom w' shareError = "Could not find title for this ID.") /\
  (forall data, o = Ok data ->
     truthy data && truthy (field data "title") = true ->
     dom w' videoNameInput = ToString (field data "title")).
Proof.
  intros Hs Hrun w'. subst w'. rewrite lookupTitleClick_eq, Hs, Hrun.
  split; [intros e ->; split; reflexivity|].
  split; intros data -> Ht; rewrite Ht; [split|]; reflexivity.
Qed.
End Forms.

(** ** Row rendering *)

Section Rows.
Context {P : Platform}.

(** The console escapes the name wherever it writes it into a row: both
    places hold the serialised text, which has no angle bracket for any
    name and from which the name is read back unchanged. *)
Lemma console_row_escapes_name (r : ShareRecord) (w0 : World) :
  exists row b,
    tbody (snd (render_row (record_json r) w0)) = (tbody w0 ++ [row])%list /\
    buttons row = Some b /\
    markup row
    = row_markup (share_id r) (escapeHTML (JStr (video_name r)))
        (Number_toString (Num (stash_video_id r)))
        (toLocaleString (Date_value (JStr (expires_at r))))
        (Number_toString (Num (hits r))) (share_url r)
        (Number_toString
           (calculateDaysRemaining (clock w0) (Date_value (JStr (expires_at r))))) /\
    has_char "<" (escapeHTML (JStr (video_name r))) = false /\
    has_char ">" (escapeHTML (JStr (video_name r))) = false /\
    decode_refs (escapeHTML (JStr (video_name r))) = video_name r.
Proof.
  rewrite render_row_record. eexists _, _. split; [reflexivity|].
  split; [reflexivity|]. split; [reflexivity|].
  unfold escapeHTML. cbn [ToString].
  destruct (serialize_text_no_angle (video_name r)) as [-> ->].
  now rewrite decode_serialize_text.
Qed.

(** The older script writes the name into the row as it is. *)
Lemma legacy_row_raw (r : ShareRecord) (totalHits : jsval) (w : Legacy.World) :
  Legacy.tbody (snd (Legacy.load_row totalHits (record_json r) w))
  = (Legacy.tbody w ++
     [Legacy.row_markup (share_id r) (video_name r)
        (Number_toString (Num (stash_video_id r)))
        (toLocaleString (Date_value (JStr (expires_at r))))
        (Number_toString (Num (hits r)))])%list.
Proof. reflexivity. Qed.
End Rows.

Example console_row_for_script_name :
  map (fun row => contains "<script" (markup row))
      (tbody (snd (fetchSharedVideos (P := working_platform) (blank_page (JStr "tok")))))
  = [false].
Proof. vm_compute. reflexivity. Qed.

(** C3, the defect: [loadVideos] of [static/admin.js] renders the record
    named [<script>] into a row whose second cell is the tag itself,
    unescaped. *)
Theorem legacy_row_keeps_script_tag :
  Legacy.tbody (snd (Legacy.loadVideos (P := working_platform)
                       (legacy_page (JStr "tok") "" "" "")))
  = [Legacy.row_markup "abc123" "<script>" "42" "259201000" "5"] /\
  contains "<td><script></td>"
    (Legacy.row_markup "abc123" "<script>" "42" "259201000" "5") = true.
Proof. split; vm_compute; reflexivity. Qed.

(** In the console the name of a row is cut at its first double quote when
    it is read back from the edit button. *)
Example console_name_cut_at_quote :
  dom (snd (click_edit (P := working_platform) 0
              (snd (render_row (P := working_platform) (record_json quoted_record)
                      (blank_page (JStr "tok"))))))
      editVideoNameInput
  = "say ".
Proof. vm_compute. reflexivity. Qed.


(** ** Where the specification and the scripts part *)



(** C5 as stated fails: on a 401 answer to an authenticated call the
    server's message, though available, is not the one raised. *)
Lemma unauthorized_detail_not_raised :
  (exists r,
     net (Platform := rejecting_platform)
       [EvFetch (api_request "/shared_videos" "GET" JNull true (JStr "tok"))]
       (api_request "/shared_videos" "GET" JNull true (JStr "tok")) = Resolved r /\
     ok r = false /\
     json r = Ok (JObj [("detail", JStr "Token expired")])) /\
  fst (apiRequest (P := rejecting_platform) "/shared_videos" "GET" JNull true
         (blank_page (JStr "tok")))
  = Throw (Error "Authentication failed") /\
  fst (apiRequest (P := rejecting_platform) "/shared_videos" "GET" JNull true
         (blank_page (JStr "tok")))
  <> Throw (Error "Token expired").
Proof.
  split; [eexists; repeat split|].
  split; [reflexivity | discriminate].
Qed.


(** ** The theorems at concrete pages *)


Lemma forced_logout_on_401_witness :
  logged_out (snd (run_op (P := rejecting_platform) Create create_page)).
Proof.
  apply (proj2 (forced_logout_on_401 (P := rejecting_platform) create_page) Create
           (trace (snd (run_op (P := rejecting_platform) Create create_page))));
    reflexivity.
Defined.


Lemma apiRequest_contract_witness :
  exists o w',
    apiRequest (P := working_platform) "/share" "POST" (shareData create_page) true
      create_page = (o, w') /\
    o = Ok (JObj [("share_url", JStr "https://kinpeek.example/share/new1")]).
Proof.
  destruct (apiRequest_contract (P := working_platform) "/share" "POST"
              (shareData create_page) true create_page) as (_ & Hsent).
  destruct (Hsent (or_intror eq_refl))
    as (o & w' & logs & Hrun & _ & _ & _ & _ & _ & _ & Hres).
  exists o, w'. split; [exact Hrun|].
  destruct (Hres _ eq_refl) as (_ & _ & _ & Hjson).
  apply Hjson; [reflexivity | discriminate | discriminate | reflexivity].
Defined.



Lemma edit_sends_stash_id_zero_witness :
  map body (fetches (trace (snd (saveEditClick (P := working_platform) edit_page))))
  = [Some ("{" ++ q "video_name" ++ ":" ++ q "Renamed" ++ ","
           ++ q "stash_video_id" ++ ":0," ++ q "days_valid" ++ ":5}"); None] /\
  forall req,
    In req (fetches (trace (snd (saveEditClick (P := working_platform) edit_page)))) ->
    req = op_request Edit edit_page \/ req = refresh_request edit_page.
Proof.
  split; [reflexivity|].
  exact (proj1 (edit_sends_stash_id_zero (P := working_platform) edit_page
                  (trace (snd (saveEditClick (P := working_platform) edit_page)))
                  eq_refl)).
Defined.

Lemma failed_lookup_clears_name_witness :
  dom lookup_page videoNameInput = "Old name" /\
  dom (snd (lookupTitleClick (P := working_platform) lookup_page)) videoNameInput = "" /\
  dom (snd (lookupTitleClick (P := working_platform) lookup_page)) shareError
  = "Could not find title for this ID.".
Proof.
  destruct (failed_lookup_clears_name (P := working_platform) lookup_page _ _
              eq_refl eq_refl) as (_ & Hnone & _).
  split; [reflexivity|]. exact (Hnone _ eq_refl eq_refl).
Defined.

(** * Further properties of the two scripts *)

(** ** The utility functions *)

Lemma ceil_div_le (x y : Z) :
  x <= y -> - ((- x) / MS_PER_DAY) <= - ((- y) / MS_PER_DAY).
Proof.
  intro H. assert (- y / MS_PER_DAY <= - x / MS_PER_DAY); [|lia].
  apply Z.div_le_mono; [reflexivity | lia].
Qed.

Lemma ceil_div_next_day (x : Z) :
  - ((- (x - MS_PER_DAY)) / MS_PER_DAY) = - ((- x) / MS_PER_DAY) - 1.
Proof.
  replace (- (x - MS_PER_DAY)) with (- x + 1 * MS_PER_DAY) by lia.
  rewrite Z.div_add by (unfold MS_PER_DAY; lia). lia.
Qed.

(** X1: the days remaining never grow as the clock advances and never
    shrink as the expiry moves later; and one day later on the clock the
    count for the same expiry is one less, stopping at 0. *)
Theorem days_remaining_order (now now' e e' : Z) :
  (now' <= now -> e <= e' ->
   exists d d', calculateDaysRemaining now (Num e) = Num d /\
                calculateDaysRemaining now' (Num e') = Num d' /\ d <= d') /\
  (exists d, calculateDaysRemaining now (Num e) = Num d /\
             calculateDaysRemaining (now + MS_PER_DAY) (Num e)
             = Num (Z.max 0 (d - 1))).
Proof.
  split.
  - intros Hn He. eexists _, _. split; [reflexivity|]. split; [reflexivity|].
    pose proof (ceil_div_le (e - now) (e' - now') ltac:(lia)). lia.
  - eexists. split; [reflexivity|].
    unfold calculateDaysRemaining, num_sub, ceil_div, Math_max.
    replace (e - (now + MS_PER_DAY)) with (e - now - MS_PER_DAY) by lia.
    rewrite ceil_div_next_day. f_equal. lia.
Qed.

Lemma serialize_text_injective (a b : string) :
  serialize_text a = serialize_text b -> a = b.
Proof.
  intro H. rewrite <- (decode_serialize_text a), <- (decode_serialize_text b).
  now rewrite H.
Qed.

Lemma escape_char_quote (c : ascii) :
  has_char dquote (escape_char c) = Ascii.eqb c dquote.
Proof. destruct c as [[] [] [] [] [] [] [] []]; reflexivity. Qed.

Lemma serialize_text_quote (s : string) :
  has_char dquote (serialize_text s) = has_char dquote s.
Proof.
  induction s as [|c s IH]; [reflexivity|].
  cbn [serialize_text has_char]. rewrite has_char_app, escape_char_quote, IH.
  reflexivity.
Qed.

Lemma length_append (a b : string) :
  String.length (a ++ b) = (String.length a + String.length b)%nat.
Proof. induction a as [|c a IH]; [reflexivity|]. cbn. now rewrite IH. Qed.

Lemma escape_char_length (c : ascii) : (1 <= String.length (escape_char c))%nat.
Proof. unfold escape_char. repeat destruct (Ascii.eqb _ _); cbn; lia. Qed.

Lemma serialize_text_length (s : string) :
  (String.length s <= String.length (serialize_text s))%nat.
Proof.
  induction s as [|c s IH]; [reflexivity|].
  cbn [serialize_text]. rewrite length_append.
  pose proof (escape_char_length c). cbn. lia.
Qed.

(** X2: [escapeHTML] loses nothing and keeps markup out: two values with
    the same escaped text have the same text, the escaped text read back
    with its character references decoded is the text, it holds neither
    [<] nor [>], and it is never shorter than the text; but a double quote
    of the text is still a double quote of the escaped text. *)
Theorem escapeHTML_faithful (a b : jsval) :
  (escapeHTML a = escapeHTML b -> ToString a = ToString b) /\
  decode_refs (escapeHTML a) = ToString a /\
  has_char "<" (escapeHTML a) = false /\ has_char ">" (escapeHTML a) = false /\
  has_char dquote (escapeHTML a) = has_char dquote (ToString a) /\
  (String.length (ToString a) <= String.length (escapeHTML a))%nat.
Proof.
  unfold escapeHTML. split; [apply serialize_text_injective|].
  split; [apply decode_serialize_text|].
  split; [apply serialize_text_no_angle|]. split; [apply serialize_text_no_angle|].
  split; [apply serialize_text_quote | apply serialize_text_length].
Qed.

(** *** The body of the login request *)

Lemma form_decode_char (c : ascii) (rest : string) :
  form_urldecode (form_encode_char c ++ rest) = String c (form_urldecode rest).
Proof. destruct c as [[] [] [] [] [] [] [] []]; reflexivity. Qed.

Lemma append_assoc_string (a b c : string) : (a ++ b) ++ c = a ++ (b ++ c).
Proof. induction a as [|x a IH]; [reflexivity|]. cbn. now rewrite IH. Qed.

Lemma append_empty (s : string) : s ++ "" = s.
Proof. induction s as [|c s IH]; [reflexivity | cbn; now rewrite IH]. Qed.

Lemma form_decode_prefix (s rest : string) :
  form_urldecode (form_urlencode s ++ rest) = s ++ form_urldecode rest.
Proof.
  induction s as [|c s IH]; [reflexivity|].
  cbn [form_urlencode]. rewrite append_assoc_string, form_decode_char, IH.
  reflexivity.
Qed.

Lemma form_urldecode_urlencode (s : string) : form_urldecode (form_urlencode s) = s.
Proof.
  pose proof (form_decode_prefix s "") as H. rewrite !append_empty in H. exact H.
Qed.

Lemma form_encode_char_safe (c : ascii) :
  has_char "&" (form_encode_char c) = false
  /\ has_char "=" (form_encode_char c) = false.
Proof. destruct c as [[] [] [] [] [] [] [] []]; split; reflexivity. Qed.

Lemma form_urlencode_safe (s : string) :
  has_char "&" (form_urlencode s) = false /\ has_char "=" (form_urlencode s) = false.
Proof.
  induction s as [|c s [IH1 IH2]]; [now split|].
  cbn [form_urlencode]. rewrite !has_char_app, IH1, IH2.
  destruct (form_encode_char_safe c) as [-> ->]. now split.
Qed.

Lemma split_at_amp (a a' x x' : string) :
  has_char "&" a = false -> has_char "&" a' = false ->
  a ++ String "&" x = a' ++ String "&" x' -> a = a' /\ x = x'.
Proof.
  revert a'. induction a as [|c a IH]; intros [|c' a'] Ha Ha' H; cbn in *.
  - injection H as ->. now split.
  - injection H as <- _. discriminate.
  - injection H as -> _. discriminate.
  - injection H as -> H. apply orb_false_iff in Ha as [_ Ha], Ha' as [_ Ha'].
    destruct (IH a' Ha Ha' H) as [-> ->]. now split.
Qed.

(** X3: the login listener sends the credentials so that the server reads
    back exactly what was typed: decoding an encoded value gives the value,
    an encoded value holds neither [&] nor [=], and two different pairs of
    user name and password never give the same request body. *)
Theorem login_form_data_unambiguous (username password : string) :
  form_urldecode (form_urlencode username) = username /\
  has_char "&" (form_urlencode username) = false /\
  has_char "=" (form_urlencode username) = false /\
  forall username' password',
    login_form_data username password = login_form_data username' password' ->
    username = username' /\ password = password'.
Proof.
  split; [apply form_urldecode_urlencode|].
  split; [apply form_urlencode_safe|]. split; [apply form_urlencode_safe|].
  intros u' p' H. unfold login_form_data in H.
  cbn [append] in H. injection H as H.
  destruct (split_at_amp _ _ _ _ (proj1 (form_urlencode_safe username))
              (proj1 (form_urlencode_safe u')) H) as [Hu Hp].
  injection Hp as Hp.
  split; rewrite <- (form_urldecode_urlencode username),
                 <- (form_urldecode_urlencode u') ||
         rewrite <- (form_urldecode_urlencode password),
                 <- (form_urldecode_urlencode p'); congruence.
Qed.

Lemma added_app (l x : list Event) : added l (l ++ x) = x.
Proof. unfold added. induction l as [|a l IH]; [reflexivity | exact IH]. Qed.

(** ** Signing in, reloading, signing out *)

Section SessionProperties.
Context {P : Platform}.

Lemma showAdmin_eq (w : World) : showAdmin w = fetchSharedVideos (admin_shown w).
Proof. reflexivity. Qed.

(** The login listener, run: it clears the messages, sends its request,
    and either reports the error it catches on the login view, or takes the
    token and shows the admin view, which fetches the list. *)
Lemma loginFormSubmit_run (username password : string) (w : World) :
  loginFormSubmit username password w =
  let req := login_request username password in
  let res := net (trace w ++ [EvFetch req]) req in
  let w1 := set_trace (trace w ++ [EvFetch req; EvSettle res]) (cleared w) in
  match login_outcome res with
  | inl e => (Ok tt, logout (set_dom loginError (message e) (log "Login failed:" e w1)))
  | inr tok => fetchSharedVideos (signed_in tok w1)
  end.
Proof.
  unfold loginFormSubmit. cbv zeta. fold (login_request username password).
  unfold bind at 1. change (clearMessages w) with (Ok tt, cleared w).
  unfold try_catch, bind at 1. rewrite fetch_run. cbv zeta.
  change (trace (cleared w)) with (trace w).
  unfold login_outcome.
  destruct (net _ _) as [r|e]; [|reflexivity].
  destruct (ok r) eqn:Eok; cbn [negb].
  - unfold bind at 1. unfold ret at 1. unfold bind at 1, response_json at 1.
    destruct (json r) as [data|e]; [|reflexivity].
    destruct data; try reflexivity;
    (unfold bind, prop, modify, ret; cbn [is_nullish field];
     rewrite showAdmin_eq;
     match goal with |- _ = fetchSharedVideos ?x =>
       set (W := x); change (fetchSharedVideos _) with (fetchSharedVideos W) at 1;
       destruct (fetchSharedVideos_ok W) as [w' ->] end; reflexivity).
  - unfold login_error, bind, try_catch, response_json.
    destruct (json r) as [v|e]; [destruct v|]; reflexivity.
Qed.

Lemma login_failed (username password : string) (w : World) (e : JsError) :
  let req := login_request username password in
  login_outcome (net (trace w ++ [EvFetch req]) req) = inl e ->
  let run := loginFormSubmit username password w in
  fst run = Ok tt /\ logged_out (snd run) /\
  dom (snd run) loginError = message e /\
  fetches (added (trace w) (trace (snd run))) = [req] /\
  tbody (snd run) = tbody w.
Proof.
  intros req H run. subst run. rewrite loginFormSubmit_run. cbv zeta.
  fold req. rewrite H. cbn [fst snd].
  split; [reflexivity|]. split; [apply logout_logged_out|].
  split; [reflexivity|]. split; [|reflexivity].
  cbn. rewrite <- app_assoc, added_app. reflexivity.
Qed.

(** X4: when the answer to the login request has a success status and is
    a JSON object whose [access_token] is truthy, the listener keeps that
    token in the script and, as a string, in local storage, clears the login
    error, and sends next the request for the list with that token as bearer;
    the admin view is shown unless that request is answered 401, in which
    case the listener ends logged out. *)
Theorem login_success_lists_with_token (username password : string) (w : World)
    (r : Response) (fields : list (string * jsval)) :
  let req := login_request username password in
  let tok := lookup "access_token" fields in
  let list_req := api_request "/shared_videos" "GET" JNull true tok in
  let res2 := net (trace w ++ [EvFetch req; EvSettle (Resolved r); EvFetch list_req])
                  list_req in
  net (trace w ++ [EvFetch req]) req = Resolved r ->
  ok r = true -> json r = Ok (JObj fields) -> truthy tok = true ->
  exists w' logs,
    loginFormSubmit username password w = (Ok tt, w') /\
    trace w' = (trace w ++ EvFetch req :: EvSettle (Resolved r)
                        :: EvFetch list_req :: EvSettle res2 :: logs)%list /\
    console_only logs = true /\
    dom w' loginError = "" /\
    (if is_401 res2 then logged_out w'
     else authToken w' = tok /\ stored_token w' = Some (ToString tok) /\
          dom w' loginSection = "none" /\ dom w' adminContent = "block").
Proof.
  intros req tok list_req res2 Hres Hok Hj Htok.
  rewrite loginFormSubmit_run. cbv zeta. fold req. rewrite Hres.
  unfold login_outcome. rewrite Hok, Hj. cbn [negb is_nullish field]. fold tok.
  set (w1 := signed_in tok _).
  destruct (fetchSharedVideos_run w1) as (rows & logs & Hlogs & ->).
  change (authToken w1) with tok. rewrite Htok. cbv zeta. fold list_req.
  change (trace w1) with (trace w ++ [EvFetch req; EvSettle (Resolved r)])%list.
  rewrite <- !app_assoc. cbn [List.app]. fold res2.
  eexists _, logs. split; [reflexivity|].
  split; [destruct (is_401 res2); reflexivity|]. split; [exact Hlogs|].
  destruct (is_401 res2); [split; [reflexivity | apply logout_logged_out] |].
  repeat split.
Qed.

(** X5: a login that fails always ends logged out, with the error message
    on the login view, the table untouched and no request sent but the login
    request itself.  The message is the error's when the request is rejected
    or a success answer cannot be parsed; for an answer with an error status
    it is the [detail] of its JSON object when that is truthy, else [Login
    failed with status: N], and [Login failed] when the body is not JSON. *)
Theorem login_failure_shows_message (username password : string) (w : World) :
  let req := login_request username password in
  let res := net (trace w ++ [EvFetch req]) req in
  let run := loginFormSubmit username password w in
  let refused (msg : string) :=
    fst run = Ok tt /\ logged_out (snd run) /\
    dom (snd run) loginError = msg /\
    fetches (added (trace w) (trace (snd run))) = [req] /\
    tbody (snd run) = tbody w in
  (forall e, res = Rejected e -> refused (message e)) /\
  (forall r e, res = Resolved r -> ok r = false -> json r = Throw e ->
     refused "Login failed") /\
  (forall r fields, res = Resolved r -> ok r = false -> json r = Ok (JObj fields) ->
     refused (if truthy (lookup "detail" fields)
              then ToString (lookup "detail" fields)
              else "Login failed with status: " ++ Number_toString (Num (status r)))) /\
  (forall r e, res = Resolved r -> ok r = true -> json r = Throw e ->
     refused (message e)).
Proof.
  intros req res run refused. subst refused run res req. cbv beta.
  split; [|split; [|split]].
  - intros e Hres. apply (login_failed username password w e).
    cbv zeta. rewrite Hres. reflexivity.
  - intros r e Hres Hok Hj.
    apply (login_failed username password w (Error "Login failed")).
    cbv zeta. rewrite Hres. unfold login_outcome, login_error.
    rewrite Hok, Hj. reflexivity.
  - intros r fields Hres Hok Hj.
    apply (login_failed username password w
             (Error (if truthy (lookup "detail" fields)
                     then ToString (lookup "detail" fields)
                     else "Login failed with status: "
                          ++ Number_toString (Num (status r))))).
    cbv zeta. rewrite Hres. unfold login_outcome, login_error.
    rewrite Hok, Hj. reflexivity.
  - intros r e Hres Hok Hj. apply (login_failed username password w e).
    cbv zeta. rewrite Hres. unfold login_outcome. rewrite Hok, Hj. reflexivity.
Qed.

(** X6: when the answer to the login request has a success status but
    holds no truthy [access_token], the listener sends no further request
    and ends logged out, local storage cleared, with no login error shown
    and the table replaced by the failure row. *)
Theorem login_without_token_stays_out (username password : string) (w : World)
    (r : Response) (data : jsval) :
  let req := login_request username password in
  net (trace w ++ [EvFetch req]) req = Resolved r ->
  ok r = true -> json r = Ok data -> is_nullish data = false ->
  truthy (field data "access_token") = false ->
  exists w',
    loginFormSubmit username password w = (Ok tt, w') /\
    logged_out w' /\ dom w' loginError = "" /\
    tbody w' = [failed_row] /\
    fetches (added (trace w) (trace w')) = [req] /\
    In (EvConsoleError "Failed to fetch shared videos:" "Not authenticated")
       (trace w').
Proof.
  intros req Hres Hok Hj Hnull Htok.
  rewrite loginFormSubmit_run. cbv zeta. fold req. rewrite Hres.
  unfold login_outcome. rewrite Hok, Hj, Hnull. cbn [negb].
  set (w1 := signed_in _ _).
  unfold fetchSharedVideos, try_catch, bind at 1.
  rewrite apiRequest_no_token by exact Htok.
  eexists. split; [reflexivity|].
  split; [apply logout_logged_out|]. split; [reflexivity|]. split; [reflexivity|].
  cbn. rewrite <- app_assoc, added_app. split; [reflexivity|].
  apply in_or_app. right. cbn. auto.
Qed.

Lemma initialize_run (w : World) :
  initialize w =
  let w0 := set_authToken (stored_value w) w in
  if truthy (stored_value w) then fetchSharedVideos (admin_shown w0)
  else (Ok tt, logout w0).
Proof.
  unfold initialize, bind, gets, modify, stored_value. cbn.
  destruct (stored_token w) as [t|]; [|reflexivity].
  cbn. destruct (negb (t =? "")%string); reflexivity.
Qed.

(** X7: at page load the script goes by local storage alone.  With no
    stored token, or an empty one, it shows the login view and sends
    nothing; with a stored token it takes it for the session without
    checking it, shows the admin view and requests the list with it, and
    ends logged out only if that request is answered 401. *)
Theorem initialize_by_stored_token (w : World) :
  (stored_token w = None \/ stored_token w = Some "" ->
   exists w', initialize w = (Ok tt, w') /\ logged_out w' /\
              trace w' = trace w /\ tbody w' = tbody w) /\
  (forall t, stored_token w = Some t -> t <> "" ->
   let req := api_request "/shared_videos" "GET" JNull true (JStr t) in
   let res := net (trace w ++ [EvFetch req]) req in
   exists w' logs,
     initialize w = (Ok tt, w') /\
     trace w' = (trace w ++ EvFetch req :: EvSettle res :: logs)%list /\
     console_only logs = true /\
     (if is_401 res then logged_out w'
      else authToken w' = JStr t /\ stored_token w' = Some t /\
           dom w' loginSection = "none" /\ dom w' adminContent = "block" /\
           dom w' loginError = "")).
Proof.
  split.
  - intro H. rewrite initialize_run. unfold stored_value. cbv zeta.
    destruct H as [-> | ->]; cbn; eexists; (split; [reflexivity|]);
      (split; [apply logout_logged_out | now split]).
  - intros t Ht Hne req res. rewrite initialize_run. unfold stored_value. cbv zeta.
    rewrite Ht. cbn [truthy].
    assert (negb (t =? "")%string = true) as Hneg.
    { destruct (String.eqb_spec t ""); [contradiction | reflexivity]. }
    rewrite Hneg.
    set (w1 := admin_shown _).
    destruct (fetchSharedVideos_run w1) as (rows & logs & Hlogs & ->).
    change (authToken w1) with (JStr t). cbn [truthy]. rewrite Hneg.
    cbv zeta. fold req. change (trace w1) with (trace w). fold res.
    eexists _, logs. split; [reflexivity|].
    split; [destruct (is_401 res); reflexivity|]. split; [exact Hlogs|].
    destruct (is_401 res); [apply logout_logged_out|].
    cbn. rewrite Ht. now repeat split.
Qed.

(** X8: after a click on the logout button no token is left in the script
    nor in local storage and the login view is shown, the table staying as
    it was; from there none of the five protected operations sends a
    request, each ending logged out, and a reload of the page sends nothing
    and shows the login view. *)
Theorem nothing_sent_after_logout (w : World) :
  exists w1,
    logoutClick w = (Ok tt, w1) /\ logged_out w1 /\ trace w1 = trace w /\
    tbody w1 = tbody w /\
    (forall op, exists w2,
       run_op op w1 = (Ok tt, w2) /\ logged_out w2 /\
       fetches (added (trace w) (trace w2)) = []) /\
    (exists w2, initialize w1 = (Ok tt, w2) /\ logged_out w2 /\ trace w2 = trace w).
Proof.
  exists (logout w). split; [reflexivity|]. split; [apply logout_logged_out|].
  split; [reflexivity|]. split; [reflexivity|]. split.
  - intro op.
    destruct (op_summary op (logout w)) as (w2 & evs & forced & Hrun & Htr & Hop & Hview).
    exists w2. split; [exact Hrun|].
    change (trace (logout w)) with (trace w) in Htr. rewrite Htr, added_app.
    assert (quiet evs = true) as Hq.
    { inversion Hop; subst; try assumption;
        match goal with
        | H : truthy (authToken (logout w)) = true |- _ => discriminate H
        end. }
    split; [|apply (quiet_silent evs Hq)].
    apply forced_view_logged_out. rewrite Hview. destruct forced; reflexivity.
  - rewrite initialize_run. eexists. split; [reflexivity|].
    split; [apply logout_logged_out | reflexivity].
Qed.
End SessionProperties.

(** ** The table of shares *)

Section TableProperties.
Context {P : Platform}.

(** X9: what a refresh leaves on the page does not depend on the rows the
    table held before: the table is rebuilt from the answer alone, so nothing
    a listener wrote into the old rows survives it. *)
Theorem refresh_replaces_table (rows : list Tr) (w : World) :
  fetchSharedVideos (set_tbody rows w) = fetchSharedVideos w.
Proof.
  unfold fetchSharedVideos, try_catch, bind at 1. unfold bind at 2.
  destruct (truthy (authToken w)) eqn:Htok.
  - rewrite !apiRequest_sent by (right; exact Htok). cbv zeta.
    change (authToken (set_tbody rows w)) with (authToken w).
    change (trace (set_tbody rows w)) with (trace w).
    set (req := api_request _ _ _ _ _). set (res := net _ req).
    destruct res as [r|e]; [|reflexivity].
    destruct ((status r =? 401) && true); [reflexivity|].
    destruct (negb (ok r)); [reflexivity|].
    assert (forall videos,
      renderSharedVideos videos
        (set_trace (trace w ++ [EvFetch req; EvSettle (Resolved r)]) (set_tbody rows w))
      = renderSharedVideos videos
        (set_trace (trace w ++ [EvFetch req; EvSettle (Resolved r)]) w)) as Hr
      by reflexivity.
    destruct (no_content r); [rewrite Hr; reflexivity|].
    destruct (json r) as [v|e]; [rewrite Hr; reflexivity | reflexivity].
  - rewrite !apiRequest_no_token by exact Htok. reflexivity.
Qed.





End TableProperties.

(** ** The buttons of a row, the edit dialog and the title lookup *)

Lemma parseInt10_digits (s : string) :
  all_chars is_dec_digit s = true -> parseInt10 s = parse_digits 10 s NaN.
Proof.
  destruct s as [|c s]; [reflexivity|].
  cbn [all_chars]. intro H. apply andb_prop in H as [Hc Hs].
  destruct (dec_digit_plain c Hc) as (Hw & Hm & Hp & _).
  unfold parseInt10. cbn [trimStart]. rewrite Hw. cbn [strip_sign]. rewrite Hm, Hp.
  destruct (parse_digits 10 (String c s) NaN) as [z|]; cbn [apply_sign]; [|reflexivity].
  f_equal. lia.
Qed.

Lemma parseInt10_Number_toString (n : number) :
  match n with Num z => 0 <= z | NaN => True end ->
  parseInt10 (Number_toString n) = n.
Proof.
  destruct n as [z|]; [|reflexivity].
  destruct z as [|p|p]; intro H; [reflexivity | | lia].
  unfold Number_toString, Z.to_int, NilZero.string_of_int, NilZero.string_of_uint.
  pose proof (Unsigned.to_uint_nonnil p) as Hnil.
  pose proof (parse_digits_start (Pos.to_uint p) Hnil) as Hd.
  rewrite Unsigned.of_to in Hd.
  pose proof (string_of_uint_digits (Pos.to_uint p)) as Hall.
  destruct (Pos.to_uint p); [congruence | ..];
    rewrite (parseInt10_digits _ Hall); exact Hd.
Qed.




Section ButtonProperties.
Context {P : Platform}.

Lemma plain_text_attr (s : string) : plain_text s = true -> attr_value s = s.
Proof.
  unfold plain_text.
  destruct (has_char dquote s) eqn:Hq; [discriminate|].
  destruct (has_char "&" s) eqn:Ha; [discriminate|].
  intros _. now apply attr_value_plain.
Qed.

(** X12: the delete button of the row made for a share record acts on that
    record: for a table listing the records of [rs], a click on the delete
    button of row [i] asks for confirmation naming the identifier of record
    [i]; declined, it changes nothing and sends nothing; confirmed, with a
    token held, the request sent first is DELETE [/delete_share/<that
    identifier>] (for an identifier without double quote, ampersand or
    angle bracket). *)
Theorem delete_targets_listed_record (rs : list ShareRecord) (i : nat)
    (r : ShareRecord) (now : Z) (w : World) :
  let question := "Are you sure you want to delete share " ++ share_id r ++ "?" in
  let req := api_request ("/delete_share/" ++ share_id r) "DELETE" JNull true
               (authToken w) in
  tbody w = map (record_row now) rs ->
  nth_error rs i = Some r ->
  plain_text (share_id r) = true ->
  (confirm_answer (trace w) question = false ->
   click_delete i w
   = (Ok tt, set_trace (trace w ++ [EvConfirm question false]) w)) /\
  (confirm_answer (trace w) question = true -> truthy (authToken w) = true ->
   exists w' rest,
     click_delete i w = (Ok tt, w') /\
     trace w' = (trace w ++ EvConfirm question true :: EvFetch req
                         :: EvSettle (net (trace w ++ [EvConfirm question true;
                                                       EvFetch req]) req)
                         :: rest)%list).
Proof.
  intros question req Hrows Hnth Hplain.
  assert (click_delete i w
          = deleteClick {| copy_data_url := attr_value (share_url r);
                           edit_data_share_id := share_id r;
                           edit_data_video_name :=
                             attr_value (escapeHTML (JStr (video_name r)));
                           edit_data_days_valid :=
                             attr_value (Number_toString
                               (calculateDaysRemaining now
                                  (Date_value (JStr (expires_at r)))));
                           delete_data_share_id := share_id r |} w) as ->.
  { unfold click_delete. rewrite Hrows, (map_nth_error _ _ _ Hnth).
    unfold record_row. cbn [buttons]. rewrite (plain_text_attr _ Hplain). reflexivity. }
  set (b := {| copy_data_url := _ |}).
  rewrite deleteClick_eq. unfold asked. cbn [submits].
  change (delete_question b) with question.
  split.
  - intros ->. reflexivity.
  - intros Hyes Htok. rewrite Hyes.
    set (w0 := set_trace (trace w ++ [EvConfirm question true]) w).
    destruct (apiRequest_cases ("/delete_share/" ++ share_id r) "DELETE" JNull
                w0 Htok)
      as [(e & logs & _ & Heq) | (v & r0 & _ & _ & _ & Heq)];
      cbn [delete_data_share_id b]; rewrite Heq.
    + eexists _, _. split; [reflexivity|].
      destruct (is_401 _); cbn; rewrite <- !app_assoc; reflexivity.
    + match goal with |- context [fetchSharedVideos ?x] =>
        destruct (fetchSharedVideos_run x) as (rows & logs & _ & ->) end.
      eexists _, _. split; [reflexivity|].
      cbn [authToken set_trace w0]. rewrite Htok. cbv zeta.
      destruct (is_401 _); cbn; rewrite <- !app_assoc; reflexivity.
Qed.


(** X14: [apiRequest] itself never touches the table, the clock, the form
    inputs or the message lines.  It leaves the session and the two views
    alone too, except when it ends in the forced logout, which happens only
    to a call that requires authentication and which always raises an
    error; a call made with [requiresAuth] false keeps the session whatever
    the answer, even a 401, and sends exactly one request, without
    [Authorization] header, even when no token is held. *)
Theorem apiRequest_touches_only_session (url method : string) (payload : jsval)
    (requiresAuth : bool) (w : World) :
  let run := apiRequest url method payload requiresAuth w in
  tbody (snd run) = tbody w /\ clock (snd run) = clock w /\
  (forall e, e <> loginSection -> e <> adminContent -> dom (snd run) e = dom w e) /\
  (auth_view (snd run) = auth_view w
   \/ requiresAuth = true /\ logged_out (snd run) /\ exists e, fst run = Throw e) /\
  (requiresAuth = false ->
   auth_view (snd run) = auth_view w /\
   exists req, fetches (added (trace w) (trace (snd run))) = [req] /\
               has_authorization req = false).
Proof.
  intro run. subst run.
  assert (requiresAuth = true /\ truthy (authToken w) = false
          \/ (requiresAuth = false \/ truthy (authToken w) = true)) as [[-> Htok] | H].
  { destruct requiresAuth; [|auto]. destruct (truthy (authToken w)); auto. }
  - rewrite apiRequest_no_token by exact Htok. cbn [fst snd].
    split; [reflexivity|]. split; [reflexivity|].
    split; [intros e H1 H2; destruct e; try reflexivity; congruence|].
    split; [|discriminate].
    right. split; [reflexivity|]. split; [apply logout_logged_out | eauto].
  - rewrite (apiRequest_sent _ _ _ _ _ H). cbv zeta.
    set (req := api_request _ _ _ _ _). set (res := net _ req).
    assert (forall (o : Outcome jsval) (t logs : list Event),
              console_only logs = true ->
              t = (trace w ++ [EvFetch req; EvSettle res] ++ logs)%list ->
              let w' := set_trace t w in
              tbody (snd (o, w')) = tbody w /\ clock (snd (o, w')) = clock w /\
              (forall e, e <> loginSection -> e <> adminContent ->
                         dom (snd (o, w')) e = dom w e) /\
              (auth_view (snd (o, w')) = auth_view w
               \/ requiresAuth = true /\ logged_out (snd (o, w'))
                  /\ exists e, fst (o, w') = Throw e) /\
              (requiresAuth = false ->
               auth_view (snd (o, w')) = auth_view w /\
               exists req, fetches (added (trace w) (trace (snd (o, w')))) = [req] /\
                           has_authorization req = false)) as Hplain.
    { intros o t logs Hlogs -> w'. subst w'. cbn [fst snd].
      split; [reflexivity|]. split; [reflexivity|]. split; [reflexivity|].
      split; [now left|]. intros ->. split; [reflexivity|].
      exists req. cbn [trace set_trace]. rewrite added_app, fetches_app.
      rewrite (proj1 (console_only_no_fetch logs Hlogs)). split; reflexivity. }
    destruct res as [r|e] eqn:Eres.
    + destruct ((status r =? 401) && requiresAuth) eqn:E401.
      * apply andb_prop in E401 as [_ ->]. cbn [fst snd].
        split; [reflexivity|]. split; [reflexivity|].
        split; [intros e H1 H2; destruct e; try reflexivity; congruence|].
        split; [|discriminate].
        right. split; [reflexivity|]. split; [apply logout_logged_out | eauto].
      * destruct (negb (ok r)).
        { apply (Hplain (Throw (http_error r)) _
                   [EvConsoleError "API Request Error:" (message (http_error r))]);
            [reflexivity | cbn; now rewrite <- app_assoc]. }
        destruct (no_content r);
          [apply (Hplain (Ok JNull) _ []); [reflexivity | now rewrite app_nil_r]|].
        destruct (json r) as [v|e].
        { apply (Hplain (Ok v) _ []); [reflexivity | now rewrite app_nil_r]. }
        { apply (Hplain (Throw e) _ [EvConsoleError "API Request Error:" (message e)]);
            [reflexivity | cbn; now rewrite <- app_assoc]. }
    + apply (Hplain (Throw e) _ [EvConsoleError "API Request Error:" (message e)]);
        [reflexivity | cbn; now rewrite <- app_assoc].
Qed.

(** X15: opening the edit dialog of a listed record and saving it untouched
    sends PUT [/edit_share/<identifier>] with the record's name, the fixed
    source-video identifier 0, and as days valid the days remaining shown in
    the row when they are at least 1, else 7: so saving without a change
    renews an expired share for seven days.  (For a non-empty name without
    double quote and an identifier without double quote, ampersand or angle
    bracket.) *)
Theorem untouched_edit_resends_record (rs : list ShareRecord) (i : nat)
    (r : ShareRecord) (now : Z) (w : World) :
  let days := calculateDaysRemaining now (Date_value (JStr (expires_at r))) in
  let req := api_request ("/edit_share/" ++ share_id r) "PUT"
               (JObj [("video_name", JStr (video_name r));
                      ("stash_video_id", JNum (Num 0));
                      ("days_valid", JNum (prefilled_days days))])
               true (authToken w) in
  tbody w = map (record_row now) rs ->
  nth_error rs i = Some r ->
  plain_text (share_id r) = true ->
  video_name r <> "" -> has_char dquote (video_name r) = false ->
  truthy (authToken w) = true ->
  exists w1 w2 rest,
    click_edit i w = (Ok tt, w1) /\ trace w1 = trace w /\
    saveEditClick w1 = (Ok tt, w2) /\
    trace w2 = (trace w ++ EvFetch req
                        :: EvSettle (net (trace w ++ [EvFetch req]) req) :: rest)%list.
Proof.
  intros days req Hrows Hnth Hplain Hname Hquote Htok.
  assert (0 <= match prefilled_days days with Num d => d | NaN => 0 end
          /\ exists d, prefilled_days days = Num d) as [Hpos [d Hd]].
  { unfold prefilled_days. destruct days as [d|]; [|split; [lia | eauto]].
    destruct (Z.leb_spec 1 d); split; eauto; lia. }
  set (w1 := cleared
               (set_dom editModal "block"
                  (set_dom editDaysValidInput (Number_toString (prefilled_days days))
                     (set_dom editVideoNameInput (video_name r)
                        (set_dom editShareIdInput (share_id r) w))))).
  assert (click_edit i w = (Ok tt, w1)) as Hclick.
  { unfold click_edit. rewrite Hrows, (map_nth_error _ _ _ Hnth).
    unfold record_row. cbn [buttons]. unfold editClick. cbv zeta.
    cbn [edit_data_share_id edit_data_video_name edit_data_days_valid].
    rewrite (plain_text_attr _ Hplain).
    unfold escapeHTML. cbn [ToString]. rewrite (attr_value_escaped _ Hquote).
    pose proof (editClick_days days (days_not_negative now _)) as Hdays.
    cbv zeta in Hdays. unfold days in Hdays. rewrite Hdays.
    reflexivity. }
  exists w1. rewrite Hclick.
  rewrite saveEditClick_eq.
  assert (dom w1 editVideoNameInput = video_name r) as Hn by reflexivity.
  assert (dom w1 editDaysValidInput = Number_toString (Num d)) as Hv
    by (rewrite <- Hd; reflexivity).
  rewrite Hd in Hpos.
  assert (submits Edit w1 = true) as ->.
  { cbn [submits]. rewrite Hn, Hv, (parseInt10_Number_toString (Num d) Hpos).
    cbn [isNaN orb].
    destruct (String.eqb_spec (video_name r) ""); [contradiction | reflexivity]. }
  assert ("/edit_share/" ++ dom w1 editShareIdInput = "/edit_share/" ++ share_id r) as ->
    by reflexivity.
  assert (updatedData w1 = JObj [("video_name", JStr (video_name r));
                                 ("stash_video_id", JNum (Num 0));
                                 ("days_valid", JNum (prefilled_days days))]) as ->.
  { unfold updatedData.
    rewrite Hn, Hv, (parseInt10_Number_toString (Num d) Hpos), Hd. reflexivity. }
  destruct (apiRequest_cases ("/edit_share/" ++ share_id r) "PUT"
              (JObj [("video_name", JStr (video_name r));
                     ("stash_video_id", JNum (Num 0));
                     ("days_valid", JNum (prefilled_days days))])
              (cleared w1) Htok)
    as [(e & logs & _ & Heq) | (v & r0 & _ & _ & _ & Heq)]; rewrite Heq.
  - eexists _, _. split; [reflexivity|]. split; [reflexivity|].
    split; [reflexivity|]. cbn. destruct (is_401 _); reflexivity.
  - match goal with |- context [fetchSharedVideos ?x] =>
      destruct (fetchSharedVideos_run x) as (rows & logs & _ & ->) end.
    eexists _, _. split; [reflexivity|]. split; [reflexivity|].
    split; [reflexivity|].
    cbn [authToken set_trace set_dom cleared w1]. rewrite Htok. cbv zeta.
    destruct (is_401 _); cbn; rewrite <- !app_assoc; reflexivity.
Qed.


(** X17: the title lookup with an empty identifier sends nothing, shows
    [Please enter a Stash Video ID.] and keeps the name typed so far; a
    lookup answered with a JSON object holding a truthy [title] writes that
    title, converted to a string, into the name input and changes nothing
    else but the four message lines, which it clears, and the trace. *)
Theorem lookup_fills_name_only (w : World) :
  let req := api_request ("/get_video_title/" ++ dom w stashIdInput) "GET" JNull true
               (authToken w) in
  (dom w stashIdInput = "" ->
   lookupTitleClick w
   = (Ok tt, set_dom shareError "Please enter a Stash Video ID." (cleared w))) /\
  (forall r fields,
     dom w stashIdInput <> "" -> truthy (authToken w) = true ->
     net (trace w ++ [EvFetch req]) req = Resolved r ->
     ok r = true -> no_content r = false -> json r = Ok (JObj fields) ->
     truthy (lookup "title" fields) = true ->
     lookupTitleClick w
     = (Ok tt, set_dom videoNameInput (ToString (lookup "title" fields))
                 (set_trace (trace w ++ [EvFetch req; EvSettle (Resolved r)])
                    (cleared w)))).
Proof.
  intro req. split.
  - intro H. rewrite lookupTitleClick_eq. cbn [submits]. rewrite H. reflexivity.
  - intros r fields Hid Htok Hres Hok Hnc Hj Ht.
    rewrite lookupTitleClick_eq. cbn [submits].
    destruct (String.eqb_spec (dom w stashIdInput) ""); [contradiction|]. cbn [negb].
    rewrite apiRequest_sent by (right; exact Htok). cbv zeta.
    change (authToken (cleared w)) with (authToken w).
    change (trace (cleared w)) with (trace w). fold req. rewrite Hres.
    pose proof (ok_is_not_401 r Hok) as H401. unfold is_401 in H401.
    rewrite H401, Hok, Hnc, Hj. cbn [andb negb truthy field]. rewrite Ht. reflexivity.
Qed.

End ButtonProperties.

(** ** The older script *)

Section LegacyProperties.
Context {P : Platform}.

Lemma legacy_load_row_record (r : ShareRecord) (acc : Z) (rows : list string)
    (w : Legacy.World) :
  Legacy.load_row (JNum (Num acc)) (record_json r) (Legacy.set_tbody rows w)
  = (Ok (JNum (Num (acc + hits r))),
     Legacy.set_tbody (rows ++ [legacy_record_row r]) w).
Proof. reflexivity. Qed.

Lemma legacy_load_rows_records (rs : list ShareRecord) : forall acc rows w,
  Legacy.load_rows (map record_json rs) (JNum (Num acc)) (Legacy.set_tbody rows w)
  = (Ok (JNum (Num (fold_left (fun a r => a + hits r) rs acc))),
     Legacy.set_tbody (rows ++ map legacy_record_row rs) w).
Proof.
  induction rs as [|r rs IH]; intros acc rows w.
  - cbn. now rewrite app_nil_r.
  - cbn [map Legacy.load_rows fold_left]. unfold bind at 1.
    rewrite legacy_load_row_record, IH, <- app_assoc. reflexivity.
Qed.

Lemma legacy_load_row_null (v : jsval) (t : jsval) (w : Legacy.World) :
  is_nullish v = true ->
  Legacy.load_row t v w = (Throw (TypeError (null_property_message v "hits")), w).
Proof. destruct v; try discriminate; reflexivity. Qed.

Lemma legacy_load_rows_broken (good : list ShareRecord) (v : jsval) (rest : list jsval) :
  is_nullish v = true -> forall acc rows w,
  Legacy.load_rows (map record_json good ++ v :: rest) (JNum (Num acc))
    (Legacy.set_tbody rows w)
  = (Throw (TypeError (null_property_message v "hits")),
     Legacy.set_tbody (rows ++ map legacy_record_row good) w).
Proof.
  intro Hv. induction good as [|r good IH]; intros acc rows w.
  - cbn [map List.app Legacy.load_rows]. unfold bind at 1.
    rewrite (legacy_load_row_null v _ _ Hv), app_nil_r. reflexivity.
  - cbn [map List.app Legacy.load_rows]. unfold bind at 1.
    rewrite legacy_load_row_record, IH, <- app_assoc. reflexivity.
Qed.

Lemma legacy_loadVideos_resolved (w : Legacy.World) (r : Response) :
  let req := legacy_list_request w in
  net (Legacy.trace w ++ [EvFetch req]) req = Resolved r ->
  let w1 := Legacy.set_trace (Legacy.trace w ++ [EvFetch req; EvSettle (Resolved r)]) w in
  Legacy.loadVideos w =
  if ok r then
    match json r with
    | Ok (JArr items) =>
        match Legacy.load_rows items (JNum (Num 0)) (Legacy.set_tbody [] w1) with
        | (Ok t, w2) =>
            (Ok tt, Legacy.set_dom Legacy.totalHits (ToString t)
                      (Legacy.set_dom Legacy.totalShares
                         (Number_toString (Num (Z.of_nat (List.length items)))) w2))
        | (Throw e, w2) =>
            (Ok tt, Legacy.set_trace
                      (Legacy.trace w2 ++ [EvConsoleError "Error loading videos:" (message e)])
                      w2)
        end
    | Ok v =>
        (Ok tt, Legacy.set_trace
                  (Legacy.trace w1 ++
                   [EvConsoleError "Error loading videos:"
                      (if is_nullish v then null_property_message v "forEach"
                       else not_a_function_message "forEach")])
                  (Legacy.set_tbody [] w1))
    | Throw e =>
        (Ok tt, Legacy.set_trace
                  (Legacy.trace w1 ++ [EvConsoleError "Error loading videos:" (message e)])
                  w1)
    end
  else (Ok tt, Legacy.set_trace
                 (Legacy.trace w1 ++ [EvConsoleError "Failed to load videos:"
                                         (Number_toString (Num (status r)))]) w1).
Proof.
  intros req Hres w1.
  cbv beta iota zeta delta
    [Legacy.loadVideos try_catch bind gets ret throw modify response_json
     Legacy.assign Legacy.emit Engine.emit].
  fold (legacy_list_request w). rewrite legacy_fetch_run. cbv zeta.
  fold req. rewrite Hres.
  destruct (ok r); cbn [negb]; [|reflexivity].
  destruct (json r) as [videos|e]; [|reflexivity].
  destruct videos as [| | b | n | s | items | fields]; try reflexivity.
  fold w1.
  destruct (Legacy.load_rows items (JNum (Num 0)) (Legacy.set_tbody [] w1))
    as [[t|e] w2]; reflexivity.
Qed.

(** X18: [loadVideos] answered with a success status and a list of share
    records shows one row per record, in order, and sets the two counters:
    total shares to the number of records, total hits to the sum of their
    hits.  It logs nothing and keeps the token. *)
Theorem legacy_totals (w : Legacy.World) (r : Response) (rs : list ShareRecord) :
  let req := legacy_list_request w in
  net (Legacy.trace w ++ [EvFetch req]) req = Resolved r ->
  ok r = true -> json r = Ok (JArr (map record_json rs)) ->
  exists w',
    Legacy.loadVideos w = (Ok tt, w') /\
    Legacy.tbody w' = map legacy_record_row rs /\
    Legacy.dom w' Legacy.totalShares
    = Number_toString (Num (Z.of_nat (List.length rs))) /\
    Legacy.dom w' Legacy.totalHits = Number_toString (Num (sum_hits rs)) /\
    Legacy.trace w' = (Legacy.trace w ++ [EvFetch req; EvSettle (Resolved r)])%list /\
    Legacy.token w' = Legacy.token w.
Proof.
  intros req Hres Hok Hj.
  rewrite (legacy_loadVideos_resolved w r Hres), Hok, Hj.
  rewrite legacy_load_rows_records. eexists. split; [reflexivity|].
  cbn. rewrite length_map. now repeat split.
Qed.

(** X19: [loadVideos] never raises, keeps the token whatever the answer,
    even a 401, and never touches the login error.  When
    its request is rejected, is answered with an error status, or has a body
    that is not JSON, the table and the counters stay as they were and the
    failure goes to the console only.  When the list holds a [null] or
    [undefined] item after some records, the table is left with the rows
    of the records before it, the counters keep their old values, and the
    error goes to the console. *)
Theorem legacy_failed_load_leaves_page (w : Legacy.World) :
  let req := legacy_list_request w in
  let res := net (Legacy.trace w ++ [EvFetch req]) req in
  let w' := snd (Legacy.loadVideos w) in
  let logged (msg : string) :=
    exists label,
      Legacy.trace w' = (Legacy.trace w ++ [EvFetch req; EvSettle res;
                                            EvConsoleError label msg])%list in
  fst (Legacy.loadVideos w) = Ok tt /\
  Legacy.token w' = Legacy.token w /\
  Legacy.dom w' Legacy.loginError = Legacy.dom w Legacy.loginError /\
  (forall e, res = Rejected e ->
     Legacy.tbody w' = Legacy.tbody w /\ Legacy.dom w' = Legacy.dom w /\ logged (message e)) /\
  (forall r, res = Resolved r -> ok r = false ->
     Legacy.tbody w' = Legacy.tbody w /\ Legacy.dom w' = Legacy.dom w /\
     logged (Number_toString (Num (status r)))) /\
  (forall r e, res = Resolved r -> ok r = true -> json r = Throw e ->
     Legacy.tbody w' = Legacy.tbody w /\ Legacy.dom w' = Legacy.dom w /\ logged (message e)) /\
  (forall r good v rest, res = Resolved r -> ok r = true ->
     json r = Ok (JArr (map record_json good ++ v :: rest)) -> is_nullish v = true ->
     Legacy.tbody w' = map legacy_record_row good /\ Legacy.dom w' = Legacy.dom w /\
     logged (null_property_message v "hits")).
Proof.
  intros req res w' logged. subst w' logged res. cbv beta.
  split; [destruct (legacy_loadVideos_run w) as (w' & ? & ? & -> & _); reflexivity|].
  split; [destruct (legacy_loadVideos_run w) as (w' & ? & ? & -> & Htok & _); exact Htok|].
  split.
  { destruct (legacy_loadVideos_run w) as (w' & ? & ? & -> & _ & _ & _ & Hdom).
    apply Hdom; discriminate. }
  split; [|split; [|split]].
  - intros e Hres.
    cbv beta iota zeta delta
      [Legacy.loadVideos try_catch bind gets ret throw modify response_json
       Legacy.assign Legacy.emit Engine.emit].
    fold (legacy_list_request w). rewrite legacy_fetch_run. cbv zeta.
    fold req. rewrite Hres. cbn. rewrite <- app_assoc.
    split; [reflexivity|]. split; [reflexivity|]. eexists. reflexivity.
  - intros r Hres Hok. rewrite (legacy_loadVideos_resolved w r Hres), Hres, Hok.
    cbn. rewrite <- app_assoc.
    split; [reflexivity|]. split; [reflexivity|]. eexists. reflexivity.
  - intros r e Hres Hok Hj. rewrite (legacy_loadVideos_resolved w r Hres), Hres, Hok, Hj.
    cbn. rewrite <- app_assoc.
    split; [reflexivity|]. split; [reflexivity|]. eexists. reflexivity.
  - intros r good v rest Hres Hok Hj Hv.
    rewrite (legacy_loadVideos_resolved w r Hres), Hres, Hok, Hj.
    rewrite (legacy_load_rows_broken good v rest Hv).
    cbn. rewrite <- app_assoc.
    split; [reflexivity|]. split; [reflexivity|]. eexists. reflexivity.
Qed.

(** X20: the create listener of the older script resets its form only
    after a success: answered with a success status it requests the list
    next and then restores the three inputs to their defaults; when the
    request is rejected or answered with an error status the page stays
    exactly as it was, inputs included, and the failure goes to the console
    only. *)
Theorem legacy_create_resets_on_success (w : Legacy.World) :
  let req := legacy_create_request w in
  let res := net (Legacy.trace w ++ [EvFetch req]) req in
  let w' := snd (Legacy.shareFormSubmit w) in
  (forall r, res = Resolved r -> ok r = true ->
     Legacy.dom w' Legacy.videoName = default_name form_defaults /\
     Legacy.dom w' Legacy.stashVideoId = default_stash_id form_defaults /\
     Legacy.dom w' Legacy.daysValid = default_days form_defaults /\
     exists res2 logs,
       Legacy.trace w' = (Legacy.trace w ++ EvFetch req :: EvSettle res
                            :: EvFetch (legacy_list_request w) :: EvSettle res2
                            :: logs)%list /\ fetches logs = []) /\
  (match res with Resolved r => ok r = false | Rejected _ => True end ->
   exists label msg,
     w' = Legacy.set_trace
            (Legacy.trace w ++ [EvFetch req; EvSettle res; EvConsoleError label msg]) w).
Proof.
  intros req res w'. subst w'.
  assert (Legacy.shareFormSubmit w
          = match res with
            | Resolved r =>
                if ok r then
                  match Legacy.loadVideos
                          (Legacy.set_trace (Legacy.trace w ++ [EvFetch req; EvSettle res]) w)
                  with
                  | (Ok _, w1) => Legacy.shareForm_reset w1
                  | (Throw e, w1) =>
                      (Ok tt, Legacy.set_trace
                                (Legacy.trace w1 ++ [EvConsoleError "Error sharing video:"
                                                       (message e)]) w1)
                  end
                else (Ok tt, Legacy.set_trace
                               (Legacy.trace w ++ [EvFetch req; EvSettle res;
                                  EvConsoleError "Failed to share video:"
                                    (Number_toString (Num (status r)))]) w)
            | Rejected e =>
                (Ok tt, Legacy.set_trace
                          (Legacy.trace w ++ [EvFetch req; EvSettle res;
                             EvConsoleError "Error sharing video:" (message e)]) w)
            end) as Hrun.
  { unfold Legacy.shareFormSubmit, Legacy.value, bind at 1, gets at 1.
    unfold bind at 1, gets at 1. unfold bind at 1, gets at 1.
    unfold try_catch, bind at 1, gets at 1. unfold bind at 1.
    fold (legacy_create_request w). fold req. rewrite legacy_fetch_run. cbv zeta.
    fold res. destruct res as [r|e].
    - destruct (ok r).
      + unfold bind at 1.
        destruct (Legacy.loadVideos _) as [[[]|e] w1]; reflexivity.
      + unfold Legacy.emit, Engine.emit, modify. cbn. rewrite <- app_assoc. reflexivity.
    - unfold Legacy.emit, Engine.emit, modify. cbn. rewrite <- app_assoc. reflexivity. }
  rewrite Hrun. split.
  - intros r Hres Hok. rewrite Hres, Hok.
    match goal with |- context [Legacy.loadVideos ?X] =>
      destruct (legacy_loadVideos_run X) as (w1 & res2 & logs & -> & _ & Htr & Hlogs & _)
    end.
    split; [reflexivity|]. split; [reflexivity|]. split; [reflexivity|].
    exists res2, logs. split; [|exact Hlogs].
    cbn [snd Legacy.shareForm_reset Legacy.assign bind modify Legacy.trace Legacy.set_dom].
    rewrite Htr. cbn. rewrite <- app_assoc. reflexivity.
  - intro H. destruct res as [r|e].
    + rewrite H. eexists _, _. reflexivity.
    + eexists _, _. reflexivity.
Qed.

End LegacyProperties.

Section LegacySession.
Context {P : Platform}.
Variable FormData_body : list (string * string) -> string.
Variable prompt_answer : list Event -> string -> option string.

Lemma map_msg_ok (items : list jsval) (w : Legacy.World) :
  existsb is_nullish items = false ->
  LegacyPage.map_msg items w = (Ok (map (fun i => field i "msg") items), w).
Proof.
  induction items as [|v items IH]; [reflexivity|].
  cbn [existsb]. intro H. apply orb_false_elim in H as [Hv Hrest].
  cbn [LegacyPage.map_msg map]. unfold bind at 1.
  assert (prop v "msg" w = (Ok (field v "msg"), w)) as ->
    by (destruct v; try discriminate; reflexivity).
  unfold bind at 1. rewrite (IH Hrest). reflexivity.
Qed.

Lemma map_msg_null (items : list jsval) (w : Legacy.World) :
  existsb is_nullish items = true ->
  exists e, LegacyPage.map_msg items w = (Throw e, w).
Proof.
  induction items as [|v items IH]; [discriminate|].
  cbn [existsb]. intro H.
  cbn [LegacyPage.map_msg]. unfold bind at 1.
  destruct (is_nullish v) eqn:Hv.
  - destruct v; try discriminate; eexists; reflexivity.
  - assert (prop v "msg" w = (Ok (field v "msg"), w)) as ->
      by (destruct v; try discriminate; reflexivity).
    unfold bind at 1. destruct (IH H) as [e ->]. eexists; reflexivity.
Qed.

(** X21: [login] of the older script, answered with a success status and a
    JSON object, takes [access_token] as it is, without testing it, hides
    the login form, shows the admin content, clears the login error and
    requests the list with [Bearer <token>]: with no token in the answer the
    header reads [Bearer undefined]. *)
Theorem legacy_login_success (username password : string) (w : Legacy.World)
    (r : Response) (fields : list (string * jsval)) :
  let req := legacy_login_request FormData_body username password in
  let tok := lookup "access_token" fields in
  let list_req := {| url := "/shared_videos"; method := "GET";
                     headers := [("Authorization", "Bearer " ++ ToString tok)];
                     body := None |} in
  net (Legacy.trace w ++ [EvFetch req]) req = Resolved r ->
  ok r = true -> json r = Ok (JObj fields) ->
  exists w' res2 logs,
    LegacyPage.login FormData_body username password w = (Ok tt, w') /\
    Legacy.token w' = tok /\
    Legacy.dom w' Legacy.loginForm = "none" /\
    Legacy.dom w' Legacy.adminContent = "block" /\
    Legacy.dom w' Legacy.loginError = "" /\
    Legacy.trace w' = (Legacy.trace w ++ EvFetch req :: EvSettle (Resolved r)
                                      :: EvFetch list_req :: EvSettle res2 :: logs)%list /\
    fetches logs = [].
Proof.
  intros req tok list_req Hres Hok Hj.
  unfold LegacyPage.login, try_catch, bind at 1.
  fold (legacy_login_request FormData_body username password). fold req.
  rewrite legacy_fetch_run. cbv zeta. rewrite Hres.
  unfold bind at 1, response_json. rewrite Hj. unfold ret at 1. rewrite Hok.
  unfold bind at 1. cbn [prop]. fold tok. unfold ret at 1.
  unfold bind at 1, modify at 1. unfold bind at 1, Legacy.assign at 1, modify at 1.
  unfold bind at 1, Legacy.assign at 1, modify at 1. unfold bind at 1.
  match goal with |- context [Legacy.loadVideos ?X] =>
    destruct (legacy_loadVideos_run X) as (w' & res2 & logs & -> & Htok & Htr & Hlogs & Hdom)
  end.
  eexists _, res2, logs. split; [reflexivity|].
  cbn [Legacy.assign modify Legacy.token Legacy.dom Legacy.trace Legacy.set_dom
       Legacy.Elem_eqb].
  split; [exact Htok|].
  split; [rewrite Hdom by discriminate; reflexivity|].
  split; [rewrite Hdom by discriminate; reflexivity|].
  split; [reflexivity|]. split; [|exact Hlogs].
  rewrite Htr. cbn. rewrite <- app_assoc. reflexivity.
Qed.
Lemma legacy_login_refused (username password : string) (w : Legacy.World)
    (r : Response) (data : jsval) :
  let req := legacy_login_request FormData_body username password in
  net (Legacy.trace w ++ [EvFetch req]) req = Resolved r ->
  ok r = false -> json r = Ok data -> is_nullish data = false ->
  let detail := field data "detail" in
  let w1 := Legacy.set_trace (Legacy.trace w ++ [EvFetch req; EvSettle (Resolved r)]) w in
  forall msg,
    (if truthy detail then
       match detail with
       | JArr items => existsb is_nullish items = false /\
                       msg = LegacyPage.join_items ", "
                               (map (fun i => field i "msg") items)
       | _ => msg = ToString detail
       end
     else msg = "Login failed") ->
  LegacyPage.login FormData_body username password w
  = (Ok tt, Legacy.set_trace
              (Legacy.trace w1 ++ [EvConsoleError "Login error:" (ToString data)])
              (Legacy.set_dom Legacy.loginError msg w1)).
Proof.
  intros req Hres Hok Hj Hnull detail w1 msg Hmsg.
  unfold LegacyPage.login, try_catch, bind at 1.
  fold (legacy_login_request FormData_body username password). fold req.
  rewrite legacy_fetch_run. cbv zeta. rewrite Hres. fold w1.
  unfold bind at 1, response_json. rewrite Hj. unfold ret at 1. rewrite Hok.
  unfold bind at 1.
  assert (prop data "detail" w1 = (Ok detail, w1)) as ->
    by (destruct data; try discriminate; reflexivity).
  unfold bind at 1.
  destruct (truthy detail) eqn:Ht.
  - destruct detail as [| | b | n | s | items | fs] eqn:Hd;
      try (rewrite Hmsg; reflexivity).
    destruct Hmsg as [Hitems ->]. unfold bind at 1.
    rewrite (map_msg_ok items w1 Hitems). reflexivity.
  - rewrite Hmsg. reflexivity.
Qed.

(** X22: a login of the older script that fails keeps the token, the views
    and the table, sends no request but its own, and shows one message:
    [Network error during login] when the request is rejected or the body is
    not JSON, whatever the status; for an error status with a JSON object,
    [Login failed] when [detail] is falsy, the detail itself when it is a
    non-empty string, and when it is a list the [msg] of its items joined by
    a comma and a space, unless an item is [null] or [undefined], which
    again gives [Network error during login]. *)
Theorem legacy_login_failure_message (username password : string)
    (w : Legacy.World) :
  let req := legacy_login_request FormData_body username password in
  let res := net (Legacy.trace w ++ [EvFetch req]) req in
  let run := LegacyPage.login FormData_body username password w in
  let refused (msg : string) :=
    fst run = Ok tt /\ Legacy.dom (snd run) Legacy.loginError = msg /\
    Legacy.token (snd run) = Legacy.token w /\
    Legacy.tbody (snd run) = Legacy.tbody w /\
    fetches (added (Legacy.trace w) (Legacy.trace (snd run))) = [req] /\
    forall e, e <> Legacy.loginError -> Legacy.dom (snd run) e = Legacy.dom w e in
  (forall e, res = Rejected e -> refused "Network error during login") /\
  (forall r e, res = Resolved r -> json r = Throw e ->
     refused "Network error during login") /\
  (forall r fields, res = Resolved r -> ok r = false -> json r = Ok (JObj fields) ->
     let detail := lookup "detail" fields in
     (truthy detail = false -> refused "Login failed") /\
     (forall s, detail = JStr s -> s <> "" -> refused s) /\
     (forall items, detail = JArr items ->
        if existsb is_nullish items then refused "Network error during login"
        else refused (LegacyPage.join_items ", "
                        (map (fun i => field i "msg") items)))).
Proof.
  intros req res run refused. subst refused run res. cbv beta.
  assert (forall (o : string) (t : list Event) (w2 : Legacy.World),
            fetches t = [] ->
            w2 = Legacy.set_trace
                   ((Legacy.trace w ++ [EvFetch req; EvSettle (net (Legacy.trace w ++ [EvFetch req]) req)]) ++ t)
                   (Legacy.set_dom Legacy.loginError o w) ->
            LegacyPage.login FormData_body username password w = (Ok tt, w2) ->
            fst (LegacyPage.login FormData_body username password w) = Ok tt /\
            Legacy.dom (snd (LegacyPage.login FormData_body username password w))
              Legacy.loginError = o /\
            Legacy.token (snd (LegacyPage.login FormData_body username password w))
            = Legacy.token w /\
            Legacy.tbody (snd (LegacyPage.login FormData_body username password w))
            = Legacy.tbody w /\
            fetches (added (Legacy.trace w)
                       (Legacy.trace (snd (LegacyPage.login FormData_body username
                                             password w)))) = [req] /\
            forall e, e <> Legacy.loginError ->
              Legacy.dom (snd (LegacyPage.login FormData_body username password w)) e
              = Legacy.dom w e) as Hshape.
  { intros o t w2 Ht -> ->. cbn [fst snd].
    split; [reflexivity|]. split; [reflexivity|]. split; [reflexivity|].
    split; [reflexivity|]. split.
    - cbn [Legacy.trace Legacy.set_trace]. rewrite <- app_assoc, added_app, fetches_app.
      rewrite Ht. reflexivity.
    - intros e He. destruct e; try reflexivity. congruence. }
  split; [|split].
  - intros e Hres.
    apply (Hshape _ [EvConsoleError "Network error:" (message e)] _ eq_refl eq_refl).
    unfold LegacyPage.login, try_catch, bind at 1.
    fold (legacy_login_request FormData_body username password). fold req.
    rewrite legacy_fetch_run. cbv zeta. rewrite Hres. reflexivity.
  - intros r e Hres Hj.
    apply (Hshape _ [EvConsoleError "Network error:" (message e)] _ eq_refl eq_refl).
    unfold LegacyPage.login, try_catch, bind at 1.
    fold (legacy_login_request FormData_body username password). fold req.
    rewrite legacy_fetch_run. cbv zeta. rewrite Hres.
    unfold bind at 1, response_json. rewrite Hj. reflexivity.
  - intros r fields Hres Hok Hj detail.
    pose proof (legacy_login_refused username password w r (JObj fields) Hres Hok Hj
                  eq_refl) as Hrun.
    cbv zeta in Hrun. cbn [field] in Hrun. fold req in Hrun. fold detail in Hrun.
    split; [|split].
    + intro Ht.
      apply (Hshape _ [EvConsoleError "Login error:" (ToString (JObj fields))] _
               eq_refl eq_refl).
      rewrite Hres. apply Hrun. rewrite Ht. reflexivity.
    + intros s Hd Hs.
      apply (Hshape _ [EvConsoleError "Login error:" (ToString (JObj fields))] _
               eq_refl eq_refl).
      rewrite Hres. apply Hrun. rewrite Hd. cbn [truthy].
      destruct (String.eqb_spec s ""); [contradiction | reflexivity].
    + intros items Hd. destruct (existsb is_nullish items) eqn:Hitems.
      * destruct (map_msg_null items
                    (Legacy.set_trace
                       (Legacy.trace w ++ [EvFetch req; EvSettle (Resolved r)]) w)
                    Hitems) as [e He].
        apply (Hshape _ [EvConsoleError "Network error:" (message e)] _ eq_refl eq_refl).
        unfold LegacyPage.login, try_catch, bind at 1.
        fold (legacy_login_request FormData_body username password). fold req.
        rewrite legacy_fetch_run. cbv zeta. rewrite Hres.
        unfold bind at 1, response_json. rewrite Hj. unfold ret at 1. rewrite Hok.
        unfold bind at 1. cbn [prop]. fold detail. rewrite Hd. unfold ret at 1.
        unfold bind at 1. cbn [truthy]. unfold bind at 1. rewrite He. reflexivity.
      * apply (Hshape _ [EvConsoleError "Login error:" (ToString (JObj fields))] _
                 eq_refl eq_refl).
        rewrite Hres. apply Hrun. rewrite Hd. cbn [truthy]. now split.
Qed.

(** X23: [editVideo] does nothing at all when either prompt is cancelled or
    left empty.  Otherwise it sends PUT [/edit_share/<id>] with the two
    answers as typed, and as soon as that request is answered, whatever the
    status, it requests the list; only a rejected request stops it, with an
    entry on the console and the page unchanged. *)
Theorem legacy_edit_ignores_status (share_id : string) (w : Legacy.World) :
  let name := prompt_answer (Legacy.trace w) "New video name:" in
  let days := prompt_answer (Legacy.trace w) "New days valid:" in
  (typed name && typed days = false ->
   LegacyPage.editVideo prompt_answer share_id w = (Ok tt, w)) /\
  (forall n d, name = Some n -> days = Some d -> n <> "" -> d <> "" ->
   let req := legacy_edit_request (Legacy.token w) share_id n d in
   let res := net (Legacy.trace w ++ [EvFetch req]) req in
   exists w',
     LegacyPage.editVideo prompt_answer share_id w = (Ok tt, w') /\
     Legacy.token w' = Legacy.token w /\
     match res with
     | Resolved r =>
         exists res2 logs,
           Legacy.trace w'
           = (Legacy.trace w ++ EvFetch req :: EvSettle res
                :: EvFetch (legacy_list_request w) :: EvSettle res2 :: logs)%list /\
           fetches logs = []
     | Rejected e =>
         w' = Legacy.set_trace
                (Legacy.trace w ++ [EvFetch req; EvSettle res;
                                    EvConsoleError "Error editing video:" (message e)])
                w
     end).
Proof.
  intros name days. split.
  - intro H. unfold LegacyPage.editVideo, LegacyPage.prompt, bind, gets, ret.
    fold name. fold days.
    destruct name as [n|], days as [d|]; cbn [typed truthy andb] in H |- *;
      rewrite ?H, ?andb_false_r; reflexivity.
  - intros n d Hn Hd Hne Hde req res.
    unfold LegacyPage.editVideo, LegacyPage.prompt, bind at 1, gets at 1.
    unfold bind at 1, ret at 1. unfold bind at 1, gets at 1. unfold bind at 1, ret at 1.
    fold name. fold days. rewrite Hn, Hd. cbn [truthy].
    destruct (String.eqb_spec n ""); [contradiction|].
    destruct (String.eqb_spec d ""); [contradiction|]. cbn [negb andb].
    unfold try_catch, bind at 1, gets at 1. unfold bind at 1.
    fold (legacy_edit_request (Legacy.token w) share_id n d). fold req.
    rewrite legacy_fetch_run. cbv zeta. fold res.
    destruct res as [r|e] eqn:Eres.
    + match goal with |- context [Legacy.loadVideos ?X] =>
        destruct (legacy_loadVideos_run X) as (w' & res2 & logs & -> & Htok & Htr & Hlogs & _)
      end.
      exists w'. split; [reflexivity|]. split; [exact Htok|].
      exists res2, logs. split; [|exact Hlogs].
      rewrite Htr. cbn. rewrite <- app_assoc. reflexivity.
    + eexists. split; [reflexivity|]. split; [reflexivity|].
      unfold Legacy.emit, Engine.emit, modify. cbn. rewrite <- app_assoc. reflexivity.
Qed.

End LegacySession.

(** ** The further properties at concrete inputs *)

(** A share that expires in more than a day, seen a little later. *)
Lemma days_remaining_order_witness :
  exists d d', calculateDaysRemaining 2000 (Num 90000000) = Num d /\
               calculateDaysRemaining 1000 (Num 180000000) = Num d' /\ d <= d'.
Proof.
  apply (proj1 (days_remaining_order 2000 1000 90000000 180000000)); lia.
Defined.

Lemma escapeHTML_faithful_witness : ToString (JStr "a<b") = ToString (JStr "a<b").
Proof.
  apply (proj1 (escapeHTML_faithful (JStr "a<b") (JStr "a<b"))). reflexivity.
Defined.

(** A user name with a space and a password with the two separators. *)
Lemma login_form_data_unambiguous_witness : "a b" = "a b" /\ "p&q=1" = "p&q=1".
Proof.
  apply (proj2 (proj2 (proj2 (login_form_data_unambiguous "a b" "p&q=1")))).
  reflexivity.
Defined.

(** A login that the backend accepts. *)
Lemma login_success_lists_with_token_witness :
  exists w' logs,
    @loginFormSubmit login_platform "admin" "secret" signed_out_page = (Ok tt, w') /\
    console_only logs = true /\
    authToken w' = JStr "tok1" /\ stored_token w' = Some "tok1".
Proof.
  destruct (@login_success_lists_with_token login_platform "admin" "secret"
              signed_out_page
              {| status := 200; content_length := None;
                 json := Ok (JObj [("access_token", JStr "tok1");
                                   ("token_type", JStr "bearer")]) |}
              [("access_token", JStr "tok1"); ("token_type", JStr "bearer")]
              eq_refl eq_refl eq_refl eq_refl)
    as (w' & logs & Hrun & _ & Hlogs & _ & Hview).
  change (authToken w' = JStr "tok1" /\ stored_token w' = Some "tok1" /\
          dom w' loginSection = "none" /\ dom w' adminContent = "block") in Hview.
  exists w', logs. split; [exact Hrun|]. split; [exact Hlogs|].
  split; [exact (proj1 Hview) | exact (proj1 (proj2 Hview))].
Defined.

(** A login that the backend refuses with a message. *)
Lemma login_failure_shows_message_witness :
  logged_out (snd (@loginFormSubmit rejecting_platform "admin" "wrong" signed_out_page))
  /\ dom (snd (@loginFormSubmit rejecting_platform "admin" "wrong" signed_out_page))
         loginError = "Token expired".
Proof.
  destruct (proj1 (proj2 (proj2 (@login_failure_shows_message rejecting_platform
                                   "admin" "wrong" signed_out_page)))
              {| status := 401; content_length := None;
                 json := Ok (JObj [("detail", JStr "Token expired")]) |}
              [("detail", JStr "Token expired")] eq_refl eq_refl eq_refl)
    as (_ & Hout & Hmsg & _).
  split; [exact Hout | exact Hmsg].
Defined.

(** A backend that answers the login with an empty object. *)
Lemma login_without_token_stays_out_witness :
  exists w',
    @loginFormSubmit working_platform "admin" "secret" signed_out_page = (Ok tt, w') /\
    logged_out w' /\ dom w' loginError = "" /\ tbody w' = [failed_row].
Proof.
  destruct (@login_without_token_stays_out working_platform "admin" "secret"
              signed_out_page
              {| status := 200; content_length := None; json := Ok (JObj []) |}
              (JObj []) eq_refl eq_refl eq_refl eq_refl eq_refl)
    as (w' & Hrun & Hout & Hmsg & Hrows & _).
  exists w'. repeat split; assumption || apply Hout.
Defined.

(** A page loaded with nothing in local storage. *)
Lemma initialize_by_stored_token_witness :
  exists w', @initialize working_platform signed_out_page = (Ok tt, w') /\
             logged_out w' /\ trace w' = trace signed_out_page /\
             tbody w' = tbody signed_out_page.
Proof.
  apply (proj1 (@initialize_by_stored_token working_platform signed_out_page)).
  left. reflexivity.
Defined.



(** The delete button of the one row of a table listing [script_record]. *)
Lemma delete_targets_listed_record_witness :
  exists w' rest,
    @click_delete working_platform 0 (listed_page [script_record]) = (Ok tt, w') /\
    trace w' = (EvConfirm "Are you sure you want to delete share abc123?" true
                :: EvFetch (api_request "/delete_share/abc123" "DELETE" JNull true
                              (JStr "tok"))
                :: rest)%list.
Proof.
  destruct (proj2 (@delete_targets_listed_record working_platform [script_record] 0%nat
                     script_record 1000 (listed_page [script_record])
                     eq_refl eq_refl eq_refl) eq_refl eq_refl)
    as (w' & rest & Hrun & Htrace).
  exists w'. eexists. split; [exact Hrun | exact Htrace].
Defined.


(** An unauthenticated call answered 401, with no token held. *)
Lemma apiRequest_touches_only_session_witness :
  auth_view (snd (@apiRequest rejecting_platform "/health" "GET" JNull false
                    signed_out_page))
  = auth_view signed_out_page.
Proof.
  apply (proj2 (proj2 (proj2 (proj2
           (@apiRequest_touches_only_session rejecting_platform "/health" "GET" JNull
              false signed_out_page))))).
  reflexivity.
Defined.

(** Saving the untouched dialog of an expired record asks for seven days. *)
Lemma untouched_edit_resends_record_witness :
  exists w1 w2 rest,
    @click_edit working_platform 0 (listed_page [expired_record]) = (Ok tt, w1) /\
    @saveEditClick working_platform w1 = (Ok tt, w2) /\
    trace w2
    = (EvFetch (api_request "/edit_share/old777" "PUT"
                  (JObj [("video_name", JStr "Holiday");
                         ("stash_video_id", JNum (Num 0));
                         ("days_valid", JNum (Num 7))]) true (JStr "tok"))
       :: rest)%list.
Proof.
  assert (video_name expired_record <> "") as Hname by discriminate.
  destruct (@untouched_edit_resends_record working_platform [expired_record] 0%nat
              expired_record 1000 (listed_page [expired_record])
              eq_refl eq_refl eq_refl Hname eq_refl eq_refl)
    as (w1 & w2 & rest & Hclick & _ & Hsave & Htrace).
  exists w1, w2. eexists. split; [exact Hclick|]. split; [exact Hsave | exact Htrace].
Defined.


(** A lookup with the identifier left empty. *)
Lemma lookup_fills_name_only_witness :
  @lookupTitleClick working_platform (blank_page (JStr "tok"))
  = (Ok tt, set_dom shareError "Please enter a Stash Video ID."
              (cleared (blank_page (JStr "tok")))).
Proof.
  apply (proj1 (@lookup_fills_name_only working_platform (blank_page (JStr "tok")))).
  reflexivity.
Defined.

(** The older script listing one record with five hits. *)
Lemma legacy_totals_witness :
  exists w',
    @Legacy.loadVideos working_platform legacy_create_page = (Ok tt, w') /\
    Legacy.dom w' Legacy.totalShares = "1" /\ Legacy.dom w' Legacy.totalHits = "5".
Proof.
  destruct (@legacy_totals working_platform legacy_create_page
              {| status := 200; content_length := None;
                 json := Ok (JArr [record_json script_record]) |}
              [script_record] eq_refl eq_refl eq_refl)
    as (w' & Hrun & _ & Hshares & Hhits & _).
  exists w'. split; [exact Hrun|]. split; [exact Hshares | exact Hhits].
Defined.

(** The older script refused by the backend. *)
Lemma legacy_failed_load_leaves_page_witness :
  Legacy.tbody (snd (@Legacy.loadVideos rejecting_platform legacy_create_page))
  = Legacy.tbody legacy_create_page.
Proof.
  apply (proj1 (proj2 (proj2 (proj2 (proj2
           (@legacy_failed_load_leaves_page rejecting_platform legacy_create_page)))))
           {| status := 401; content_length := None;
              json := Ok (JObj [("detail", JStr "Token expired")]) |}
           eq_refl eq_refl).
Defined.

(** A create of the older script that succeeds. *)
Lemma legacy_create_resets_on_success_witness :
  Legacy.dom (snd (@Legacy.shareFormSubmit working_platform legacy_create_page))
    Legacy.videoName = "".
Proof.
  apply (proj1 (@legacy_create_resets_on_success working_platform legacy_create_page)
           {| status := 200; content_length := None;
              json := Ok (JObj [("share_url",
                                 JStr "https://kinpeek.example/share/new1")]) |}
           eq_refl eq_refl).
Defined.

(** A login of the older script that the backend accepts. *)
Lemma legacy_login_success_witness :
  exists w' res2 logs,
    @LegacyPage.login login_platform sample_form_body "admin" "secret"
      legacy_signed_out = (Ok tt, w') /\
    Legacy.token w' = JStr "tok1" /\
    Legacy.trace w'
    = (EvFetch (legacy_login_request sample_form_body "admin" "secret")
       :: EvSettle (respond 200 (JObj [("access_token", JStr "tok1");
                                       ("token_type", JStr "bearer")]))
       :: EvFetch {| url := "/shared_videos"; method := "GET";
                     headers := [("Authorization", "Bearer tok1")]; body := None |}
       :: EvSettle res2 :: logs)%list.
Proof.
  destruct (@legacy_login_success login_platform sample_form_body "admin" "secret"
              legacy_signed_out
              {| status := 200; content_length := None;
                 json := Ok (JObj [("access_token", JStr "tok1");
                                   ("token_type", JStr "bearer")]) |}
              [("access_token", JStr "tok1"); ("token_type", JStr "bearer")]
              eq_refl eq_refl eq_refl)
    as (w' & res2 & logs & Hrun & Htok & _ & _ & _ & Htrace & _).
  exists w', res2, logs. split; [exact Hrun|]. split; [exact Htok | exact Htrace].
Defined.

(** A login of the older script refused with a message. *)
Lemma legacy_login_failure_message_witness :
  Legacy.dom (snd (@LegacyPage.login rejecting_platform sample_form_body
                     "admin" "wrong" legacy_signed_out)) Legacy.loginError
  = "Token expired".
Proof.
  assert ("Token expired" <> "") as Hne by discriminate.
  destruct (proj1 (proj2 (proj2 (proj2
              (@legacy_login_failure_message rejecting_platform sample_form_body
                 "admin" "wrong" legacy_signed_out))
              {| status := 401; content_length := None;
                 json := Ok (JObj [("detail", JStr "Token expired")]) |}
              [("detail", JStr "Token expired")] eq_refl eq_refl eq_refl))
              "Token expired" eq_refl Hne)
    as (_ & Hmsg & _).
  exact Hmsg.
Defined.

(** A user who cancels the prompts of [editVideo]. *)
Lemma legacy_edit_ignores_status_witness :
  @LegacyPage.editVideo working_platform cancelling_user "abc123" legacy_create_page
  = (Ok tt, legacy_create_page).
Proof.
  apply (proj1 (@legacy_edit_ignores_status working_platform cancelling_user
                  "abc123" legacy_create_page)).
  reflexivity.
Defined.
